(** * House of Fraser financial ratio analysis: a shallow embedding

    The ratio engine of [src/02_financial_ratio_analysis.py]
    ([FinancialRatioAnalyzer]) over a small model of the pandas objects it
    uses.

    - A numeric cell is an IEEE binary64 value, Rocq's primitive [float];
      Python's decimal literals and Rocq's are read to the same nearest
      double.  An [int64] column (the years) is held as the floats of its
      integers.
    - A [Series] is the list of its cells under pandas' default
      [RangeIndex] (label = position), which is what [pd.DataFrame(dict)]
      gives the tables of the source.  Arithmetic between two series aligns
      them on that index: a label missing on one side gives NaN.
    - The analyzer's methods run in a state and error monad over the
      instance ([self.income], [self.balance], [self.ratios]). *)

From Stdlib Require Import Floats ZArith QArith Qabs Qpower String Ascii Bool Arith
  Lia Lqa List.
Import ListNotations.

Set Warnings "-inexact-float".

Local Close Scope Q_scope.
Local Open Scope nat_scope.
Local Open Scope string_scope.
Local Open Scope list_scope.

(* ================================================================== *)
(** ** float64 cells *)

(** [np.nan] *)
Definition NaN : float := PrimFloat.nan.

(** [pd.isna] on a float cell. *)
Definition isna (x : float) : bool := PrimFloat.is_nan x.

(** Python's [x > y], [x < y] and [x != y] on floats (all false on NaN but
    [!=], which is true). *)
Definition gt (x y : float) : bool := PrimFloat.ltb y x.
Definition lt (x y : float) : bool := PrimFloat.ltb x y.
Definition ne (x y : float) : bool := negb (PrimFloat.eqb x y).

(** A cell that holds a number: neither NaN nor an infinity. *)
Definition finite (x : float) : bool := PrimFloat.is_finite x.

(** Agreement within a relative tolerance of [1e-6], the spec's reading of
    "within floating-point tolerance". *)
Definition close (x y : float) : bool :=
  PrimFloat.leb (PrimFloat.abs (x - y)) (1e-6 * PrimFloat.abs y).

(* ================================================================== *)
(** ** Series *)

Definition Series := list float.

(** [a (op) b] for two series: aligned on the index, NaN where a label is
    on one side only. *)
Fixpoint binop (op : float -> float -> float) (a b : Series) : Series :=
  match a, b with
  | x :: a', y :: b' => op x y :: binop op a' b'
  | [], _ => map (fun _ => NaN) b
  | _, [] => map (fun _ => NaN) a
  end.

(** [s (op) k] for a scalar [k]. *)
Definition scalar (op : float -> float -> float) (s : Series) (k : float) : Series :=
  map (fun x => op x k) s.

Declare Scope series_scope.
Delimit Scope series_scope with series.
Infix "/" := (binop PrimFloat.div) : series_scope.
Infix "-" := (binop PrimFloat.sub) : series_scope.
Infix "*" := (binop PrimFloat.mul) : series_scope.
Infix "/|" := (scalar PrimFloat.div) (at level 40, left associativity) : series_scope.
Infix "*|" := (scalar PrimFloat.mul) (at level 40, left associativity) : series_scope.
Infix "-|" := (scalar PrimFloat.sub) (at level 50, left associativity) : series_scope.

(** [s.reindex(range(n))]: the first [n] cells, NaN past the end. *)
Fixpoint reindex (n : nat) (s : Series) : Series :=
  match n with
  | O => []
  | S n' =>
      match s with
      | [] => NaN :: reindex n' []
      | x :: s' => x :: reindex n' s'
      end
  end.

(** [s.dropna()] *)
Definition dropna (s : Series) : Series := filter (fun x => negb (isna x)) s.

(** [s.iloc[0]] and [s.iloc[-1]], on a series known to be non-empty. *)
Definition iloc_first (s : Series) : float := hd NaN s.
Definition iloc_last (s : Series) : float := last s NaN.

(** [s.shift(1)]: every cell one row down, NaN in the first row. *)
Definition shift (s : Series) : Series := firstn (length s) (NaN :: s).

(** [s.ffill()], what [fill_method='pad'] does: a missing cell takes the
    last value present above it. *)
Fixpoint ffill_from (prev : float) (s : Series) : Series :=
  match s with
  | [] => []
  | x :: s' => let y := if isna x then prev else x in y :: ffill_from y s'
  end.

Definition ffill (s : Series) : Series := ffill_from NaN s.

(** [s.pct_change()]: [data / data.shift(1) - 1], where [data] is [s]
    forward-filled when [pad] holds.  pandas before 3.0 pads by default
    ([fill_method='pad']), pandas 3.0 does not; the source does not pin a
    version, so the default is a parameter of the model. *)
Definition pct_change (pad : bool) (s : Series) : Series :=
  let data := if pad then ffill s else s in
  ((data / shift data) -| 1)%series.

(* ================================================================== *)
(** ** DataFrame *)

(** A column is numeric (dtype [float64] or [int64]) or holds Python
    strings (dtype [object]). *)
Inductive Column : Type :=
  | Numeric (v : Series)
  | Labels (v : list string).

(** [col.dtype in ['float64', 'int64']] *)
Definition is_numeric (c : Column) : bool :=
  match c with Numeric _ => true | Labels _ => false end.

Definition column_length (c : Column) : nat :=
  match c with Numeric v => length v | Labels v => length v end.

(** Reindexing a string column: missing cells are NaN as well; the model
    never reads them and writes them as the empty string. *)
Fixpoint reindex_labels (n : nat) (s : list string) : list string :=
  match n with
  | O => []
  | S n' =>
      match s with
      | [] => "" :: reindex_labels n' []
      | x :: s' => x :: reindex_labels n' s'
      end
  end.

Definition reindex_column (n : nat) (c : Column) : Column :=
  match c with
  | Numeric v => Numeric (reindex n v)
  | Labels v => Labels (reindex_labels n v)
  end.

(** A frame: the length of its [RangeIndex] and its columns in order. *)
Record DataFrame : Type := mkDataFrame {
  nrows : nat;
  columns : list (string * Column)
}.

(** Assignment to a key of an insertion-ordered dict: an existing key keeps
    its place, a new key goes last. *)
Fixpoint assign {V : Type} (k : string) (v : V) (d : list (string * V)) : list (string * V) :=
  match d with
  | [] => [(k, v)]
  | (k', v') :: d' => if String.eqb k' k then (k, v) :: d' else (k', v') :: assign k v d'
  end.

(** [d.get(k)] *)
Fixpoint lookup {V : Type} (k : string) (d : list (string * V)) : option V :=
  match d with
  | [] => None
  | (k', v) :: d' => if String.eqb k' k then Some v else lookup k d'
  end.

(** [k in d] *)
Definition has_key {V : Type} (k : string) (d : list (string * V)) : bool :=
  match lookup k d with Some _ => true | None => false end.

Definition keys {V : Type} (d : list (string * V)) : list string := map fst d.

(** [pd.DataFrame({name: series, ...})]: the index is the union of the
    series' indexes, each series reindexed to it. *)
Definition max_length (d : list (string * Column)) : nat :=
  fold_right (fun c m => Nat.max (column_length (snd c)) m) 0 d.

Definition DataFrame_of (d : list (string * Column)) : DataFrame :=
  let n := max_length d in
  {| nrows := n; columns := map (fun c => (fst c, reindex_column n (snd c))) d |}.

(** [df[name] = value] for a series [value]: the value is reindexed to the
    frame's index.  A frame whose index is empty first takes the index of a
    non-empty value (pandas' [_ensure_valid_index]). *)
Definition setitem (df : DataFrame) (name : string) (value : Column) : DataFrame :=
  let n := if (nrows df =? 0)%nat && negb (column_length value =? 0)%nat
           then column_length value else nrows df in
  {| nrows := n;
     columns := assign name (reindex_column n value)
                  (map (fun c => (fst c, reindex_column n (snd c))) (columns df)) |}.

(** [df[name]] for a numeric column, and one of its cells. *)
Definition getitem (df : DataFrame) (name : string) : option Column := lookup name (columns df).

Definition cell (df : DataFrame) (name : string) (i : nat) : option float :=
  match getitem df name with
  | Some (Numeric v) => nth_error v i
  | _ => None
  end.

Definition label_cell (df : DataFrame) (name : string) (i : nat) : option string :=
  match getitem df name with
  | Some (Labels v) => nth_error v i
  | _ => None
  end.

(* ================================================================== *)
(** ** The input tables *)

(** A row of the income statement and of the balance sheet, with the
    fields of the source's data ([__main__]).  A table is the list of its
    rows in index order, so [df['Revenue']] is [col Revenue df]. *)
Record IncomeRow : Type := mkIncomeRow {
  iYear : float;
  Revenue : float;
  COGS : float;
  Gross_Profit : float;
  Operating_Expenses : float;
  EBIT : float;
  Interest_Expense : float;
  Net_Income : float
}.

Record BalanceRow : Type := mkBalanceRow {
  bYear : float;
  Total_Assets : float;
  Current_Assets : float;
  Fixed_Assets : float;
  Total_Liabilities : float;
  Current_Liabilities : float;
  Long_Term_Debt : float;
  Shareholders_Equity : float
}.

Definition IncomeStatement := list IncomeRow.
Definition BalanceSheet := list BalanceRow.

Definition col {R : Type} (field : R -> float) (df : list R) : Series := map field df.

(* ================================================================== *)
(** ** The analyzer: state, errors, monad *)

(** [self]: the two tables and the dict [self.ratios] of the tables
    computed so far, by category, in insertion order. *)
Record Analyzer : Type := mkAnalyzer {
  income : IncomeStatement;
  balance : BalanceSheet;
  ratios : list (string * DataFrame)
}.

Inductive exn : Type :=
  | KeyError (key : string)
  | TypeError.

Inductive outcome (A : Type) : Type :=
  | Returns (a : A)
  | Raises (e : exn).

Arguments Returns {A} a.
Arguments Raises {A} e.

(** A method: from the instance to a result and the instance after the
    call, or to an exception. *)
Definition M (A : Type) : Type := Analyzer -> outcome (A * Analyzer).

Definition ret {A : Type} (a : A) : M A := fun self => Returns (a, self).

Definition bind {A B : Type} (m : M A) (k : A -> M B) : M B :=
  fun self =>
    match m self with
    | Returns (a, self') => k a self'
    | Raises e => Raises e
    end.

Definition raise {A : Type} (e : exn) : M A := fun _ => Raises e.

Definition get_self : M Analyzer := fun self => Returns (self, self).

(** [self.ratios[category] = df] *)
Definition set_ratios (category : string) (df : DataFrame) : M unit :=
  fun self =>
    Returns (tt, {| income := income self; balance := balance self;
                    ratios := assign category df (ratios self) |}).

(** [d[k]], a [KeyError] when the key is absent. *)
Definition subscript {V : Type} (d : list (string * V)) (k : string) : M V :=
  match lookup k d with
  | Some v => ret v
  | None => raise (KeyError k)
  end.

(** [df[name]] read for arithmetic: a [TypeError] on a column of strings. *)
Definition numeric_column (df : DataFrame) (name : string) : M Series :=
  bind (subscript (columns df) name)
    (fun c => match c with
              | Numeric v => ret v
              | Labels _ => raise TypeError
              end).

Declare Scope method_scope.
Delimit Scope method_scope with method.
Notation "x <- m ;; k" := (bind m (fun x => k))
  (at level 61, m at next level, right associativity) : method_scope.
Notation "m ;; k" := (bind m (fun _ => k))
  (at level 61, right associativity) : method_scope.
Local Open Scope method_scope.

(** The result of a call that returned. *)
Definition result {A : Type} (o : outcome (A * Analyzer)) : option A :=
  match o with Returns (a, _) => Some a | Raises _ => None end.

(** [FinancialRatioAnalyzer(income_statement, balance_sheet)]: [__init__]
    stores its arguments and an empty [ratios]. *)
Definition FinancialRatioAnalyzer (income_statement : IncomeStatement)
    (balance_sheet : BalanceSheet) : Analyzer :=
  {| income := income_statement; balance := balance_sheet; ratios := [] |}.

(* ================================================================== *)
(** ** The ratio operations *)

Definition calculate_profitability_ratios : M DataFrame :=
  self <- get_self ;;
  let profitability := DataFrame_of
    [ ("Year", Numeric (col iYear (income self)));
      ("Gross_Margin_%",
        Numeric (col Gross_Profit (income self) / col Revenue (income self) *| 100)%series);
      ("EBIT_Margin_%",
        Numeric (col EBIT (income self) / col Revenue (income self) *| 100)%series);
      ("Net_Margin_%",
        Numeric (col Net_Income (income self) / col Revenue (income self) *| 100)%series) ] in
  let profitability := setitem profitability "ROA_%"
    (Numeric (col Net_Income (income self) / col Total_Assets (balance self) *| 100)%series) in
  let profitability := setitem profitability "ROE_%"
    (Numeric (col Net_Income (income self) / col Shareholders_Equity (balance self) *| 100)%series) in
  set_ratios "profitability" profitability ;;
  ret profitability.

Definition calculate_liquidity_ratios : M DataFrame :=
  self <- get_self ;;
  let liquidity := DataFrame_of
    [ ("Year", Numeric (col bYear (balance self)));
      ("Current_Ratio",
        Numeric (col Current_Assets (balance self) / col Current_Liabilities (balance self))%series);
      ("Working_Capital",
        Numeric (col Current_Assets (balance self) - col Current_Liabilities (balance self))%series) ] in
  working_capital <- numeric_column liquidity "Working_Capital" ;;
  let liquidity := setitem liquidity "WC_to_Revenue_%"
    (Numeric (working_capital / col Revenue (income self) *| 100)%series) in
  set_ratios "liquidity" liquidity ;;
  ret liquidity.

Definition calculate_leverage_ratios : M DataFrame :=
  self <- get_self ;;
  let leverage := DataFrame_of
    [ ("Year", Numeric (col bYear (balance self)));
      ("Debt_to_Equity",
        Numeric (col Long_Term_Debt (balance self) / col Shareholders_Equity (balance self))%series);
      ("Debt_to_Assets",
        Numeric (col Long_Term_Debt (balance self) / col Total_Assets (balance self))%series);
      ("Equity_Multiplier",
        Numeric (col Total_Assets (balance self) / col Shareholders_Equity (balance self))%series) ] in
  let leverage := setitem leverage "Interest_Coverage"
    (Numeric (col EBIT (income self) / col Interest_Expense (income self))%series) in
  set_ratios "leverage" leverage ;;
  ret leverage.

(** [pad]: whether this pandas pads in [pct_change] (see [pct_change]). *)
Definition calculate_efficiency_ratios (pad : bool) : M DataFrame :=
  self <- get_self ;;
  let efficiency := DataFrame_of
    [ ("Year", Numeric (col iYear (income self)));
      ("Asset_Turnover",
        Numeric (col Revenue (income self) / col Total_Assets (balance self))%series);
      ("Fixed_Asset_Turnover",
        Numeric (col Revenue (income self) / col Fixed_Assets (balance self))%series) ] in
  asset_turnover <- numeric_column efficiency "Asset_Turnover" ;;
  let efficiency := setitem efficiency "Asset_Turnover_Change_%"
    (Numeric (pct_change pad asset_turnover *| 100)%series) in
  set_ratios "efficiency" efficiency ;;
  ret efficiency.

Definition analyze_dupont_model : M DataFrame :=
  self <- get_self ;;
  let dupont := DataFrame_of
    [ ("Year", Numeric (col iYear (income self)));
      ("Net_Margin_%",
        Numeric (col Net_Income (income self) / col Revenue (income self) *| 100)%series);
      ("Asset_Turnover",
        Numeric (col Revenue (income self) / col Total_Assets (balance self))%series);
      ("Equity_Multiplier",
        Numeric (col Total_Assets (balance self) / col Shareholders_Equity (balance self))%series) ] in
  net_margin <- numeric_column dupont "Net_Margin_%" ;;
  asset_turnover <- numeric_column dupont "Asset_Turnover" ;;
  equity_multiplier <- numeric_column dupont "Equity_Multiplier" ;;
  let dupont := setitem dupont "ROE_Calculated_%"
    (Numeric (net_margin /| 100 * asset_turnover * equity_multiplier *| 100)%series) in
  let dupont := setitem dupont "ROE_Actual_%"
    (Numeric (col Net_Income (income self) / col Shareholders_Equity (balance self) *| 100)%series) in
  ret dupont.

(** The dict [trends] of [identify_ratio_trends]. *)
Record Trends : Type := mkTrends {
  improving : list string;
  declining : list string;
  stable : list string
}.

(** [(values.iloc[-1] - values.iloc[0]) / abs(values.iloc[0])
     if values.iloc[0] != 0 else 0] *)
Definition relative_change (values : Series) : float :=
  if ne (iloc_first values) 0
  then ((iloc_last values - iloc_first values) / PrimFloat.abs (iloc_first values))%float
  else 0%float.

(** [f"{category}.{col}"] *)
Definition trend_label (category column : string) : string := category ++ "." ++ column.

(** The body of the inner loop, for the column [name] of [df]. *)
Definition trend_step (category : string) (df : DataFrame) (trends : Trends)
    (name : string) : Trends :=
  match getitem df name with
  | Some c =>
      if negb (String.eqb name "Year") && is_numeric c then
        match c with
        | Numeric s =>
            let values := dropna s in
            if (1 <? length values)%nat then
              let trend := relative_change values in
              if gt trend 0.1 then
                {| improving := improving trends ++ [trend_label category name];
                   declining := declining trends;
                   stable := stable trends |}
              else if lt trend (-0.1) then
                {| improving := improving trends;
                   declining := declining trends ++ [trend_label category name];
                   stable := stable trends |}
              else
                {| improving := improving trends;
                   declining := declining trends;
                   stable := stable trends ++ [trend_label category name] |}
            else trends
        | Labels _ => trends
        end
      else trends
  | None => trends
  end.

Definition trend_table (trends : Trends) (entry : string * DataFrame) : Trends :=
  fold_left (trend_step (fst entry) (snd entry)) (keys (columns (snd entry))) trends.

Definition identify_ratio_trends : M Trends :=
  self <- get_self ;;
  let trends := {| improving := []; declining := []; stable := [] |} in
  ret (fold_left trend_table (ratios self) trends).

Definition generate_ratio_summary : M DataFrame :=
  self <- get_self ;;
  profitability <- subscript (ratios self) "profitability" ;;
  gross_margin <- subscript (columns profitability) "Gross_Margin_%" ;;
  profitability <- subscript (ratios self) "profitability" ;;
  ebit_margin <- subscript (columns profitability) "EBIT_Margin_%" ;;
  profitability <- subscript (ratios self) "profitability" ;;
  roe <- subscript (columns profitability) "ROE_%" ;;
  liquidity <- subscript (ratios self) "liquidity" ;;
  current_ratio <- subscript (columns liquidity) "Current_Ratio" ;;
  leverage <- subscript (ratios self) "leverage" ;;
  debt_to_equity <- subscript (columns leverage) "Debt_to_Equity" ;;
  efficiency <- subscript (ratios self) "efficiency" ;;
  asset_turnover <- subscript (columns efficiency) "Asset_Turnover" ;;
  ret (DataFrame_of
    [ ("Year", Numeric (col iYear (income self)));
      ("Gross_Margin_%", gross_margin);
      ("EBIT_Margin_%", ebit_margin);
      ("ROE_%", roe);
      ("Current_Ratio", current_ratio);
      ("Debt_to_Equity", debt_to_equity);
      ("Asset_Turnover", asset_turnover) ]).

(** The default industry benchmarks, for UK retail. *)
Definition default_benchmarks : list (string * float) :=
  [ ("Gross_Margin_%", 35.0%float);
    ("EBIT_Margin_%", 5.0%float);
    ("ROE_%", 12.0%float);
    ("Current_Ratio", 1.5%float);
    ("Debt_to_Equity", 1.0%float);
    ("Asset_Turnover", 1.2%float) ].

(** ['Above' if x > 0 else 'Below'] *)
Definition performance (x : float) : string := if gt x 0 then "Above" else "Below".

(** The body of the loop over [industry_benchmarks.items()]. *)
Definition benchmark_step (summary : DataFrame) (benchmark_analysis : DataFrame)
    (item : string * float) : M DataFrame :=
  let '(metric, benchmark) := item in
  if has_key metric (columns summary) then
    actual <- numeric_column summary metric ;;
    let benchmark_analysis := setitem benchmark_analysis (metric ++ "_vs_Industry")
      (Numeric (actual -| benchmark)%series) in
    variance <- numeric_column benchmark_analysis (metric ++ "_vs_Industry") ;;
    ret (setitem benchmark_analysis (metric ++ "_Performance")
           (Labels (map performance variance)))
  else ret benchmark_analysis.

(** A [for] loop whose body may raise. *)
Fixpoint for_each {A S : Type} (body : S -> A -> M S) (items : list A) (s : S) : M S :=
  match items with
  | [] => ret s
  | x :: items' => s' <- body s x ;; for_each body items' s'
  end.

(** [industry_benchmarks] is a dict from metric to benchmark value, held as
    the list of its items in order; [not industry_benchmarks] is true of
    the empty dict. *)
Definition benchmark_against_industry (industry_benchmarks : list (string * float))
    : M DataFrame :=
  let industry_benchmarks :=
    match industry_benchmarks with
    | [] => default_benchmarks
    | _ => industry_benchmarks
    end in
  summary <- generate_ratio_summary ;;
  year <- subscript (columns summary) "Year" ;;
  let benchmark_analysis := DataFrame_of [ ("Year", year) ] in
  for_each (benchmark_step summary) industry_benchmarks benchmark_analysis.

(* ================================================================== *)
(** ** The demonstration run *)

(** What [__main__] holds after its calls. *)
Record Report : Type := mkReport {
  profitability_table : DataFrame;
  liquidity_table : DataFrame;
  leverage_table : DataFrame;
  efficiency_table : DataFrame;
  dupont_table : DataFrame;
  trends_found : Trends;
  benchmark_table : DataFrame
}.

(** The calls of [__main__] on an analyzer, in order; [benchmarks] is the
    mapping handed to [benchmark_against_industry] (the source passes the
    empty dict). *)
Definition pipeline (pad : bool) (benchmarks : list (string * float)) : M Report :=
  profitability <- calculate_profitability_ratios ;;
  liquidity <- calculate_liquidity_ratios ;;
  leverage <- calculate_leverage_ratios ;;
  efficiency <- calculate_efficiency_ratios pad ;;
  dupont <- analyze_dupont_model ;;
  trends <- identify_ratio_trends ;;
  benchmark <- benchmark_against_industry benchmarks ;;
  ret {| profitability_table := profitability;
         liquidity_table := liquidity;
         leverage_table := leverage;
         efficiency_table := efficiency;
         dupont_table := dupont;
         trends_found := trends;
         benchmark_table := benchmark |}.

Definition main (pad : bool) (income_df : IncomeStatement) (balance_df : BalanceSheet)
    : outcome (Report * Analyzer) :=
  pipeline pad [] (FinancialRatioAnalyzer income_df balance_df).

(** The sample data of [__main__]. *)
Definition income_data : IncomeStatement :=
  [ mkIncomeRow 2015 784.9 324.7 460.2 435.5 24.7 15.5 2.5;
    mkIncomeRow 2016 826.6 342.4 484.2 465.2 19.0 18.5 18.4;
    mkIncomeRow 2017 836.3 353.2 483.1 451.3 31.8 19.7 14.7;
    mkIncomeRow 2018 573.1 348.9 224.2 451.3 (-0.4) 19.8 2.2 ].

Definition balance_data : BalanceSheet :=
  [ mkBalanceRow 2015 1250.0 450.0 800.0 950.0 380.0 570.0 300.0;
    mkBalanceRow 2016 1320.0 480.0 840.0 1020.0 410.0 610.0 300.0;
    mkBalanceRow 2017 1290.0 460.0 830.0 1010.0 395.0 615.0 280.0;
    mkBalanceRow 2018 980.0 320.0 660.0 820.0 290.0 530.0 160.0 ].

(* ================================================================== *)
(** ** The formulas, over any arithmetic *)

(** The cell formulas of the DuPont table, written once over the
    operations they use, so that they can be read in float64 (what the code
    computes) and in exact rational arithmetic (what the algebra says). *)
Class Arithmetic (T : Type) : Type := {
  times : T -> T -> T;
  over : T -> T -> T;
  hundred : T
}.

#[global] Instance float64_arithmetic : Arithmetic float :=
  {| times := PrimFloat.mul; over := PrimFloat.div; hundred := 100%float |}.

#[global] Instance exact_arithmetic : Arithmetic Q :=
  {| times := Qmult; over := Qdiv; hundred := 100%Q |}.

(** [Net_Margin_% / 100 * Asset_Turnover * Equity_Multiplier * 100], with
    the three factors as the table computes them. *)
Definition ROE_Calculated {T : Type} `{Arithmetic T}
    (net_income revenue total_assets equity : T) : T :=
  let net_margin := times (over net_income revenue) hundred in
  let asset_turnover := over revenue total_assets in
  let equity_multiplier := over total_assets equity in
  times (times (times (over net_margin hundred) asset_turnover) equity_multiplier) hundred.

(** [Net_Income / Shareholders_Equity * 100] *)
Definition ROE_Actual {T : Type} `{Arithmetic T} (net_income equity : T) : T :=
  times (over net_income equity) hundred.

(* ================================================================== *)
(** ** Vocabulary of the statements *)

(** A column that the trend loop classifies: not the year, numeric, and
    with more than one value present. *)
Definition eligible (name : string) (c : Column) : bool :=
  negb (String.eqb name "Year") &&
  match c with
  | Numeric s => (1 <? length (dropna s))%nat
  | Labels _ => false
  end.

(** The labels of all the columns of the stored tables. *)
Definition stored_labels (store : list (string * DataFrame)) : list string :=
  flat_map (fun entry => map (trend_label (fst entry)) (keys (columns (snd entry)))) store.

Fixpoint mem (x : string) (l : list string) : bool :=
  match l with
  | [] => false
  | y :: l' => String.eqb y x || mem x l'
  end.

Fixpoint distinct (l : list string) : bool :=
  match l with
  | [] => true
  | x :: l' => negb (mem x l') && distinct l'
  end.

Definition nonzero (x : float) : Prop := ne x 0 = true.

(** The frame [df] has the cell [x] in row [i] of its numeric column
    [name], and the row is on its index. *)
Definition holds (df : DataFrame) (name : string) (i : nat) (x : float) : Prop :=
  cell df name i = Some x /\ i < nrows df.

(** A cell that division by a zero denominator leaves without a number:
    present, not finite, and NaN exactly when the numerator is NaN or
    zero (an infinity otherwise). *)
Definition undefined_cell (df : DataFrame) (name : string) (i : nat)
    (numerator : float) : Prop :=
  exists x, cell df name i = Some x /\ finite x = false /\
            isna x = (isna numerator || PrimFloat.eqb numerator 0).

(** The sample balance sheet with the equity of 2018 at zero. *)
Definition balance_zero_equity : BalanceSheet :=
  [ mkBalanceRow 2015 1250.0 450.0 800.0 950.0 380.0 570.0 300.0;
    mkBalanceRow 2016 1320.0 480.0 840.0 1020.0 410.0 610.0 300.0;
    mkBalanceRow 2017 1290.0 460.0 830.0 1010.0 395.0 615.0 280.0;
    mkBalanceRow 2018 980.0 320.0 660.0 820.0 290.0 530.0 0.0 ].

(** The sample balance sheet without its last year, and the sample income
    statement with the year 2015 entered twice. *)
Definition balance_three_years : BalanceSheet := firstn 3 balance_data.

Definition income_duplicate_year : IncomeStatement :=
  [ mkIncomeRow 2015 784.9 324.7 460.2 435.5 24.7 15.5 2.5;
    mkIncomeRow 2015 826.6 342.4 484.2 465.2 19.0 18.5 18.4;
    mkIncomeRow 2017 836.3 353.2 483.1 451.3 31.8 19.7 14.7;
    mkIncomeRow 2018 573.1 348.9 224.2 451.3 (-0.4) 19.8 2.2 ].

(** One year whose net margin underflows in float64: a net income of
    1e-200 on a revenue of 1e200, with total assets and equity of 1. *)
Definition income_underflow : IncomeStatement :=
  [ mkIncomeRow 2018 1e200 348.9 224.2 451.3 (-0.4) 19.8 1e-200 ].

Definition balance_underflow : BalanceSheet :=
  [ mkBalanceRow 2018 1.0 320.0 660.0 820.0 290.0 530.0 1.0 ].

(** The three verdicts of the trend loop, and the list of [trends] that
    each one appends to. *)
Inductive Trend : Type := Improving | Declining | Stable.

Definition Trend_eqb (a b : Trend) : bool :=
  match a, b with
  | Improving, Improving | Declining, Declining | Stable, Stable => true
  | _, _ => false
  end.

Definition listed (t : Trend) (trends : Trends) : list string :=
  match t with
  | Improving => improving trends
  | Declining => declining trends
  | Stable => stable trends
  end.

(** The verdict of the loop body on the values of a series. *)
Definition classify (values : Series) : Trend :=
  if gt (relative_change values) 0.1 then Improving
  else if lt (relative_change values) (-0.1) then Declining
  else Stable.

(** The verdict on the column [name] of a stored table, if the loop gives
    one. *)
Definition verdict (df : DataFrame) (name : string) : option Trend :=
  match getitem df name with
  | Some c =>
      if eligible name c then
        match c with
        | Numeric s => Some (classify (dropna s))
        | Labels _ => None
        end
      else None
  | None => None
  end.

(** All the verdicts of a run of the loop, in its order, each with its
    label. *)
Definition table_verdicts (entry : string * DataFrame) : list (string * Trend) :=
  flat_map (fun name =>
              match verdict (snd entry) name with
              | Some t => [(trend_label (fst entry) name, t)]
              | None => []
              end)
           (keys (columns (snd entry))).

Definition verdicts (store : list (string * DataFrame)) : list (string * Trend) :=
  flat_map table_verdicts store.

Definition select (t : Trend) (l : list (string * Trend)) : list string :=
  map fst (filter (fun e => Trend_eqb (snd e) t) l).

(** A stored table with a rising, a flat and a falling series, a series
    with a single value present, and a column of strings. *)
Definition example_frame : DataFrame :=
  {| nrows := 2;
     columns := [ ("Year", Numeric [2017; 2018]%float);
                  ("up", Numeric [100; 130]%float);
                  ("flat", Numeric [100; 95]%float);
                  ("down", Numeric [100; 85]%float);
                  ("single", Numeric [5%float; NaN]);
                  ("note", Labels ["a"; "b"]) ] |}.

Definition example_analyzer : Analyzer :=
  {| income := []; balance := []; ratios := [ ("example", example_frame) ] |}.

(** Every column of the frame is as long as its index. *)
Definition well_formed (df : DataFrame) : Prop :=
  Forall (fun c => column_length (snd c) = nrows df) (columns df).

(** The columns that the benchmark loop leaves, when every metric it finds
    in [summary] is numeric: the loop as a fold over the dict of columns. *)
Definition benchmark_columns (summary : DataFrame) (items : list (string * float))
    (cols : list (string * Column)) : list (string * Column) :=
  fold_left
    (fun cols item =>
       match getitem summary (fst item) with
       | Some (Numeric actual) =>
           assign (fst item ++ "_Performance")
             (Labels (map performance (actual -| snd item)%series))
             (assign (fst item ++ "_vs_Industry")
                (Numeric (actual -| snd item)%series) cols)
       | _ => cols
       end)
    items cols.

(** The analyzer after the four [calculate_*] calls of [__main__]. *)
Definition calculated (pad : bool) (income_df : IncomeStatement)
    (balance_df : BalanceSheet) : Analyzer :=
  match (calculate_profitability_ratios ;; calculate_liquidity_ratios ;;
         calculate_leverage_ratios ;; calculate_efficiency_ratios pad)
          (FinancialRatioAnalyzer income_df balance_df) with
  | Returns (_, self) => self
  | Raises _ => FinancialRatioAnalyzer income_df balance_df
  end.

(** The summary table of an analyzer whose four tables are stored. *)
Definition summary_of (self : Analyzer) : DataFrame :=
  match generate_ratio_summary self with
  | Returns (summary, _) => summary
  | Raises _ => DataFrame_of []
  end.

(** Every column of the frame is numeric. *)
Definition all_numeric (df : DataFrame) : bool :=
  forallb (fun c => is_numeric (snd c)) (columns df).

(** A method leaves the two input tables as they were. *)
Definition preserves_tables {A : Type} (m : M A) : Prop :=
  forall self,
    match m self with
    | Returns (_, self') => income self' = income self /\ balance self' = balance self
    | Raises _ => True
    end.

(** A method leaves the whole instance as it was. *)
Definition preserves_self {A : Type} (m : M A) : Prop :=
  forall self,
    match m self with
    | Returns (_, self') => self' = self
    | Raises _ => True
    end.

(** A method always returns. *)
Definition total {A : Type} (m : M A) : Prop :=
  forall self, exists r self', m self = Returns (r, self').

(** The result of a method depends only on the two input tables. *)
Definition reads_only_tables {A : Type} (m : M A) : Prop :=
  forall s1 s2,
    income s1 = income s2 -> balance s1 = balance s2 ->
    result (m s1) = result (m s2).

(** The result of a method depends only on the stored ratio tables. *)
Definition reads_only_ratios {A : Type} (m : M A) : Prop :=
  forall s1 s2, ratios s1 = ratios s2 -> result (m s1) = result (m s2).

(** A method stores its result under [category] in [self.ratios] and
    changes nothing else. *)
Definition stores_result (category : string) (m : M DataFrame) : Prop :=
  forall self, exists df,
    m self = Returns (df, {| income := income self; balance := balance self;
                             ratios := assign category df (ratios self) |}).

(** A calculation keeps its table under [category]: after a call the
    table returned is the one stored there, the other categories are as
    they were, and a second call returns the same table and changes
    nothing. *)
Definition recomputes (category : string) (m : M DataFrame) : Prop :=
  forall self, exists df self',
    m self = Returns (df, self') /\
    lookup category (ratios self') = Some df /\
    (forall other, String.eqb category other = false ->
                   lookup other (ratios self') = lookup other (ratios self)) /\
    keys (ratios self') =
      (if has_key category (ratios self) then keys (ratios self)
       else keys (ratios self) ++ [category]) /\
    m self' = Returns (df, self').

(** The number of stored columns that the trend loop classifies. *)
Definition count_eligible (store : list (string * DataFrame)) : nat :=
  list_sum
    (map (fun entry =>
            length (filter (fun name =>
                              match getitem (snd entry) name with
                              | Some c => eligible name c
                              | None => false
                              end)
                           (keys (columns (snd entry)))))
         store).

(** A stored table with a series that starts at zero and a series that
    ends where it started. *)
Definition level_frame : DataFrame :=
  {| nrows := 3;
     columns := [ ("Year", Numeric [2016; 2017; 2018]%float);
                  ("from_zero", Numeric [0; 40; 250]%float);
                  ("round_trip", Numeric [80; 120; 80]%float) ] |}.

Definition level_analyzer : Analyzer :=
  {| income := []; balance := []; ratios := [("level", level_frame)] |}.

(** The names of the columns that the benchmark loop writes for [metric]:
    a pair when the metric is a column of the summary, none otherwise. *)
Definition written_columns (summary : DataFrame) (metric : string) : list string :=
  if has_key metric (columns summary)
  then [(metric ++ "_vs_Industry")%string; (metric ++ "_Performance")%string]
  else [].

(** The mapping that [benchmark_against_industry] uses: the defaults in
    place of an empty one. *)
Definition effective_benchmarks (industry_benchmarks : list (string * float))
    : list (string * float) :=
  match industry_benchmarks with
  | [] => default_benchmarks
  | _ => industry_benchmarks
  end.

(** The four calculations, by name, and the key of [self.ratios] that each
    one writes. *)
Inductive Calculation : Type := Profitability | Liquidity | Leverage | Efficiency.

Definition Calculation_eqb (a b : Calculation) : bool :=
  match a, b with
  | Profitability, Profitability | Liquidity, Liquidity
  | Leverage, Leverage | Efficiency, Efficiency => true
  | _, _ => false
  end.

Definition category (c : Calculation) : string :=
  match c with
  | Profitability => "profitability"
  | Liquidity => "liquidity"
  | Leverage => "leverage"
  | Efficiency => "efficiency"
  end.

Definition calculate (pad : bool) (c : Calculation) : M DataFrame :=
  match c with
  | Profitability => calculate_profitability_ratios
  | Liquidity => calculate_liquidity_ratios
  | Leverage => calculate_leverage_ratios
  | Efficiency => calculate_efficiency_ratios pad
  end.

(** A caller's sequence of calculations, in its order, the tables returned
    dropped. *)
Fixpoint calculate_each (pad : bool) (calls : list Calculation) : M unit :=
  match calls with
  | [] => ret tt
  | c :: calls' => calculate pad c ;; calculate_each pad calls'
  end.

(** Each of the four calculations is called at least once. *)
Definition calls_all (calls : list Calculation) : bool :=
  forallb (fun c => existsb (Calculation_eqb c) calls)
    [Profitability; Liquidity; Leverage; Efficiency].

(** The table that a calculation makes of the two input tables. *)
Definition table_of (pad : bool) (c : Calculation) (income_df : IncomeStatement)
    (balance_df : BalanceSheet) : DataFrame :=
  match calculate pad c (FinancialRatioAnalyzer income_df balance_df) with
  | Returns (df, _) => df
  | Raises _ => DataFrame_of []
  end.

(* ================================================================== *)
(** ** Exact values and tolerance *)

(** A normal float64 number: finite, and neither zero nor subnormal. *)
Definition normal (x : float) : bool :=
  match PrimFloat.classify x with
  | PNormal | NNormal => true
  | _ => false
  end.

Definition is_zero (x : float) : bool := PrimFloat.eqb x 0.

(** A quotient or a product that neither underflows nor overflows: the
    result is a normal number, or it is the exact zero of a zero operand. *)
Definition div_in_range (x y : float) : bool :=
  normal (x / y) || (is_zero x && finite y && negb (is_zero y)).

Definition mul_in_range (x y : float) : bool :=
  normal (x * y) || ((is_zero x || is_zero y) && finite x && finite y).

(** The exact value of a float64 number, as a rational (0 for NaN and the
    infinities, which [finite] tells apart). *)
Definition SF2Q (x : spec_float) : Q :=
  match x with
  | S754_finite s m e => ((if s then -1 else 1) * inject_Z (Zpos m) * 2 ^ e)%Q
  | _ => 0%Q
  end.

Definition value (x : float) : Q := SF2Q (Prim2SF x).

(** Agreement within a relative tolerance of 1e-6, on the exact values:
    both are numbers and |x - y| <= 1e-6 * |y|.  [close] is the same test
    as a float64 program computes it, with the roundings of the test
    itself. *)
Definition agree (x y : float) : bool :=
  finite x && finite y &&
  Qle_bool (Qabs (value x - value y)) ((1 # 1000000) * Qabs (value y)).

(** The exact value [z] is [t] up to a factor between [b] and [1 / b]. *)
Definition rel (b z t : Q) : Prop :=
  exists rho : Q, (z == t * rho /\ b <= rho /\ rho * b <= 1)%Q.

(** One rounding of a result in range: a factor of at least 1 - 2^-50. *)
Definition accuracy : Q := (1125899906842623 # 1125899906842624)%Q.

(** No quotient or product of the two return-on-equity formulas underflows
    or overflows: the eight operations of ROE_Calculated_% and the two of
    ROE_Actual_%, in the order the code computes them. *)
Definition no_underflow_or_overflow (net_income revenue total_assets equity : float)
    : bool :=
  let quotient := (net_income / revenue)%float in
  let net_margin := (quotient * 100)%float in
  let fraction := (net_margin / 100)%float in
  let asset_turnover := (revenue / total_assets)%float in
  let equity_multiplier := (total_assets / equity)%float in
  let product := (fraction * asset_turnover)%float in
  let decimal := (product * equity_multiplier)%float in
  let ratio := (net_income / equity)%float in
  div_in_range net_income revenue && mul_in_range quotient 100 &&
  div_in_range net_margin 100 && div_in_range revenue total_assets &&
  mul_in_range fraction asset_turnover && div_in_range total_assets equity &&
  mul_in_range product equity_multiplier && mul_in_range decimal 100 &&
  div_in_range net_income equity && mul_in_range ratio 100.

(* ================================================================== *)
(** * Properties *)

(** ** float64 *)

Section Float64.

Lemma SFcompare_refl (x : spec_float) : x <> S754_nan -> SFcompare x x = Some Eq.
Proof.
  destruct x as [s|s| |s m e]; cbn; intros H; try congruence.
  - destruct s; reflexivity.
  - change (Pos.compare_cont Eq m m) with (Pos.compare m m).
    rewrite Pos.compare_refl.
    pose proof (Z.compare_refl e) as He.
    change (Z.compare e e) with (IntDef.Z.compare e e) in He.
    destruct s; rewrite He; reflexivity.
Qed.

Lemma isna_spec (x : float) :
  isna x = match Prim2SF x with S754_nan => true | _ => false end.
Proof.
  unfold isna, is_nan. rewrite FloatAxioms.eqb_spec. unfold SFeqb.
  destruct (Prim2SF x) eqn:E; try reflexivity;
    rewrite SFcompare_refl; (reflexivity || discriminate).
Qed.

Lemma finite_spec (x : float) :
  finite x = match Prim2SF x with S754_zero _ | S754_finite _ _ _ => true | _ => false end.
Proof.
  unfold finite, is_finite. fold (isna x). rewrite isna_spec.
  unfold is_infinity. rewrite FloatAxioms.eqb_spec, abs_spec.
  change (Prim2SF infinity) with (S754_infinity false).
  destruct (Prim2SF x) as [s|s| |s m e]; reflexivity.
Qed.

Lemma eqb_zero_spec (x : float) :
  PrimFloat.eqb x 0 = match Prim2SF x with S754_zero _ => true | _ => false end.
Proof.
  rewrite FloatAxioms.eqb_spec. change (Prim2SF 0) with (S754_zero false).
  destruct (Prim2SF x) as [s|s| |s m e]; try reflexivity; destruct s; reflexivity.
Qed.

(** Division by a zero never gives a number: NaN from a zero or a NaN
    numerator, an infinity from any other; scaling by 100 keeps it so. *)
Lemma div_zero_percent (x y : float) :
  PrimFloat.eqb y 0 = true ->
  finite (x / y * 100) = false /\
  isna (x / y * 100) = (isna x || PrimFloat.eqb x 0).
Proof.
  rewrite (eqb_zero_spec y), finite_spec, !isna_spec, (eqb_zero_spec x).
  rewrite mul_spec, div_spec.
  change (Prim2SF 100) with (S754_finite false 7036874417766400 (-46)).
  destruct (Prim2SF y) as [sy|sy| |sy my ey]; try discriminate. intros _.
  destruct (Prim2SF x) as [s|s| |s m e]; split; reflexivity.
Qed.


Lemma isna_NaN : isna NaN = true.
Proof. reflexivity. Qed.

End Float64.

(** ** Series *)

Section SeriesFacts.

Variable op : float -> float -> float.

Lemma length_binop (a b : Series) :
  length (binop op a b) = Nat.max (length a) (length b).
Proof.
  revert b; induction a as [|x a IH]; intros [|y b]; cbn;
    rewrite ?length_map, ?IH; reflexivity.
Qed.

Lemma nth_error_binop (a b : Series) (i : nat) (x y : float) :
  nth_error a i = Some x -> nth_error b i = Some y ->
  nth_error (binop op a b) i = Some (op x y).
Proof.
  revert b i; induction a as [|x' a IH]; intros [|y' b] [|i]; cbn;
    try discriminate.
  - now intros [= ->] [= ->].
  - apply IH.
Qed.

Lemma nth_error_NaNs {A : Type} (l : list A) (i : nat) :
  i < length l -> nth_error (map (fun _ => NaN) l) i = Some NaN.
Proof.
  revert i; induction l as [|x l IH]; intros [|i] H; cbn in *; try lia.
  - reflexivity.
  - apply IH; lia.
Qed.

(** A row that only the left series has. *)
Lemma nth_error_binop_left_only (a b : Series) (i : nat) (x : float) :
  nth_error a i = Some x -> nth_error b i = None ->
  nth_error (binop op a b) i = Some NaN.
Proof.
  revert b i; induction a as [|x' a IH]; intros [|y' b] [|i]; cbn;
    try discriminate.
  - reflexivity.
  - intros Ha _. apply (nth_error_NaNs a).
    apply nth_error_Some. congruence.
  - apply IH.
Qed.

(** A row that only the right series has. *)
Lemma nth_error_binop_right_only (a b : Series) (i : nat) (y : float) :
  nth_error a i = None -> nth_error b i = Some y ->
  nth_error (binop op a b) i = Some NaN.
Proof.
  revert b i; induction a as [|x' a IH]; intros [|y' b] [|i]; cbn;
    try discriminate.
  - reflexivity.
  - intros _ Hb. apply (nth_error_NaNs b).
    apply nth_error_Some. congruence.
  - apply IH.
Qed.

Lemma nth_error_scalar (s : Series) (k : float) (i : nat) (x : float) :
  nth_error s i = Some x -> nth_error (scalar op s k) i = Some (op x k).
Proof.
  intros H. unfold scalar. rewrite nth_error_map, H. reflexivity.
Qed.

Lemma length_scalar (s : Series) (k : float) : length (scalar op s k) = length s.
Proof. apply length_map. Qed.

End SeriesFacts.

Lemma nth_error_col {R : Type} (field : R -> float) (df : list R) (i : nat) (r : R) :
  nth_error df i = Some r -> nth_error (col field df) i = Some (field r).
Proof.
  intros H. unfold col. rewrite nth_error_map, H. reflexivity.
Qed.

Lemma length_col {R : Type} (field : R -> float) (df : list R) :
  length (col field df) = length df.
Proof. apply length_map. Qed.

Lemma length_reindex (n : nat) (s : Series) : length (reindex n s) = n.
Proof.
  revert s; induction n as [|n IH]; intros [|x s]; cbn; rewrite ?IH; reflexivity.
Qed.

Lemma nth_error_reindex (n : nat) (s : Series) (i : nat) (x : float) :
  nth_error s i = Some x -> i < n -> nth_error (reindex n s) i = Some x.
Proof.
  revert s i; induction n as [|n IH]; intros [|y s] [|i] H Hi; cbn in *;
    try discriminate; try lia.
  - exact H.
  - apply IH; [exact H | lia].
Qed.

Lemma nth_error_reindex_missing (n : nat) (s : Series) (i : nat) :
  nth_error s i = None -> i < n -> nth_error (reindex n s) i = Some NaN.
Proof.
  revert s i; induction n as [|n IH]; intros [|y s] [|i] H Hi; cbn in *;
    try discriminate; try lia.
  - reflexivity.
  - apply IH; [now destruct i | lia].
  - apply IH; [exact H | lia].
Qed.

Lemma reindex_length (s : Series) : reindex (length s) s = s.
Proof.
  induction s as [|x s IH]; cbn; [reflexivity | now rewrite IH].
Qed.

Lemma reindex_labels_length (s : list string) : reindex_labels (length s) s = s.
Proof.
  induction s as [|x s IH]; cbn; [reflexivity | now rewrite IH].
Qed.

Lemma length_reindex_labels (n : nat) (s : list string) : length (reindex_labels n s) = n.
Proof.
  revert s; induction n as [|n IH]; intros [|x s]; cbn; rewrite ?IH; reflexivity.
Qed.

Lemma nth_error_reindex_labels (n : nat) (s : list string) (i : nat) (x : string) :
  nth_error s i = Some x -> i < n -> nth_error (reindex_labels n s) i = Some x.
Proof.
  revert s i; induction n as [|n IH]; intros [|y s] [|i] H Hi; cbn in *;
    try discriminate; try lia.
  - exact H.
  - apply IH; [exact H | lia].
Qed.

Lemma column_length_reindex (n : nat) (c : Column) :
  column_length (reindex_column n c) = n.
Proof.
  destruct c; cbn; [apply length_reindex | apply length_reindex_labels].
Qed.

Create HintDb series.
#[local] Hint Resolve nth_error_binop nth_error_scalar nth_error_col nth_error_reindex : series.

(** ** Dicts *)

Section DictFacts.

Context {V : Type}.

Lemma lookup_assign_same (k : string) (v : V) (d : list (string * V)) :
  lookup k (assign k v d) = Some v.
Proof.
  induction d as [|[k' v'] d IH]; cbn.
  - now rewrite String.eqb_refl.
  - destruct (String.eqb k' k) eqn:E; cbn.
    + now rewrite String.eqb_refl.
    + now rewrite E.
Qed.

Lemma lookup_assign_other (k k' : string) (v : V) (d : list (string * V)) :
  String.eqb k k' = false -> lookup k' (assign k v d) = lookup k' d.
Proof.
  intros Hk. induction d as [|[k0 v0] d IH]; cbn.
  - now rewrite Hk.
  - destruct (String.eqb k0 k) eqn:E; cbn.
    + apply String.eqb_eq in E; subst k0. now rewrite Hk.
    + now rewrite IH.
Qed.

Lemma lookup_map_values {W : Type} (f : V -> W) (k : string) (d : list (string * V)) :
  lookup k (map (fun c => (fst c, f (snd c))) d) = option_map f (lookup k d).
Proof.
  induction d as [|[k' v'] d IH]; cbn; [reflexivity|].
  destruct (String.eqb k' k); [reflexivity | exact IH].
Qed.

Lemma keys_assign_In (k k' : string) (v : V) (d : list (string * V)) :
  In k' (keys (assign k v d)) <-> k' = k \/ In k' (keys d).
Proof.
  induction d as [|[k0 v0] d IH]; cbn.
  - intuition congruence.
  - destruct (String.eqb k0 k) eqn:E; cbn.
    + apply String.eqb_eq in E; subst k0. intuition congruence.
    + rewrite IH. intuition congruence.
Qed.

End DictFacts.

(** ** Frames *)

Lemma max_length_ge (d : list (string * Column)) (name : string) (c : Column) :
  lookup name d = Some c -> column_length c <= max_length d.
Proof.
  induction d as [|[k v] d IH]; [discriminate|].
  change (max_length ((k, v) :: d)) with (Nat.max (column_length v) (max_length d)).
  cbn [lookup]. destruct (String.eqb k name).
  - intros [= ->]. apply Nat.le_max_l.
  - intros H. specialize (IH H). lia.
Qed.

Lemma getitem_DataFrame_of (d : list (string * Column)) (name : string) :
  getitem (DataFrame_of d) name = option_map (reindex_column (max_length d)) (lookup name d).
Proof. unfold getitem, DataFrame_of; cbn. apply lookup_map_values. Qed.

Lemma holds_DataFrame_of (d : list (string * Column)) (name : string) (v : Series)
    (i : nat) (x : float) :
  lookup name d = Some (Numeric v) -> nth_error v i = Some x ->
  holds (DataFrame_of d) name i x.
Proof.
  intros Hl Hx.
  assert (Hi : i < max_length d).
  { pose proof (max_length_ge _ _ _ Hl) as Hm. cbn in Hm.
    assert (i < length v) by (apply nth_error_Some; congruence). lia. }
  split; [|exact Hi].
  unfold cell. rewrite getitem_DataFrame_of, Hl. cbn.
  now apply nth_error_reindex.
Qed.

(** A row of the frame that the column's series does not reach. *)
Lemma holds_DataFrame_of_missing (d : list (string * Column)) (name : string)
    (v : Series) (i : nat) :
  lookup name d = Some (Numeric v) -> nth_error v i = None -> i < max_length d ->
  holds (DataFrame_of d) name i NaN.
Proof.
  intros Hl Hx Hi. split; [|exact Hi].
  unfold cell. rewrite getitem_DataFrame_of, Hl. cbn.
  now apply nth_error_reindex_missing.
Qed.

Lemma nrows_setitem_of_lt (df : DataFrame) (name : string) (value : Column) (i : nat) :
  i < nrows df -> nrows (setitem df name value) = nrows df.
Proof.
  intros Hi. unfold setitem; cbn.
  destruct (nrows df) eqn:E; [lia | reflexivity].
Qed.

Lemma nrows_setitem_ge (df : DataFrame) (name : string) (value : Column) :
  nrows df <= nrows (setitem df name value).
Proof.
  unfold setitem; cbn.
  destruct (nrows df) eqn:E; cbn; [lia|]. lia.
Qed.

Lemma getitem_setitem_same (df : DataFrame) (name : string) (value : Column) :
  getitem (setitem df name value) name =
  Some (reindex_column (nrows (setitem df name value)) value).
Proof. unfold getitem, setitem; cbn. apply lookup_assign_same. Qed.

Lemma getitem_setitem_other (df : DataFrame) (name name' : string) (value : Column) :
  String.eqb name name' = false ->
  getitem (setitem df name value) name' =
  option_map (reindex_column (nrows (setitem df name value))) (getitem df name').
Proof.
  intros H. unfold getitem, setitem; cbn.
  rewrite lookup_assign_other by exact H. apply lookup_map_values.
Qed.

Lemma holds_setitem_other (df : DataFrame) (name name' : string) (value : Column)
    (i : nat) (x : float) :
  String.eqb name name' = false ->
  holds df name' i x -> holds (setitem df name value) name' i x.
Proof.
  intros Hn [Hc Hi].
  pose proof (nrows_setitem_of_lt df name value i Hi) as Hr.
  split; [|lia].
  unfold cell in *. rewrite getitem_setitem_other by exact Hn. rewrite Hr.
  destruct (getitem df name') as [[v|v]|]; try discriminate.
  cbn [option_map reindex_column]. now apply nth_error_reindex.
Qed.

Lemma holds_setitem_same (df : DataFrame) (name : string) (v : Series)
    (i : nat) (x : float) :
  nth_error v i = Some x -> i < nrows df ->
  holds (setitem df name (Numeric v)) name i x.
Proof.
  intros Hx Hi.
  pose proof (nrows_setitem_of_lt df name (Numeric v) i Hi) as Hr.
  split; [|lia].
  unfold cell. rewrite getitem_setitem_same, Hr. cbn [reindex_column].
  now apply nth_error_reindex.
Qed.

(** A row of the frame that the assigned series does not reach. *)
Lemma holds_setitem_same_missing (df : DataFrame) (name : string) (v : Series) (i : nat) :
  nth_error v i = None -> i < nrows df ->
  holds (setitem df name (Numeric v)) name i NaN.
Proof.
  intros Hx Hi.
  pose proof (nrows_setitem_of_lt df name (Numeric v) i Hi) as Hr.
  split; [|lia].
  unfold cell. rewrite getitem_setitem_same, Hr. cbn [reindex_column].
  now apply nth_error_reindex_missing.
Qed.

Lemma holds_lt (df : DataFrame) (name : string) (i : nat) (x : float) :
  holds df name i x -> i < nrows df.
Proof. now intros [_ H]. Qed.

Lemma holds_cell (df : DataFrame) (name : string) (i : nat) (x : float) :
  holds df name i x -> cell df name i = Some x.
Proof. now intros [H _]. Qed.

(** Reading a column back for arithmetic. *)
Lemma numeric_column_DataFrame_of (d : list (string * Column)) (name : string)
    (v : Series) (self : Analyzer) :
  lookup name d = Some (Numeric v) ->
  numeric_column (DataFrame_of d) name self = Returns (reindex (max_length d) v, self).
Proof.
  intros H. unfold numeric_column, bind, subscript.
  change (lookup name (columns (DataFrame_of d))) with (getitem (DataFrame_of d) name).
  rewrite getitem_DataFrame_of, H. reflexivity.
Qed.

(** ** Running a method *)

(** Unfolds the monad's plumbing in the goal, leaving the frames. *)
Ltac split_all := repeat match goal with |- _ /\ _ => split end.

Ltac run_method :=
  cbv beta iota zeta delta [bind get_self set_ratios ret raise];
  repeat (erewrite numeric_column_DataFrame_of by reflexivity;
          cbv beta iota zeta).

(** ** The profitability table *)

Section Profitability.

Variable self : Analyzer.
Variables (i : nat) (ir : IncomeRow).
Hypothesis Hir : nth_error (income self) i = Some ir.

(** The columns computed from the income statement alone. *)
Lemma profitability_income_cells :
  exists df self',
    calculate_profitability_ratios self = Returns (df, self') /\
    holds df "Year" i (iYear ir) /\
    holds df "Gross_Margin_%" i (Gross_Profit ir / Revenue ir * 100) /\
    holds df "EBIT_Margin_%" i (EBIT ir / Revenue ir * 100) /\
    holds df "Net_Margin_%" i (Net_Income ir / Revenue ir * 100).
Proof.
  unfold calculate_profitability_ratios. run_method.
  do 2 eexists. split; [reflexivity|].
  split_all; do 2 (apply holds_setitem_other; [reflexivity|]);
    (eapply holds_DataFrame_of; [reflexivity | eauto with series]).
Qed.

(** The two columns that also read the balance sheet, on a row that the
    balance sheet has. *)
Lemma profitability_balance_cells (br : BalanceRow) :
  nth_error (balance self) i = Some br ->
  exists df self',
    calculate_profitability_ratios self = Returns (df, self') /\
    holds df "ROA_%" i (Net_Income ir / Total_Assets br * 100) /\
    holds df "ROE_%" i (Net_Income ir / Shareholders_Equity br * 100).
Proof.
  intros Hbr.
  unfold calculate_profitability_ratios. run_method.
  do 2 eexists. split; [reflexivity|].
  assert (Hyear : holds (DataFrame_of
    [ ("Year", Numeric (col iYear (income self)));
      ("Gross_Margin_%",
        Numeric (col Gross_Profit (income self) / col Revenue (income self) *| 100)%series);
      ("EBIT_Margin_%",
        Numeric (col EBIT (income self) / col Revenue (income self) *| 100)%series);
      ("Net_Margin_%",
        Numeric (col Net_Income (income self) / col Revenue (income self) *| 100)%series) ])
    "Year" i (iYear ir)).
  { eapply holds_DataFrame_of; [reflexivity | eauto with series]. }
  split.
  - apply holds_setitem_other; [reflexivity|].
    apply holds_setitem_same; [eauto with series | exact (holds_lt _ _ _ _ Hyear)].
  - apply holds_setitem_same; [eauto with series|].
    apply (holds_lt _ "Year" _ (iYear ir)).
    apply holds_setitem_other; [reflexivity | exact Hyear].
Qed.

(** And on a row that the balance sheet does not reach. *)
Lemma profitability_balance_cells_missing :
  nth_error (balance self) i = None ->
  exists df self',
    calculate_profitability_ratios self = Returns (df, self') /\
    holds df "ROA_%" i NaN /\
    holds df "ROE_%" i NaN.
Proof.
  intros Hbr.
  unfold calculate_profitability_ratios. run_method.
  do 2 eexists. split; [reflexivity|].
  assert (Hyear : holds (DataFrame_of
    [ ("Year", Numeric (col iYear (income self)));
      ("Gross_Margin_%",
        Numeric (col Gross_Profit (income self) / col Revenue (income self) *| 100)%series);
      ("EBIT_Margin_%",
        Numeric (col EBIT (income self) / col Revenue (income self) *| 100)%series);
      ("Net_Margin_%",
        Numeric (col Net_Income (income self) / col Revenue (income self) *| 100)%series) ])
    "Year" i (iYear ir)).
  { eapply holds_DataFrame_of; [reflexivity | eauto with series]. }
  assert (Hnan : forall field : BalanceRow -> float,
    nth_error (col Net_Income (income self) / col field (balance self) *| 100)%series i
    = Some NaN).
  { intros field.
    change (Some NaN) with (Some (NaN * 100)%float).
    apply nth_error_scalar.
    eapply nth_error_binop_left_only; [eauto with series|].
    unfold col. now rewrite nth_error_map, Hbr. }
  split.
  - apply holds_setitem_other; [reflexivity|].
    apply holds_setitem_same; [apply Hnan | exact (holds_lt _ _ _ _ Hyear)].
  - apply holds_setitem_same; [apply Hnan|].
    apply (holds_lt _ "Year" _ (iYear ir)).
    apply holds_setitem_other; [reflexivity | exact Hyear].
Qed.

End Profitability.

(** C1. For a year held in row [i] of both tables,
    [calculate_profitability_ratios] returns a table whose row [i] is that
    year's and has Gross_Margin_% = Gross_Profit / Revenue * 100,
    EBIT_Margin_% = EBIT / Revenue * 100, Net_Margin_% = Net_Income /
    Revenue * 100, ROA_% = Net_Income / Total_Assets * 100 and ROE_% =
    Net_Income / Shareholders_Equity * 100, each the float64 value of that
    expression.  The code pairs the rows of the two tables by position. *)
Theorem C1_profitability_formulas (self : Analyzer) (i : nat)
    (ir : IncomeRow) (br : BalanceRow) :
  nth_error (income self) i = Some ir ->
  nth_error (balance self) i = Some br ->
  nonzero (Revenue ir) ->
  nonzero (Total_Assets br) ->
  nonzero (Shareholders_Equity br) ->
  exists df self',
    calculate_profitability_ratios self = Returns (df, self') /\
    cell df "Year" i = Some (iYear ir) /\
    cell df "Gross_Margin_%" i = Some (Gross_Profit ir / Revenue ir * 100)%float /\
    cell df "EBIT_Margin_%" i = Some (EBIT ir / Revenue ir * 100)%float /\
    cell df "Net_Margin_%" i = Some (Net_Income ir / Revenue ir * 100)%float /\
    cell df "ROA_%" i = Some (Net_Income ir / Total_Assets br * 100)%float /\
    cell df "ROE_%" i = Some (Net_Income ir / Shareholders_Equity br * 100)%float.
Proof.
  intros Hir Hbr _ _ _.
  destruct (profitability_income_cells self i ir Hir)
    as (df & self' & Hrun & Hy & Hg & He & Hn).
  destruct (profitability_balance_cells self i ir Hir br Hbr)
    as (df' & self'' & Hrun' & Hroa & Hroe).
  rewrite Hrun in Hrun'. injection Hrun' as <- <-.
  exists df, self'. split; [exact Hrun|].
  split_all; now apply holds_cell.
Qed.

(** Witness of C1: the year 2018 of the sample data. *)
Lemma C1_profitability_formulas_witness :
  exists df self',
    calculate_profitability_ratios (FinancialRatioAnalyzer income_data balance_data)
      = Returns (df, self') /\
    cell df "Year" 3 = Some 2018%float /\
    cell df "Gross_Margin_%" 3 = Some (224.2 / 573.1 * 100)%float /\
    cell df "EBIT_Margin_%" 3 = Some (-0.4 / 573.1 * 100)%float /\
    cell df "Net_Margin_%" 3 = Some (2.2 / 573.1 * 100)%float /\
    cell df "ROA_%" 3 = Some (2.2 / 980.0 * 100)%float /\
    cell df "ROE_%" 3 = Some (2.2 / 160.0 * 100)%float.
Proof.
  apply (C1_profitability_formulas
           (FinancialRatioAnalyzer income_data balance_data) 3
           (mkIncomeRow 2018 573.1 348.9 224.2 451.3 (-0.4) 19.8 2.2)
           (mkBalanceRow 2018 980.0 320.0 660.0 820.0 290.0 530.0 160.0));
    reflexivity.
Defined.

(** ** Zero denominators *)

Lemma undefined_cell_of_holds (df : DataFrame) (name : string) (i : nat)
    (x y : float) :
  holds df name i (x / y * 100) -> PrimFloat.eqb y 0 = true ->
  undefined_cell df name i x.
Proof.
  intros H Hy. exists (x / y * 100)%float.
  destruct (div_zero_percent x y Hy) as [Hf Hn].
  split; [now apply holds_cell | split; assumption].
Qed.

(** C4, as the code has it.  When a denominator of a year is zero,
    [calculate_profitability_ratios] still returns, and all the cells of
    the year are the float64 values of their formulas; the cells over the
    zero denominator (ROE_% over Shareholders_Equity, ROA_% over
    Total_Assets, the three margins over Revenue) hold no finite number:
    NaN when the numerator is zero or NaN, an infinity otherwise. *)
Theorem C4_zero_denominator_cells (self : Analyzer) (i : nat)
    (ir : IncomeRow) (br : BalanceRow) :
  nth_error (income self) i = Some ir ->
  nth_error (balance self) i = Some br ->
  exists df self',
    calculate_profitability_ratios self = Returns (df, self') /\
    (cell df "Gross_Margin_%" i = Some (Gross_Profit ir / Revenue ir * 100)%float /\
     cell df "EBIT_Margin_%" i = Some (EBIT ir / Revenue ir * 100)%float /\
     cell df "Net_Margin_%" i = Some (Net_Income ir / Revenue ir * 100)%float /\
     cell df "ROA_%" i = Some (Net_Income ir / Total_Assets br * 100)%float /\
     cell df "ROE_%" i = Some (Net_Income ir / Shareholders_Equity br * 100)%float) /\
    (PrimFloat.eqb (Shareholders_Equity br) 0 = true ->
     undefined_cell df "ROE_%" i (Net_Income ir)) /\
    (PrimFloat.eqb (Total_Assets br) 0 = true ->
     undefined_cell df "ROA_%" i (Net_Income ir)) /\
    (PrimFloat.eqb (Revenue ir) 0 = true ->
     undefined_cell df "Gross_Margin_%" i (Gross_Profit ir) /\
     undefined_cell df "EBIT_Margin_%" i (EBIT ir) /\
     undefined_cell df "Net_Margin_%" i (Net_Income ir)).
Proof.
  intros Hir Hbr.
  destruct (profitability_income_cells self i ir Hir)
    as (df & self' & Hrun & Hy & Hg & He & Hn).
  destruct (profitability_balance_cells self i ir Hir br Hbr)
    as (df' & self'' & Hrun' & Hroa & Hroe).
  rewrite Hrun in Hrun'. injection Hrun' as <- <-.
  exists df, self'. split; [exact Hrun|].
  split; [split_all; now apply holds_cell|].
  split_all; intros Hz; split_all; eapply undefined_cell_of_holds; eassumption.
Qed.

(** Witness of C4: the sample data with the equity of 2018 at zero. *)
Lemma C4_zero_denominator_cells_witness :
  exists df self',
    calculate_profitability_ratios (FinancialRatioAnalyzer income_data balance_zero_equity)
      = Returns (df, self') /\
    (cell df "Gross_Margin_%" 3 = Some (224.2 / 573.1 * 100)%float /\
     cell df "EBIT_Margin_%" 3 = Some (-0.4 / 573.1 * 100)%float /\
     cell df "Net_Margin_%" 3 = Some (2.2 / 573.1 * 100)%float /\
     cell df "ROA_%" 3 = Some (2.2 / 980.0 * 100)%float /\
     cell df "ROE_%" 3 = Some (2.2 / 0.0 * 100)%float) /\
    (PrimFloat.eqb 0.0 0 = true -> undefined_cell df "ROE_%" 3 2.2) /\
    (PrimFloat.eqb 980.0 0 = true -> undefined_cell df "ROA_%" 3 2.2) /\
    (PrimFloat.eqb 573.1 0 = true ->
     undefined_cell df "Gross_Margin_%" 3 224.2 /\
     undefined_cell df "EBIT_Margin_%" 3 (-0.4) /\
     undefined_cell df "Net_Margin_%" 3 2.2).
Proof.
  apply (C4_zero_denominator_cells
           (FinancialRatioAnalyzer income_data balance_zero_equity) 3
           (mkIncomeRow 2018 573.1 348.9 224.2 451.3 (-0.4) 19.8 2.2)
           (mkBalanceRow 2018 980.0 320.0 660.0 820.0 290.0 530.0 0.0));
    reflexivity.
Defined.

(** C4 as stated fails: with the equity of 2018 at zero and a net income of
    2.2, the ROE_% of 2018 is plus infinity, which is not NaN. *)
Lemma C4_counterexample :
  nth_error (col Shareholders_Equity balance_zero_equity) 3 = Some 0%float /\
  exists df self',
    calculate_profitability_ratios (FinancialRatioAnalyzer income_data balance_zero_equity)
      = Returns (df, self') /\
    cell df "ROE_%" 3 = Some infinity /\
    isna infinity = false.
Proof.
  split; [reflexivity|].
  do 2 eexists. split; [vm_compute; reflexivity|].
  split; reflexivity.
Qed.

(** Reads a cell of a series expression off the cells of its operands. *)
Ltac series_cell :=
  repeat first
    [ eassumption
    | apply nth_error_scalar
    | apply nth_error_binop
    | apply nth_error_reindex
    | apply nth_error_col ].

(** ** The DuPont table *)

Section DuPont.

Variable self : Analyzer.
Variables (i : nat) (ir : IncomeRow) (br : BalanceRow).
Hypothesis Hir : nth_error (income self) i = Some ir.
Hypothesis Hbr : nth_error (balance self) i = Some br.

(** The two ROE cells of a row are the float64 values of the formulas, and
    the call leaves the instance as it was. *)
Lemma dupont_cells :
  exists df,
    analyze_dupont_model self = Returns (df, self) /\
    holds df "ROE_Calculated_%" i
      (ROE_Calculated (Net_Income ir) (Revenue ir) (Total_Assets br) (Shareholders_Equity br)) /\
    holds df "ROE_Actual_%" i (ROE_Actual (Net_Income ir) (Shareholders_Equity br)).
Proof.
  unfold analyze_dupont_model. run_method.
  eexists. split; [reflexivity|].
  set (d := [ ("Year", Numeric (col iYear (income self)));
              ("Net_Margin_%", _); ("Asset_Turnover", _); ("Equity_Multiplier", _) ]).
  assert (Hyear : holds (DataFrame_of d) "Year" i (iYear ir)).
  { eapply holds_DataFrame_of; [reflexivity | eauto with series]. }
  assert (Hn : i < max_length d) by exact (holds_lt _ _ _ _ Hyear).
  unfold ROE_Calculated, ROE_Actual. cbn [times over hundred float64_arithmetic].
  split.
  - apply holds_setitem_other; [reflexivity|].
    apply holds_setitem_same; [series_cell | exact Hn].
  - apply holds_setitem_same; [eauto with series|].
    apply (holds_lt _ "Year" _ (iYear ir)).
    apply holds_setitem_other; [reflexivity | exact Hyear].
Qed.

End DuPont.

(** In exact arithmetic the two formulas are one. *)
Lemma ROE_Calculated_exact (net_income revenue total_assets equity : Q) :
  (~ revenue == 0 -> ~ total_assets == 0 -> ~ equity == 0 ->
   ROE_Calculated net_income revenue total_assets equity == ROE_Actual net_income equity)%Q.
Proof.
  intros Hr Ha He. unfold ROE_Calculated, ROE_Actual.
  cbn [times over hundred exact_arithmetic]. field. repeat split; assumption.
Qed.

(** ** Rounding in float64 *)

(** What a float64 product or quotient is, when it is a normal number: the
    exact product or quotient of the values of its operands, up to a
    relative error of 2^-50.  The bound is read off the specification of
    the primitive floats ([SFmul], [SFdiv]): the rounding is two right
    shifts, each a floor division of the mantissa, around a step that adds
    at most one unit.  It is looser than the half unit in the last place of
    IEEE 754, and enough for a tolerance of 1e-6. *)

Section Rounding.

Local Open Scope Z_scope.

(** A mantissa of [d] binary digits is at least 2^(d-1). *)
Lemma digits2_pos_lower (m : positive) : 2 ^ (Zpos (digits2_pos m) - 1) <= Zpos m.
Proof.
  induction m as [m IH|m IH|]; cbn [digits2_pos]; [| |cbn; lia].
  - rewrite Pos2Z.inj_succ.
    replace (Z.succ (Zpos (digits2_pos m)) - 1) with ((Zpos (digits2_pos m) - 1) + 1) by lia.
    rewrite Z.pow_add_r by lia. lia.
  - rewrite Pos2Z.inj_succ.
    replace (Z.succ (Zpos (digits2_pos m)) - 1) with ((Zpos (digits2_pos m) - 1) + 1) by lia.
    rewrite Z.pow_add_r by lia. lia.
Qed.

(** A right shift halves the mantissa, rounding down, whatever the round
    and sticky bits. *)
Lemma shr_m_shr_1 (mrs : shr_record) :
  0 <= shr_m mrs -> shr_m (shr_1 mrs) = shr_m mrs / 2.
Proof.
  destruct mrs as [m r s]; cbn [shr_m].
  destruct m as [|[p|p|]|p]; cbn [shr_1 shr_m]; intros H; try lia.
  - reflexivity.
  - apply Z.div_unique with 1; lia.
  - apply Z.div_unique with 0; lia.
  - reflexivity.
Qed.

Lemma shr_m_iter (p : positive) (mrs : shr_record) :
  0 <= shr_m mrs ->
  shr_m (SpecFloat.iter_pos shr_1 p mrs) = shr_m mrs / 2 ^ Zpos p.
Proof.
  revert mrs; induction p as [p IH|p IH|]; intros mrs H; cbn [SpecFloat.iter_pos].
  - assert (H1 : 0 <= shr_m (shr_1 mrs)).
    { rewrite shr_m_shr_1 by exact H. apply Z.div_pos; lia. }
    assert (Hp : 0 < 2 ^ Zpos p) by (apply Z.pow_pos_nonneg; lia).
    assert (H2 : 0 <= shr_m (SpecFloat.iter_pos shr_1 p (shr_1 mrs))).
    { rewrite IH by exact H1. apply Z.div_pos; lia. }
    rewrite IH by exact H2. rewrite IH by exact H1. rewrite shr_m_shr_1 by exact H.
    assert (Hpow : 2 ^ Zpos p~1 = 2 * 2 ^ Zpos p * 2 ^ Zpos p).
    { replace (Zpos p~1) with (Zpos p + Zpos p + 1) by lia.
      rewrite !Z.pow_add_r by lia. change (2 ^ 1) with 2. ring. }
    rewrite !Z.div_div by nia. rewrite Hpow. f_equal. ring.
  - assert (Hp : 0 < 2 ^ Zpos p) by (apply Z.pow_pos_nonneg; lia).
    assert (H2 : 0 <= shr_m (SpecFloat.iter_pos shr_1 p mrs)).
    { rewrite IH by exact H. apply Z.div_pos; lia. }
    rewrite IH by exact H2. rewrite IH by exact H.
    assert (Hpow : 2 ^ Zpos p~0 = 2 ^ Zpos p * 2 ^ Zpos p).
    { replace (Zpos p~0) with (Zpos p + Zpos p) by lia.
      now rewrite Z.pow_add_r by lia. }
    rewrite !Z.div_div by nia. now rewrite Hpow.
  - now rewrite shr_m_shr_1.
Qed.

Lemma shr_m_of_loc (m : Z) (l : location) : shr_m (shr_record_of_loc m l) = m.
Proof. destruct l as [|[]]; reflexivity. Qed.

(** The shift to the exponent of the format: a floor division by a power
    of two, the exponent raised by as much. *)
Lemma shr_fexp_floor (m e : Z) (l : location) (mrs : shr_record) (e' : Z) :
  0 <= m -> shr_fexp prec emax m e l = (mrs, e') ->
  exists k, 0 <= k /\ e' = e + k /\ shr_m mrs = m / 2 ^ k.
Proof.
  intros Hm. unfold shr_fexp, shr.
  destruct (fexp prec emax (Zdigits2 m + e) - e) as [|p|p] eqn:Hn; intros [= <- <-].
  - exists 0. rewrite shr_m_of_loc, Z.div_1_r. lia.
  - exists (Zpos p). split; [lia|]. split; [reflexivity|].
    rewrite shr_m_iter; rewrite shr_m_of_loc; [reflexivity | exact Hm].
  - exists 0. rewrite shr_m_of_loc, Z.div_1_r. lia.
Qed.

Lemma round_nearest_even_bounds (m : Z) (l : location) :
  m <= round_nearest_even m l <= m + 1.
Proof. destruct l as [|[]]; cbn; try destruct (Z.even m); lia. Qed.

(** What rounding leaves of a mantissa: the result, scaled back, is within
    two units of the last place. *)
Lemma binary_round_aux_finite (s : bool) (mx ex : Z) (lx : location)
    (s' : bool) (m : positive) (e : Z) :
  0 <= mx ->
  binary_round_aux prec emax s mx ex lx = S754_finite s' m e ->
  s' = s /\
  exists k, 0 <= k /\ e = ex + k /\ Z.abs (Zpos m * 2 ^ k - mx) <= 2 * 2 ^ k.
Proof.
  intros Hmx. unfold binary_round_aux.
  destruct (shr_fexp prec emax mx ex lx) as [mrs' e'] eqn:H1.
  destruct (shr_fexp prec emax
              (round_nearest_even (shr_m mrs') (loc_of_shr_record mrs')) e' loc_Exact)
    as [mrs'' e''] eqn:H2.
  destruct (shr_m mrs'') as [|m''|m''] eqn:Hm; try discriminate.
  destruct (e'' <=? emax - prec); try discriminate.
  intros [= <- <- <-]. split; [reflexivity|].
  apply shr_fexp_floor in H1; [|exact Hmx].
  destruct H1 as (k1 & Hk1 & -> & Hm').
  pose proof (round_nearest_even_bounds (shr_m mrs') (loc_of_shr_record mrs')) as Hr.
  assert (HA : 0 < 2 ^ k1) by (apply Z.pow_pos_nonneg; lia).
  assert (Hm0 : 0 <= shr_m mrs') by (rewrite Hm'; apply Z.div_pos; lia).
  apply shr_fexp_floor in H2; [|lia].
  destruct H2 as (k2 & Hk2 & -> & Hm'').
  assert (HB : 0 < 2 ^ k2) by (apply Z.pow_pos_nonneg; lia).
  exists (k1 + k2). split; [lia|]. split; [lia|].
  rewrite Z.pow_add_r by lia.
  set (A := 2 ^ k1) in *. set (B := 2 ^ k2) in *.
  set (m1 := round_nearest_even (shr_m mrs') (loc_of_shr_record mrs')) in *.
  rewrite Hm in Hm''.
  pose proof (Z.mul_div_le mx A HA) as Ha1.
  pose proof (Z.mul_succ_div_gt mx A HA) as Ha2.
  pose proof (Z.mul_div_le m1 B HB) as Hb1.
  pose proof (Z.mul_succ_div_gt m1 B HB) as Hb2.
  rewrite <- Hm' in Ha1, Ha2. rewrite <- Hm'' in Hb1, Hb2.
  nia.
Qed.
(** A normal number has a mantissa of 53 digits. *)
Lemma normal_spec (x : float) :
  normal x = true ->
  exists s m e, Prim2SF x = S754_finite s m e /\ 2 ^ 52 <= Zpos m.
Proof.
  unfold normal. rewrite classify_spec. unfold SF64classify, SFclassify.
  destruct (Prim2SF x) as [[]|[]| |[] m e]; try discriminate;
    destruct (Z.eqb_spec (Zpos (digits2_pos m)) prec) as [Hd|]; try discriminate;
    intros _; do 3 eexists; (split; [reflexivity|]);
    pose proof (digits2_pos_lower m) as H; rewrite Hd in H; exact H.
Qed.

(** A product that is a normal number is within 2^-50, relative, of the
    exact product of its factors. *)
Lemma SFmul_normal (x y : spec_float) (s : bool) (m : positive) (e : Z) :
  SF64mul x y = S754_finite s m e -> 2 ^ 52 <= Zpos m ->
  exists sx mx ex sy my ey k,
    x = S754_finite sx mx ex /\ y = S754_finite sy my ey /\
    s = xorb sx sy /\ 0 <= k /\ e = ex + ey + k /\
    2 ^ 50 * Z.abs (Zpos m * 2 ^ k - Zpos mx * Zpos my) <= Zpos mx * Zpos my.
Proof.
  intros H Hm. unfold SF64mul in H.
  destruct x as [sx|sx| |sx mx ex], y as [sy|sy| |sy my ey];
    cbn [SFmul] in H; try discriminate.
  apply binary_round_aux_finite in H; [|lia].
  destruct H as (-> & k & Hk & -> & Hb).
  exists sx, mx, ex, sy, my, ey, k.
  repeat (split; [reflexivity || lia|]).
  rewrite Pos2Z.inj_mul in Hb.
  assert (HK : 0 < 2 ^ k) by (apply Z.pow_pos_nonneg; lia).
  nia.
Qed.

(** The quotient before rounding: the floor of the scaled division. *)
Lemma SFdiv_core_floor (mx : positive) (ex : Z) (my : positive) (ey q e' : Z)
    (l : location) :
  SFdiv_core_binary prec emax (Zpos mx) ex (Zpos my) ey = (q, e', l) ->
  exists n, 0 <= n /\ ex - ey = e' + n /\ q = (Zpos mx * 2 ^ n) / Zpos my.
Proof.
  unfold SFdiv_core_binary.
  set (e0 := Z.min _ _).
  set (n := ex - ey - e0).
  assert (Hn : 0 <= n) by (subst n e0; lia).
  set (m' := match n with Zpos _ => Z.shiftl (Zpos mx) n | Z0 => Zpos mx | Zneg _ => Z0 end).
  assert (Hm' : m' = Zpos mx * 2 ^ n).
  { subst m'. destruct n as [|p|p] eqn:E.
    - cbn. lia.
    - now rewrite Z.shiftl_mul_pow2 by lia.
    - lia. }
  destruct (Z.div_eucl m' (Zpos my)) as [q' r] eqn:Hd.
  intros [= <- <- _]. exists n. split; [exact Hn|]. split; [subst n; lia|].
  rewrite <- Hm'. unfold Z.div. now rewrite Hd.
Qed.

(** A quotient that is a normal number is within 2^-50, relative, of the
    exact quotient. *)
Lemma SFdiv_normal (x y : spec_float) (s : bool) (m : positive) (e : Z) :
  SF64div x y = S754_finite s m e -> 2 ^ 52 <= Zpos m ->
  exists sx mx ex sy my ey k n,
    x = S754_finite sx mx ex /\ y = S754_finite sy my ey /\
    s = xorb sx sy /\ 0 <= k /\ 0 <= n /\ e + n = ex - ey + k /\
    2 ^ 50 * Z.abs (Zpos m * 2 ^ k * Zpos my - Zpos mx * 2 ^ n) <= Zpos mx * 2 ^ n.
Proof.
  intros H Hm. unfold SF64div in H.
  destruct x as [sx|sx| |sx mx ex], y as [sy|sy| |sy my ey];
    cbn [SFdiv] in H; try discriminate.
  destruct (SFdiv_core_binary prec emax (Zpos mx) ex (Zpos my) ey)
    as [[q e'] l] eqn:Hcore.
  apply SFdiv_core_floor in Hcore. destruct Hcore as (n & Hn & He' & Hq).
  assert (HN : 0 < 2 ^ n) by (apply Z.pow_pos_nonneg; lia).
  assert (Hq0 : 0 <= q) by (subst q; apply Z.div_pos; nia).
  apply binary_round_aux_finite in H; [|exact Hq0].
  destruct H as (-> & k & Hk & -> & Hb).
  exists sx, mx, ex, sy, my, ey, k, n.
  repeat (split; [reflexivity || lia|]).
  assert (HK : 0 < 2 ^ k) by (apply Z.pow_pos_nonneg; lia).
  pose proof (Z.mul_div_le (Zpos mx * 2 ^ n) (Zpos my) ltac:(lia)) as H1.
  pose proof (Z.mul_succ_div_gt (Zpos mx * 2 ^ n) (Zpos my) ltac:(lia)) as H2.
  rewrite <- Hq in H1, H2.
  set (N := Zpos mx * 2 ^ n) in *. set (K := 2 ^ k) in *.
  set (D := Zpos my) in *. set (M := Zpos m) in *.
  assert (HD : 0 < D) by (subst D; lia).
  assert (HM : 2 ^ 52 <= M) by exact Hm.
  assert (HW : D <= K * D) by nia.
  assert (Hx : Z.abs (M * K * D - q * D) <= 2 * (K * D)).
  { replace (M * K * D - q * D) with ((M * K - q) * D) by ring.
    rewrite Z.abs_mul, (Z.abs_eq D) by lia.
    replace (2 * (K * D)) with (2 * K * D) by ring.
    apply Z.mul_le_mono_nonneg_r; lia. }
  assert (HP : 2 ^ 52 * (K * D) <= M * K * D).
  { replace (M * K * D) with (M * (K * D)) by ring.
    apply Z.mul_le_mono_nonneg_r; lia. }
  rewrite (Z.mul_comm D q) in H1.
  replace (D * Z.succ q) with (q * D + D) in H2 by ring.
  change (2 ^ 52) with 4503599627370496 in *.
  change (2 ^ 50) with 1125899906842624.
  generalize dependent (M * K * D). generalize dependent (q * D).
  generalize dependent (K * D). intros. lia.
Qed.

End Rounding.

Section Accuracy.

Local Open Scope Q_scope.

(** Two positive integers within 2^-50 of each other, relative, have a
    ratio within the accuracy of one rounding. *)
Lemma ratio_rel (P N : Z) (z t : Q) :
  (0 < P)%Z -> (0 < N)%Z -> (2 ^ 50 * Z.abs (P - N) <= N)%Z ->
  z == t * (inject_Z P / inject_Z N) ->
  rel accuracy z t.
Proof.
  intros HP HN Hb Hz. exists (inject_Z P / inject_Z N). split; [exact Hz|].
  assert (Hq : inject_Z P / inject_Z N == P # Z.to_pos N).
  { rewrite Qmake_Qdiv, Z2Pos.id by exact HN. reflexivity. }
  rewrite Hq. change (2 ^ 50)%Z with 1125899906842624%Z in Hb.
  unfold accuracy, Qle, Qmult; cbn [Qnum Qden].
  rewrite ?Pos2Z.inj_mul, ?Z2Pos.id by exact HN. split; lia.
Qed.

Lemma two_neq_0 : ~ 2 == 0.
Proof. discriminate. Qed.

Lemma pow2_neq_0 (e : Z) : ~ 2 ^ e == 0.
Proof.
  intros H. pose proof (Qpower_0_lt 2 e ltac:(reflexivity)) as Hp.
  rewrite H in Hp. discriminate.
Qed.

Lemma SF2Q_finite_neq_0 (s : bool) (m : positive) (e : Z) :
  ~ SF2Q (S754_finite s m e) == 0.
Proof.
  cbn [SF2Q]. intros H.
  apply (pow2_neq_0 e).
  assert (Hm : ~ inject_Z (Zpos m) == 0) by discriminate.
  destruct s.
  - apply (Qmult_integral_l (-1 * inject_Z (Zpos m))); [|exact H].
    intros H'. apply Hm. lra.
  - apply (Qmult_integral_l (1 * inject_Z (Zpos m))); [|exact H].
    intros H'. apply Hm. lra.
Qed.

(** A product that is a normal number. *)
Lemma value_mul (x y : float) :
  normal (x * y) = true ->
  rel accuracy (value (x * y)) (value x * value y).
Proof.
  intros Hn. apply normal_spec in Hn. destruct Hn as (s & m & e & Hz & Hm).
  pose proof Hz as Hz'. rewrite mul_spec in Hz'.
  apply SFmul_normal in Hz'; [|exact Hm].
  destruct Hz' as (sx & mx & ex & sy & my & ey & k & Hx & Hy & -> & Hk & -> & Hb).
  unfold value. rewrite Hz, Hx, Hy. cbn [SF2Q].
  assert (HK : (0 < 2 ^ k)%Z) by (apply Z.pow_pos_nonneg; lia).
  apply (ratio_rel (Zpos m * 2 ^ k) (Zpos mx * Zpos my)); [nia | lia | exact Hb |].
  rewrite !Qpower_plus by exact two_neq_0.
  rewrite !inject_Z_mult, Zpower_Qpower by exact Hk.
  change (inject_Z 2) with 2.
  generalize (2 ^ ex) (2 ^ ey) (2 ^ k). intros a b c.
  assert (Hmx : ~ inject_Z (Zpos mx) == 0) by discriminate.
  assert (Hmy : ~ inject_Z (Zpos my) == 0) by discriminate.
  destruct sx, sy; cbn [xorb]; field; split; assumption.
Qed.

(** A quotient that is a normal number. *)
Lemma value_div (x y : float) :
  normal (x / y) = true ->
  ~ value y == 0 /\ rel accuracy (value (x / y)) (value x / value y).
Proof.
  intros Hn. apply normal_spec in Hn. destruct Hn as (s & m & e & Hz & Hm).
  pose proof Hz as Hz'. rewrite div_spec in Hz'.
  apply SFdiv_normal in Hz'; [|exact Hm].
  destruct Hz' as (sx & mx & ex & sy & my & ey & k & n & Hx & Hy & -> & Hk & Hn & He & Hb).
  unfold value. rewrite Hz, Hx, Hy.
  split; [apply SF2Q_finite_neq_0|]. cbn [SF2Q].
  assert (HK : (0 < 2 ^ k)%Z) by (apply Z.pow_pos_nonneg; lia).
  assert (HN : (0 < 2 ^ n)%Z) by (apply Z.pow_pos_nonneg; lia).
  apply (ratio_rel (Zpos m * 2 ^ k * Zpos my) (Zpos mx * 2 ^ n));
    [nia | nia | exact Hb |].
  replace e with (ex + k + - n + - ey)%Z by lia.
  rewrite !Qpower_plus by exact two_neq_0.
  rewrite !Qpower_opp.
  rewrite !inject_Z_mult, !Zpower_Qpower by assumption.
  change (inject_Z 2) with 2.
  pose proof (pow2_neq_0 ex). pose proof (pow2_neq_0 ey).
  pose proof (pow2_neq_0 k). pose proof (pow2_neq_0 n).
  revert H H0 H1 H2.
  generalize (2 ^ ex) (2 ^ ey) (2 ^ k) (2 ^ n). intros a b c d Ha Hb' Hc Hd.
  assert (Hmx : ~ inject_Z (Zpos mx) == 0) by discriminate.
  assert (Hmy : ~ inject_Z (Zpos my) == 0) by discriminate.
  assert (Hmm : ~ inject_Z (Zpos m) == 0) by discriminate.
  destruct sx, sy; cbn [xorb]; field; repeat split; assumption.
Qed.

Lemma accuracy_pos : 0 < accuracy.
Proof. reflexivity. Qed.

(** The relation [rel] through the operations: exact values, products,
    quotients and chains multiply their bounds. *)
Lemma rel_exact (z t : Q) : z == t -> rel 1 z t.
Proof.
  intros H. exists 1. split; [rewrite H; ring|]. split; [apply Qle_refl|].
  discriminate.
Qed.

Lemma rel_zero (b t : Q) : 0 < b -> b <= 1 -> t == 0 -> rel b 0 t.
Proof.
  intros Hb Hb1 Ht. exists 1. split; [rewrite Ht; ring|]. split; [exact Hb1|].
  now rewrite Qmult_1_l.
Qed.

Lemma rel_eq (b z z' t t' : Q) : z == z' -> t == t' -> rel b z t -> rel b z' t'.
Proof.
  intros Hz Ht (rho & H & Hl & Hu). exists rho. split; [|now split].
  now rewrite <- Hz, <- Ht.
Qed.

Lemma rel_weaken (b b' z t : Q) : 0 < b' -> b' <= b -> rel b z t -> rel b' z t.
Proof.
  intros Hpos Hb (rho & H & Hl & Hu). exists rho. split; [exact H|]. split.
  - now apply Qle_trans with b.
  - apply Qle_trans with (rho * b); [|exact Hu].
    assert (0 <= rho) by (apply Qle_trans with b'; [now apply Qlt_le_weak | now apply Qle_trans with b]).
    rewrite !(Qmult_comm rho). now apply Qmult_le_compat_r.
Qed.

Lemma Qmult_le_1 (a b : Q) : 0 <= a -> a <= 1 -> 0 <= b -> b <= 1 -> a * b <= 1.
Proof.
  intros Ha Ha1 Hb Hb1. apply Qle_trans with (1 * 1); [|discriminate].
  apply Qmult_le_compat_nonneg; split; assumption.
Qed.

Lemma rel_trans (b1 b2 z y t : Q) :
  0 < b1 -> 0 < b2 -> rel b1 z y -> rel b2 y t -> rel (b1 * b2) z t.
Proof.
  intros H1 H2 (r1 & Hz & Hl1 & Hu1) (r2 & Hy & Hl2 & Hu2).
  exists (r2 * r1). split; [rewrite Hz, Hy; ring|]. split.
  - rewrite (Qmult_comm r2 r1).
    apply Qmult_le_compat_nonneg; split; auto using Qlt_le_weak.
  - setoid_replace (r2 * r1 * (b1 * b2)) with ((r1 * b1) * (r2 * b2)) by ring.
    assert (0 <= r1) by (apply Qle_trans with b1; auto using Qlt_le_weak).
    assert (0 <= r2) by (apply Qle_trans with b2; auto using Qlt_le_weak).
    apply Qmult_le_1; auto; apply Qmult_le_0_compat; auto using Qlt_le_weak.
Qed.

Lemma rel_mul (b1 b2 z1 t1 z2 t2 : Q) :
  0 < b1 -> 0 < b2 -> rel b1 z1 t1 -> rel b2 z2 t2 ->
  rel (b1 * b2) (z1 * z2) (t1 * t2).
Proof.
  intros H1 H2 (r1 & Hz1 & Hl1 & Hu1) (r2 & Hz2 & Hl2 & Hu2).
  exists (r1 * r2). split; [rewrite Hz1, Hz2; ring|]. split.
  - apply Qmult_le_compat_nonneg; split; auto using Qlt_le_weak.
  - setoid_replace (r1 * r2 * (b1 * b2)) with ((r1 * b1) * (r2 * b2)) by ring.
    assert (0 <= r1) by (apply Qle_trans with b1; auto using Qlt_le_weak).
    assert (0 <= r2) by (apply Qle_trans with b2; auto using Qlt_le_weak).
    apply Qmult_le_1; auto; apply Qmult_le_0_compat; auto using Qlt_le_weak.
Qed.

Lemma rel_div (b1 b2 z1 t1 z2 t2 : Q) :
  0 < b1 -> 0 < b2 -> rel b1 z1 t1 -> rel b2 z2 t2 ->
  rel (b1 * b2) (z1 / z2) (t1 / t2).
Proof.
  intros H1 H2 (r1 & Hz1 & Hl1 & Hu1) (r2 & Hz2 & Hl2 & Hu2).
  assert (Hr1 : 0 <= r1) by (apply Qle_trans with b1; auto using Qlt_le_weak).
  assert (Hr2 : 0 < r2) by (apply Qlt_le_trans with b2; auto).
  exists (r1 * / r2). split; [|split].
  - unfold Qdiv. rewrite Hz1, Hz2, Qinv_mult_distr. ring.
  - apply Qmult_le_compat_nonneg; split; auto using Qlt_le_weak.
    apply Qle_shift_inv_l; [exact Hr2|]. now rewrite Qmult_comm.
  - setoid_replace (r1 * / r2 * (b1 * b2)) with ((r1 * b1) * (b2 / r2))
      by (unfold Qdiv; ring).
    apply Qmult_le_1.
    + apply Qmult_le_0_compat; auto using Qlt_le_weak.
    + exact Hu1.
    + apply Qle_shift_div_l; [exact Hr2|]. rewrite Qmult_0_l. auto using Qlt_le_weak.
    + apply Qle_shift_div_r; [exact Hr2|]. now rewrite Qmult_1_l.
Qed.

Lemma accuracy_le_1 : accuracy <= 1.
Proof. discriminate. Qed.

Lemma normal_finite (x : float) : normal x = true -> finite x = true.
Proof.
  intros H. apply normal_spec in H. destruct H as (s & m & e & H & _).
  now rewrite finite_spec, H.
Qed.

(** A product in range: the result is a number, and its value is the
    exact product of the values up to one rounding. *)
Lemma mul_accurate (x y : float) :
  mul_in_range x y = true ->
  finite (x * y) = true /\ rel accuracy (value (x * y)) (value x * value y).
Proof.
  unfold mul_in_range. intros H. apply orb_true_iff in H. destruct H as [H|H].
  - split; [now apply normal_finite | now apply value_mul].
  - unfold is_zero in H. rewrite !eqb_zero_spec, !finite_spec in H.
    rewrite finite_spec. unfold value. rewrite mul_spec. unfold SF64mul.
    destruct (Prim2SF x) as [sx|sx| |sx mx ex], (Prim2SF y) as [sy|sy| |sy my ey];
      try discriminate; cbn [SFmul SF2Q];
      (split; [reflexivity|]);
      apply rel_zero; auto using accuracy_pos, accuracy_le_1; ring.
Qed.

(** A quotient in range. *)
Lemma div_accurate (x y : float) :
  div_in_range x y = true ->
  finite (x / y) = true /\ ~ value y == 0 /\
  rel accuracy (value (x / y)) (value x / value y).
Proof.
  unfold div_in_range. intros H. apply orb_true_iff in H. destruct H as [H|H].
  - split; [now apply normal_finite | now apply value_div].
  - unfold is_zero in H. rewrite !eqb_zero_spec, !finite_spec in H.
    rewrite finite_spec. unfold value. rewrite div_spec. unfold SF64div.
    destruct (Prim2SF x) as [sx|sx| |sx mx ex], (Prim2SF y) as [sy|sy| |sy my ey];
      try discriminate; cbn [SFdiv];
      (split; [reflexivity|]);
      (split; [apply SF2Q_finite_neq_0|]);
      apply rel_zero; auto using accuracy_pos, accuracy_le_1;
      cbn [SF2Q]; unfold Qdiv; ring.
Qed.

End Accuracy.

Section Tolerance.

Local Open Scope Q_scope.

(** One float64 operation on operands that are already approximations:
    the bounds of the operands and one more rounding. *)
Lemma step_mul (x y : float) (bx b_y tx ty : Q) :
  mul_in_range x y = true ->
  rel bx (value x) tx -> rel b_y (value y) ty -> 0 < bx -> 0 < b_y ->
  rel (accuracy * (bx * b_y)) (value (x * y)) (tx * ty).
Proof.
  intros H Hx Hy Hbx Hby. apply mul_accurate in H. destruct H as [_ H].
  apply rel_trans with (value x * value y); auto using accuracy_pos.
  - now apply Qmult_lt_0_compat.
  - now apply rel_mul.
Qed.

Lemma step_div (x y : float) (bx b_y tx ty : Q) :
  div_in_range x y = true ->
  rel bx (value x) tx -> rel b_y (value y) ty -> 0 < bx -> 0 < b_y ->
  rel (accuracy * (bx * b_y)) (value (x / y)) (tx / ty).
Proof.
  intros H Hx Hy Hbx Hby. apply div_accurate in H. destruct H as (_ & _ & H).
  apply rel_trans with (value x / value y); auto using accuracy_pos.
  - now apply Qmult_lt_0_compat.
  - now apply rel_div.
Qed.

Lemma value_hundred : value 100 == 100.
Proof. vm_compute. reflexivity. Qed.

(** Two values that are one exact number up to a few roundings each agree
    within 1e-6. *)
Lemma rel_within (c a t : Q) :
  rel (999999999 # 1000000000) c t -> rel (999999999 # 1000000000) a t ->
  Qabs (c - a) <= (1 # 1000000) * Qabs a.
Proof.
  intros (rc & Hc & Hlc & Huc) (ra & Ha & Hla & Hua).
  assert (Hra : 0 <= ra) by lra.
  setoid_replace (c - a) with (t * (rc - ra)) by (rewrite Hc, Ha; ring).
  rewrite Ha, !Qabs_Qmult, (Qabs_pos ra) by exact Hra.
  setoid_replace ((1 # 1000000) * (Qabs t * ra))
    with (((1 # 1000000) * ra) * Qabs t) by ring.
  rewrite (Qmult_comm (Qabs t)).
  apply Qmult_le_compat_r; [|apply Qabs_nonneg].
  apply Qabs_Qle_condition. split; lra.
Qed.

(** Decides a comparison of two closed rationals. *)
Ltac closed_bound := vm_compute; first [reflexivity | discriminate].

(** The two return-on-equity formulas in float64, when no operation
    underflows or overflows. *)
Lemma ROE_agree (net_income revenue total_assets equity : float) :
  no_underflow_or_overflow net_income revenue total_assets equity = true ->
  (ROE_Calculated (value net_income) (value revenue) (value total_assets) (value equity)
     == ROE_Actual (value net_income) (value equity)) /\
  agree (ROE_Calculated net_income revenue total_assets equity)
        (ROE_Actual net_income equity) = true.
Proof.
  unfold no_underflow_or_overflow. cbv zeta.
  rewrite !andb_true_iff.
  intros [[[[[[[[[H1 H2] H3] H4] H5] H6] H7] H8] H9] H10].
  pose proof (rel_exact (value net_income) _ (Qeq_refl _)) as Rn.
  pose proof (rel_exact (value revenue) _ (Qeq_refl _)) as Rr.
  pose proof (rel_exact (value total_assets) _ (Qeq_refl _)) as Rt.
  pose proof (rel_exact (value equity) _ (Qeq_refl _)) as Re.
  pose proof (rel_exact (value 100) 100 value_hundred) as Rh.
  assert (Hr : ~ value revenue == 0) by (apply div_accurate in H1; tauto).
  assert (Ht : ~ value total_assets == 0) by (apply div_accurate in H4; tauto).
  assert (He : ~ value equity == 0) by (apply div_accurate in H6; tauto).
  assert (Hexact : ROE_Calculated (value net_income) (value revenue)
                     (value total_assets) (value equity)
                   == ROE_Actual (value net_income) (value equity))
    by now apply ROE_Calculated_exact.
  split; [exact Hexact|].
  unfold agree. rewrite !andb_true_iff. split; [split|].
  - apply mul_accurate in H8. tauto.
  - apply mul_accurate in H10. tauto.
  - apply Qle_bool_iff.
    pose proof (step_div _ _ _ _ _ _ H1 Rn Rr) as S1;
      specialize (S1 ltac:(closed_bound) ltac:(closed_bound)).
    pose proof (step_mul _ _ _ _ _ _ H2 S1 Rh) as S2;
      specialize (S2 ltac:(closed_bound) ltac:(closed_bound)).
    pose proof (step_div _ _ _ _ _ _ H3 S2 Rh) as S3;
      specialize (S3 ltac:(closed_bound) ltac:(closed_bound)).
    pose proof (step_div _ _ _ _ _ _ H4 Rr Rt) as S4;
      specialize (S4 ltac:(closed_bound) ltac:(closed_bound)).
    pose proof (step_mul _ _ _ _ _ _ H5 S3 S4) as S5;
      specialize (S5 ltac:(closed_bound) ltac:(closed_bound)).
    pose proof (step_div _ _ _ _ _ _ H6 Rt Re) as S6;
      specialize (S6 ltac:(closed_bound) ltac:(closed_bound)).
    pose proof (step_mul _ _ _ _ _ _ H7 S5 S6) as S7;
      specialize (S7 ltac:(closed_bound) ltac:(closed_bound)).
    pose proof (step_mul _ _ _ _ _ _ H8 S7 Rh) as S8;
      specialize (S8 ltac:(closed_bound) ltac:(closed_bound)).
    pose proof (step_div _ _ _ _ _ _ H9 Rn Re) as S9;
      specialize (S9 ltac:(closed_bound) ltac:(closed_bound)).
    pose proof (step_mul _ _ _ _ _ _ H10 S9 Rh) as S10;
      specialize (S10 ltac:(closed_bound) ltac:(closed_bound)).
    apply rel_within with (ROE_Actual (value net_income) (value equity)).
    + apply (rel_weaken _ (999999999 # 1000000000)) in S8; [|closed_bound..].
      revert S8. apply rel_eq; [reflexivity|]. rewrite <- Hexact. reflexivity.
    + apply (rel_weaken _ (999999999 # 1000000000)) in S10; [|closed_bound..].
      exact S10.
Qed.

End Tolerance.

(** C2, as the code has it.  For every year held in a row of both tables
    with Revenue, Total_Assets and Shareholders_Equity non-zero, in which
    no quotient or product of the two formulas underflows or overflows,
    [analyze_dupont_model] returns a table whose ROE_Calculated_% and
    ROE_Actual_% are the float64 values of [ROE_Calculated] and
    [ROE_Actual]; the two formulas are one in exact arithmetic on the
    values of the year, and the two float64 cells agree within 1e-6
    relative. *)
Theorem C2_dupont_identity (self : Analyzer) (i : nat) (ir : IncomeRow)
    (br : BalanceRow) :
  nth_error (income self) i = Some ir ->
  nth_error (balance self) i = Some br ->
  nonzero (Revenue ir) -> nonzero (Total_Assets br) ->
  nonzero (Shareholders_Equity br) ->
  no_underflow_or_overflow (Net_Income ir) (Revenue ir) (Total_Assets br)
    (Shareholders_Equity br) = true ->
  exists df calculated actual,
    analyze_dupont_model self = Returns (df, self) /\
    cell df "ROE_Calculated_%" i = Some calculated /\
    cell df "ROE_Actual_%" i = Some actual /\
    calculated = ROE_Calculated (Net_Income ir) (Revenue ir) (Total_Assets br)
                   (Shareholders_Equity br) /\
    actual = ROE_Actual (Net_Income ir) (Shareholders_Equity br) /\
    (ROE_Calculated (value (Net_Income ir)) (value (Revenue ir))
       (value (Total_Assets br)) (value (Shareholders_Equity br))
     == ROE_Actual (value (Net_Income ir)) (value (Shareholders_Equity br)))%Q /\
    agree calculated actual = true.
Proof.
  intros Hir Hbr _ _ _ Hrange.
  destruct (dupont_cells self i ir br Hir Hbr) as (df & Hrun & Hc & Ha).
  destruct (ROE_agree _ _ _ _ Hrange) as [Hexact Hagree].
  exists df. do 2 eexists. split; [exact Hrun|].
  split; [apply holds_cell; exact Hc|]. split; [apply holds_cell; exact Ha|].
  split; [reflexivity|]. split; [reflexivity|]. split; [exact Hexact | exact Hagree].
Qed.

(** Witness of C2: the year 2018 of the sample data. *)
Lemma C2_dupont_identity_witness :
  exists df calculated actual,
    analyze_dupont_model (FinancialRatioAnalyzer income_data balance_data)
      = Returns (df, FinancialRatioAnalyzer income_data balance_data) /\
    cell df "ROE_Calculated_%" 3 = Some calculated /\
    cell df "ROE_Actual_%" 3 = Some actual /\
    calculated = (ROE_Calculated 2.2 573.1 980.0 160.0)%float /\
    actual = (ROE_Actual 2.2 160.0)%float /\
    (ROE_Calculated (value 2.2) (value 573.1) (value 980.0) (value 160.0)
     == ROE_Actual (value 2.2) (value 160.0))%Q /\
    agree calculated actual = true.
Proof.
  apply (C2_dupont_identity (FinancialRatioAnalyzer income_data balance_data) 3
           (mkIncomeRow 2018 573.1 348.9 224.2 451.3 (-0.4) 19.8 2.2)
           (mkBalanceRow 2018 980.0 320.0 660.0 820.0 290.0 530.0 160.0));
    vm_compute; reflexivity.
Defined.

(** On the four years of the sample data no operation underflows or
    overflows, and the float64 test of the tolerance holds as well. *)
Lemma dupont_sample_in_range :
  Forall2 (fun ir br =>
             no_underflow_or_overflow (Net_Income ir) (Revenue ir) (Total_Assets br)
               (Shareholders_Equity br) = true /\
             close (ROE_Calculated (Net_Income ir) (Revenue ir) (Total_Assets br)
                      (Shareholders_Equity br))
                   (ROE_Actual (Net_Income ir) (Shareholders_Equity br)) = true)
          income_data balance_data.
Proof. repeat constructor; vm_compute; reflexivity. Qed.

(** C2 as stated fails in float64: for a year with net income 1e-200,
    revenue 1e200, total assets 1 and equity 1 (all non-zero), the net
    margin underflows to zero, so ROE_Calculated_% is 0 while ROE_Actual_%
    is 1e-198; the two are not equal, and not within 1e-6 relative,
    neither by the float64 test nor on the exact values. *)
Lemma C2_counterexample :
  nonzero 1e200 /\ nonzero 1.0 /\
  exists df self',
    analyze_dupont_model (FinancialRatioAnalyzer income_underflow balance_underflow)
      = Returns (df, self') /\
    cell df "ROE_Calculated_%" 0 = Some 0%float /\
    cell df "ROE_Actual_%" 0 = Some (1e-200 / 1.0 * 100)%float /\
    PrimFloat.eqb 0 (1e-200 / 1.0 * 100) = false /\
    close 0 (1e-200 / 1.0 * 100) = false /\
    agree 0 (1e-200 / 1.0 * 100) = false /\
    no_underflow_or_overflow 1e-200 1e200 1.0 1.0 = false.
Proof.
  split; [reflexivity|]. split; [reflexivity|].
  do 2 eexists. split; [vm_compute; reflexivity|].
  split_all; try reflexivity; vm_compute; reflexivity.
Qed.

(** ** Percent change *)




Lemma length_ffill_from (prev : float) (s : Series) :
  length (ffill_from prev s) = length s.
Proof.
  revert prev; induction s as [|y s IH]; intros prev; cbn; [reflexivity|].
  now rewrite IH.
Qed.

Section PercentChange.

Variables (pad : bool) (s : Series).



End PercentChange.

Lemma length_shift (s : Series) : length (shift s) = length s.
Proof. unfold shift. rewrite length_firstn. cbn. lia. Qed.

Lemma length_pct_change (pad : bool) (s : Series) :
  length (pct_change pad s) = length s.
Proof.
  unfold pct_change. rewrite length_scalar, length_binop, length_shift.
  destruct pad; [unfold ffill; rewrite length_ffill_from|]; lia.
Qed.

Lemma reindex_reindex (n : nat) (s : Series) : reindex n (reindex n s) = reindex n s.
Proof.
  rewrite <- (length_reindex n s) at 1. apply reindex_length.
Qed.

(** Assigning a column of the frame's own length keeps the index. *)
Lemma nrows_setitem_same_length (df : DataFrame) (name : string) (value : Column) :
  column_length value = nrows df -> nrows (setitem df name value) = nrows df.
Proof.
  intros H. unfold setitem; cbn [nrows]. rewrite H.
  destruct (nrows df); reflexivity.
Qed.

(** ** The efficiency table *)

(** The table that [calculate_efficiency_ratios] returns, through the
    turnover series [turnover] that it reads back for the change. *)
Lemma efficiency_cells (pad : bool) (self : Analyzer) :
  exists df self' turnover,
    calculate_efficiency_ratios pad self = Returns (df, self') /\
    (forall i x, cell df "Asset_Turnover" i = Some x -> nth_error turnover i = Some x) /\
    (forall i y, nth_error (pct_change pad turnover) i = Some y ->
                 cell df "Asset_Turnover_Change_%" i = Some (y * 100)%float).
Proof.
  unfold calculate_efficiency_ratios. run_method.
  set (d := [ ("Year", _); ("Asset_Turnover", _); ("Fixed_Asset_Turnover", _) ]).
  set (turnover := reindex (max_length d) _).
  set (change := Numeric _).
  exists (setitem (DataFrame_of d) "Asset_Turnover_Change_%" change).
  eexists. exists turnover. split; [reflexivity|].
  assert (Hn : nrows (setitem (DataFrame_of d) "Asset_Turnover_Change_%" change)
               = max_length d).
  { apply nrows_setitem_same_length. subst change turnover.
    cbn [column_length nrows DataFrame_of].
    now rewrite length_scalar, length_pct_change, length_reindex. }
  split.
  - intros i x. unfold cell.
    rewrite getitem_setitem_other by reflexivity. rewrite Hn.
    rewrite getitem_DataFrame_of.
    cbn [d lookup String.eqb Ascii.eqb Bool.eqb option_map reindex_column].
    fold turnover. subst turnover. now rewrite reindex_reindex.
  - intros i y Hy. unfold cell.
    rewrite getitem_setitem_same, Hn. subst change. cbn [reindex_column].
    apply nth_error_reindex; [now apply nth_error_scalar|].
    assert (i < length (pct_change pad turnover)) by (apply nth_error_Some; congruence).
    rewrite length_pct_change in H. subst turnover.
    now rewrite length_reindex in H.
Qed.





(** On the sample data: nothing for 2015, and for 2016 the change of the
    turnover 826.6 / 1320 from 784.9 / 1250. *)
Lemma asset_turnover_change_sample :
  exists df self',
    calculate_efficiency_ratios true (FinancialRatioAnalyzer income_data balance_data)
      = Returns (df, self') /\
    cell df "Asset_Turnover" 0 = Some (784.9 / 1250.0)%float /\
    cell df "Asset_Turnover" 1 = Some (826.6 / 1320.0)%float /\
    cell df "Asset_Turnover_Change_%" 0 = Some NaN /\
    cell df "Asset_Turnover_Change_%" 1
      = Some ((826.6 / 1320.0 / (784.9 / 1250.0) - 1) * 100)%float.
Proof.
  do 2 eexists. split; [vm_compute; reflexivity|]. split_all; reflexivity.
Qed.

(** ** The trend loop *)

Lemma Trend_eqb_eq (a b : Trend) : Trend_eqb a b = true <-> a = b.
Proof. destruct a, b; cbn; split; congruence. Qed.

(** One pass of the loop body is one verdict, recorded or not. *)
Lemma trend_step_verdict (category : string) (df : DataFrame) (trends : Trends)
    (name : string) :
  trend_step category df trends name =
  match verdict df name with
  | Some t =>
      {| improving := improving trends ++ select Improving [(trend_label category name, t)];
         declining := declining trends ++ select Declining [(trend_label category name, t)];
         stable := stable trends ++ select Stable [(trend_label category name, t)] |}
  | None => trends
  end.
Proof.
  unfold trend_step, verdict, eligible, classify.
  destruct (getitem df name) as [[s|l]|]; try reflexivity.
  - destruct (negb (String.eqb name "Year")); cbn [andb is_numeric]; [|reflexivity].
    destruct (1 <? length (dropna s))%nat; [|reflexivity].
    destruct (gt (relative_change (dropna s)) 0.1);
      [|destruct (lt (relative_change (dropna s)) (-0.1))];
      cbn; rewrite ?app_nil_r; reflexivity.
  - destruct (negb (String.eqb name "Year")); reflexivity.
Qed.

Lemma select_app (t : Trend) (l l' : list (string * Trend)) :
  select t (l ++ l') = select t l ++ select t l'.
Proof. unfold select. now rewrite filter_app, map_app. Qed.

(** The lists after the loop over one table, and over the whole store. *)
Lemma trend_table_verdicts (trends : Trends) (entry : string * DataFrame) :
  trend_table trends entry =
  {| improving := improving trends ++ select Improving (table_verdicts entry);
     declining := declining trends ++ select Declining (table_verdicts entry);
     stable := stable trends ++ select Stable (table_verdicts entry) |}.
Proof.
  unfold trend_table, table_verdicts.
  generalize (keys (columns (snd entry))) as names.
  intros names; revert trends; induction names as [|name names IH]; intros trends.
  - cbn. rewrite !app_nil_r. now destruct trends.
  - cbn [fold_left flat_map]. rewrite IH, trend_step_verdict.
    destruct (verdict (snd entry) name) as [t|]; [|reflexivity].
    cbn [improving declining stable]. rewrite !select_app, !app_assoc. reflexivity.
Qed.

Lemma fold_trend_table (store : list (string * DataFrame)) (trends : Trends) :
  fold_left trend_table store trends =
  {| improving := improving trends ++ select Improving (verdicts store);
     declining := declining trends ++ select Declining (verdicts store);
     stable := stable trends ++ select Stable (verdicts store) |}.
Proof.
  revert trends; induction store as [|entry store IH]; intros trends.
  - cbn. rewrite !app_nil_r. now destruct trends.
  - cbn [fold_left verdicts flat_map]. rewrite IH, trend_table_verdicts.
    cbn [improving declining stable]. fold (verdicts store).
    rewrite !select_app, !app_assoc. reflexivity.
Qed.

Lemma identify_ratio_trends_returns (self : Analyzer) :
  identify_ratio_trends self =
  Returns ({| improving := select Improving (verdicts (ratios self));
              declining := select Declining (verdicts (ratios self));
              stable := select Stable (verdicts (ratios self)) |}, self).
Proof.
  unfold identify_ratio_trends. run_method. now rewrite fold_trend_table.
Qed.

Lemma In_select (t : Trend) (l : list (string * Trend)) (label : string) :
  In label (select t l) <-> In (label, t) l.
Proof.
  unfold select. rewrite in_map_iff. split.
  - intros [[label' t'] [Heq Hin]]. cbn in Heq; subst label'.
    apply filter_In in Hin. destruct Hin as [Hin Ht]. cbn in Ht.
    apply Trend_eqb_eq in Ht. now subst t'.
  - intros Hin. exists (label, t). split; [reflexivity|].
    apply filter_In. split; [exact Hin|]. now apply Trend_eqb_eq.
Qed.

Lemma In_table_verdicts (entry : string * DataFrame) (label : string) (t : Trend) :
  In (label, t) (table_verdicts entry) <->
  exists name, In name (keys (columns (snd entry))) /\
               label = trend_label (fst entry) name /\
               verdict (snd entry) name = Some t.
Proof.
  unfold table_verdicts. rewrite in_flat_map. split.
  - intros [name [Hin H]]. exists name. split; [exact Hin|].
    destruct (verdict (snd entry) name) as [t'|]; [|contradiction].
    destruct H as [[= <- <-]|[]]. now split.
  - intros [name [Hin [-> Hv]]]. exists name. split; [exact Hin|].
    rewrite Hv. now left.
Qed.

(** A verdict of the loop is listed under its label. *)
Lemma verdict_listed (store : list (string * DataFrame)) (category name : string)
    (df : DataFrame) (t : Trend) :
  In (category, df) store -> In name (keys (columns df)) ->
  verdict df name = Some t ->
  In (trend_label category name, t) (verdicts store).
Proof.
  intros Hs Hn Hv. unfold verdicts. apply in_flat_map.
  exists (category, df). split; [exact Hs|].
  apply In_table_verdicts. exists name. now split.
Qed.

(** A change below the band is not above it. *)
Lemma below_band_not_above (x : float) : lt x (-0.1) = true -> gt x 0.1 = false.
Proof.
  unfold lt, gt. rewrite !FloatAxioms.ltb_spec.
  change (Prim2SF (-0.1)) with (S754_finite true 7205759403792794 (-56)).
  change (Prim2SF 0.1) with (S754_finite false 7205759403792794 (-56)).
  destruct (Prim2SF x) as [s|s| |s m e]; try destruct s;
    unfold SFltb, SFcompare; congruence.
Qed.

Lemma classify_improving (values : Series) :
  gt (relative_change values) 0.1 = true -> classify values = Improving.
Proof. unfold classify. now intros ->. Qed.

Lemma classify_declining (values : Series) :
  lt (relative_change values) (-0.1) = true -> classify values = Declining.
Proof.
  intros H. unfold classify. now rewrite (below_band_not_above _ H), H.
Qed.

Lemma classify_stable (values : Series) :
  gt (relative_change values) 0.1 = false ->
  lt (relative_change values) (-0.1) = false -> classify values = Stable.
Proof. unfold classify. now intros -> ->. Qed.

(** C3.  For every stored series (a numeric column other than Year of a
    table of [self.ratios]) with more than one value present,
    [identify_ratio_trends] takes the first and last values present,
    computes relative_change = (last - first) / |first| when first is
    non-zero and 0 when it is zero, and lists the series as improving when
    relative_change > 0.1, declining when relative_change < -0.1 and stable
    otherwise.  On the stored example, [100, 130] is improving, [100, 95]
    stable and [100, 85] declining. *)
Theorem C3_trend_classification :
  (forall (self : Analyzer) (category name : string) (df : DataFrame) (s : Series),
     In (category, df) (ratios self) ->
     In name (keys (columns df)) ->
     getitem df name = Some (Numeric s) ->
     name <> "Year" ->
     1 < length (dropna s) ->
     let first := iloc_first (dropna s) in
     let last := iloc_last (dropna s) in
     let change := if ne first 0
                   then ((last - first) / PrimFloat.abs first)%float
                   else 0%float in
     exists trends,
       identify_ratio_trends self = Returns (trends, self) /\
       (gt change 0.1 = true ->
        In (trend_label category name) (improving trends)) /\
       (lt change (-0.1) = true ->
        In (trend_label category name) (declining trends)) /\
       (gt change 0.1 = false -> lt change (-0.1) = false ->
        In (trend_label category name) (stable trends))) /\
  identify_ratio_trends example_analyzer =
    Returns ({| improving := ["example.up"];
                declining := ["example.down"];
                stable := ["example.flat"] |}, example_analyzer).
Proof.
  split; [|reflexivity].
  intros self category name df s Hs Hn Hget Hyear Hlen first last change.
  rewrite identify_ratio_trends_returns. eexists. split; [reflexivity|].
  cbn [improving declining stable].
  assert (Hv : verdict df name = Some (classify (dropna s))).
  { unfold verdict, eligible. rewrite Hget.
    apply String.eqb_neq in Hyear. rewrite Hyear.
    apply Nat.ltb_lt in Hlen. now rewrite Hlen. }
  fold (relative_change (dropna s)) in change.
  split_all; intros; apply In_select;
    eapply verdict_listed; try eassumption; rewrite Hv; f_equal.
  - now apply classify_improving.
  - now apply classify_declining.
  - now apply classify_stable.
Qed.

(** ** The lists partition the eligible series *)

Lemma mem_In (x : string) (l : list string) : mem x l = true <-> In x l.
Proof.
  induction l as [|y l IH]; cbn; [intuition discriminate|].
  rewrite orb_true_iff, IH, String.eqb_eq. reflexivity.
Qed.

Lemma distinct_NoDup (l : list string) : distinct l = true -> NoDup l.
Proof.
  induction l as [|x l IH]; cbn; [constructor|].
  rewrite andb_true_iff, negb_true_iff. intros [Hx Hl].
  constructor; [|now apply IH].
  intros Hin. apply mem_In in Hin. congruence.
Qed.

Lemma append_cancel_l (a b c : string) : (a ++ b = a ++ c)%string -> b = c.
Proof.
  induction a as [|ch a IH]; cbn; [trivial|]. intros [= H]. now apply IH.
Qed.

Lemma trend_label_inj (category name name' : string) :
  trend_label category name = trend_label category name' -> name = name'.
Proof.
  unfold trend_label. intros H.
  apply append_cancel_l in H. now apply append_cancel_l in H.
Qed.

Lemma table_verdicts_labels (entry : string * DataFrame) (label : string) (t : Trend) :
  In (label, t) (table_verdicts entry) ->
  In label (map (trend_label (fst entry)) (keys (columns (snd entry)))).
Proof.
  rewrite In_table_verdicts. intros [name [Hin [-> _]]]. now apply in_map.
Qed.

Lemma verdicts_labels (store : list (string * DataFrame)) (label : string) (t : Trend) :
  In (label, t) (verdicts store) -> In label (stored_labels store).
Proof.
  unfold verdicts, stored_labels. rewrite !in_flat_map.
  intros [entry [He Hin]]. exists entry. split; [exact He|].
  now apply table_verdicts_labels in Hin.
Qed.

Lemma NoDup_app_disjoint {A : Type} (l l' : list A) (x : A) :
  NoDup (l ++ l') -> In x l -> In x l' -> False.
Proof.
  induction l as [|y l IH]; cbn; [contradiction|].
  intros Hnd [->|Hin] Hin'; inversion Hnd as [|? ? Hy Hnd']; subst.
  - apply Hy. apply in_or_app. now right.
  - now apply IH.
Qed.

Lemma NoDup_app_r {A : Type} (l l' : list A) : NoDup (l ++ l') -> NoDup l'.
Proof.
  induction l as [|y l IH]; cbn; [trivial|].
  intros Hnd. inversion Hnd; subst. now apply IH.
Qed.

(** With the labels of the stored columns all different, a label carries
    the verdict of its own column and no other. *)
Lemma verdicts_functional (store : list (string * DataFrame)) :
  NoDup (stored_labels store) ->
  forall (category name : string) (df : DataFrame) (t : Trend),
    In (category, df) store -> In name (keys (columns df)) ->
    In (trend_label category name, t) (verdicts store) ->
    verdict df name = Some t.
Proof.
  induction store as [|entry store IH]; intros Hnd category name df t Hs Hn Hv;
    [contradiction|].
  cbn [stored_labels flat_map] in Hnd. fold (stored_labels store) in Hnd.
  cbn [verdicts flat_map] in Hv. fold (verdicts store) in Hv.
  apply in_app_or in Hv.
  destruct Hs as [->|Hs].
  - destruct Hv as [Hv|Hv].
    + apply In_table_verdicts in Hv. destruct Hv as [name' [_ [Heq Hv]]].
      cbn [fst snd] in *. apply trend_label_inj in Heq. now subst name'.
    + exfalso. apply verdicts_labels in Hv.
      eapply NoDup_app_disjoint; [exact Hnd| |exact Hv].
      cbn [fst snd]. now apply in_map.
  - destruct Hv as [Hv|Hv].
    + exfalso. apply table_verdicts_labels in Hv.
      eapply NoDup_app_disjoint; [exact Hnd|exact Hv|].
      unfold stored_labels. apply in_flat_map. exists (category, df).
      split; [exact Hs|]. cbn [fst snd]. now apply in_map.
    + apply (IH (NoDup_app_r _ _ Hnd) category name df t Hs Hn Hv).
Qed.

(** Under that hypothesis a label is listed under a verdict exactly when
    its column has that verdict. *)
Lemma listed_iff (store : list (string * DataFrame)) (category name : string)
    (df : DataFrame) (t : Trend) :
  NoDup (stored_labels store) ->
  In (category, df) store -> In name (keys (columns df)) ->
  In (trend_label category name) (select t (verdicts store)) <->
  verdict df name = Some t.
Proof.
  intros Hnd Hs Hn. split; intros H.
  - apply In_select in H. now apply (verdicts_functional store Hnd category name df t).
  - apply In_select. now apply verdict_listed with df.
Qed.

(** C10.  With the labels of the stored columns all different (as they are
    for the tables the analyzer stores), the three lists of
    [identify_ratio_trends] partition the eligible series: a numeric column
    other than Year with more than one value present is in exactly one of
    improving, declining and stable; any other column (the year, a column
    with at most one value present, a column of strings) is in none. *)
Theorem C10_trends_partition (self : Analyzer) (category name : string)
    (df : DataFrame) (c : Column) :
  distinct (stored_labels (ratios self)) = true ->
  In (category, df) (ratios self) ->
  In name (keys (columns df)) ->
  getitem df name = Some c ->
  exists trends,
    identify_ratio_trends self = Returns (trends, self) /\
    let label := trend_label category name in
    if eligible name c
    then (In label (improving trends) /\ ~ In label (declining trends)
            /\ ~ In label (stable trends)) \/
         (~ In label (improving trends) /\ In label (declining trends)
            /\ ~ In label (stable trends)) \/
         (~ In label (improving trends) /\ ~ In label (declining trends)
            /\ In label (stable trends))
    else ~ In label (improving trends) /\ ~ In label (declining trends)
           /\ ~ In label (stable trends).
Proof.
  intros Hd Hs Hn Hget. apply distinct_NoDup in Hd.
  rewrite identify_ratio_trends_returns. eexists. split; [reflexivity|].
  intros label. cbn [improving declining stable].
  pose proof (listed_iff _ category name df Improving Hd Hs Hn) as HI.
  pose proof (listed_iff _ category name df Declining Hd Hs Hn) as HD.
  pose proof (listed_iff _ category name df Stable Hd Hs Hn) as HS.
  fold label in HI, HD, HS.
  unfold verdict in HI, HD, HS. rewrite Hget in HI, HD, HS.
  destruct (eligible name c) eqn:He.
  - destruct c as [s|l]; [|unfold eligible in He; rewrite andb_false_r in He; discriminate].
    destruct (classify (dropna s)); [left | right; left | right; right];
      split_all;
      first [ apply HI; reflexivity | apply HD; reflexivity | apply HS; reflexivity
            | intros H; first [apply HI in H | apply HD in H | apply HS in H]; discriminate ].
  - split_all; intros H; first [apply HI in H | apply HD in H | apply HS in H]; discriminate.
Qed.
(** Witness of C10: the rising series of the stored example. *)
Lemma C10_trends_partition_witness :
  exists trends,
    identify_ratio_trends example_analyzer = Returns (trends, example_analyzer) /\
    let label := trend_label "example" "up" in
    if eligible "up" (Numeric [100; 130]%float)
    then (In label (improving trends) /\ ~ In label (declining trends)
            /\ ~ In label (stable trends)) \/
         (~ In label (improving trends) /\ In label (declining trends)
            /\ ~ In label (stable trends)) \/
         (~ In label (improving trends) /\ ~ In label (declining trends)
            /\ In label (stable trends))
    else ~ In label (improving trends) /\ ~ In label (declining trends)
           /\ ~ In label (stable trends).
Proof.
  apply (C10_trends_partition example_analyzer "example" "up" example_frame
           (Numeric [100; 130]%float)).
  - reflexivity.
  - left; reflexivity.
  - cbn. right; left; reflexivity.
  - reflexivity.
Defined.

(** ** Strings *)

Lemma list_ascii_of_string_append (a b : string) :
  list_ascii_of_string (a ++ b)%string = list_ascii_of_string a ++ list_ascii_of_string b.
Proof. induction a as [|ch a IH]; cbn; [reflexivity | now rewrite IH]. Qed.

Lemma list_ascii_of_string_inj (a b : string) :
  list_ascii_of_string a = list_ascii_of_string b -> a = b.
Proof.
  intros H. rewrite <- (string_of_list_ascii_of_string a), H.
  apply string_of_list_ascii_of_string.
Qed.

Lemma app_same_length_tail {A : Type} (a b c d : list A) :
  length c = length d -> a ++ c = b ++ d -> a = b /\ c = d.
Proof.
  intros Hlen H.
  assert (Hl : length a = length b).
  { apply (f_equal (@length A)) in H. rewrite !length_app in H. lia. }
  revert b Hl H; induction a as [|x a IH]; intros [|y b] Hl H; cbn in *;
    try discriminate.
  - now split.
  - injection H as -> H. injection Hl as Hl.
    destruct (IH b Hl H) as [-> ->]. now split.
Qed.

(** Two names with suffixes of one length are equal only part by part. *)
Lemma append_same_length_suffix (a b s t : string) :
  String.length s = String.length t -> (a ++ s = b ++ t)%string -> a = b /\ s = t.
Proof.
  intros Hlen H. apply (f_equal list_ascii_of_string) in H.
  rewrite !list_ascii_of_string_append in H.
  apply app_same_length_tail in H.
  - destruct H as [Ha Hs]. split; now apply list_ascii_of_string_inj.
  - clear H. revert t Hlen; induction s as [|ch s IH]; intros [|ch' t]; cbn;
      try discriminate; [reflexivity|].
    intros [= H]. now rewrite (IH t H).
Qed.

Lemma eqb_append_suffix (a b s : string) :
  String.eqb a b = false -> String.eqb (a ++ s) (b ++ s) = false.
Proof.
  intros H. apply String.eqb_neq. apply String.eqb_neq in H.
  intros Heq. apply H. now apply (append_same_length_suffix a b s s).
Qed.

Lemma eqb_vs_Performance (a b : string) :
  String.eqb (a ++ "_vs_Industry") (b ++ "_Performance") = false.
Proof.
  apply String.eqb_neq. intros Heq.
  apply append_same_length_suffix in Heq; [|reflexivity].
  destruct Heq as [_ Heq]. discriminate.
Qed.

Lemma eqb_Performance_vs (a b : string) :
  String.eqb (a ++ "_Performance") (b ++ "_vs_Industry") = false.
Proof.
  apply String.eqb_neq. intros Heq.
  apply append_same_length_suffix in Heq; [|reflexivity].
  destruct Heq as [_ Heq]. discriminate.
Qed.

(** ** Well-formed frames *)

Lemma reindex_column_length (c : Column) : reindex_column (column_length c) c = c.
Proof.
  destruct c; cbn; [now rewrite reindex_length | now rewrite reindex_labels_length].
Qed.

Lemma well_formed_DataFrame_of (d : list (string * Column)) : well_formed (DataFrame_of d).
Proof.
  unfold well_formed, DataFrame_of; cbn. apply Forall_map, Forall_forall.
  intros c _. cbn. apply column_length_reindex.
Qed.

Lemma well_formed_lookup (df : DataFrame) (name : string) (c : Column) :
  well_formed df -> getitem df name = Some c -> column_length c = nrows df.
Proof.
  unfold well_formed, getitem. generalize (nrows df) as n. intros n.
  induction (columns df) as [|[k v] d IH]; cbn; [discriminate|].
  intros Hwf. inversion Hwf as [|? ? Hv Hd]; subst.
  destruct (String.eqb k name); [now intros [= <-] | now apply IH].
Qed.

Lemma Forall_assign {V : Type} (P : string * V -> Prop) (k : string) (v : V)
    (d : list (string * V)) :
  P (k, v) -> Forall P d -> Forall P (assign k v d).
Proof.
  intros Hv Hd. induction Hd as [|[k' v'] d Hx Hd IH]; cbn.
  - now constructor.
  - destruct (String.eqb k' k); constructor; assumption.
Qed.

(** On a well-formed frame, assigning a column of the frame's length is
    assignment in the dict of columns. *)
Lemma setitem_well_formed (df : DataFrame) (name : string) (value : Column) :
  well_formed df -> column_length value = nrows df ->
  setitem df name value =
    {| nrows := nrows df; columns := assign name value (columns df) |} /\
  well_formed {| nrows := nrows df; columns := assign name value (columns df) |}.
Proof.
  intros Hwf Hlen. split.
  - unfold setitem. rewrite Hlen.
    replace (if ((nrows df =? 0) && negb (nrows df =? 0))%nat then nrows df else nrows df)
      with (nrows df) by (destruct (nrows df); reflexivity).
    f_equal. f_equal.
    + rewrite <- Hlen. apply reindex_column_length.
    + unfold well_formed in Hwf. induction Hwf as [|[k v] d Hv Hd IH]; cbn;
        [reflexivity|].
      cbn in Hv. rewrite IH, <- Hv, reindex_column_length. reflexivity.
  - unfold well_formed; cbn [nrows columns]. now apply Forall_assign.
Qed.

(** ** The benchmark loop *)

Section BenchmarkLoop.

Variable summary : DataFrame.
Hypothesis summary_well_formed : well_formed summary.
Hypothesis summary_numeric :
  forall name c, getitem summary name = Some c -> is_numeric c = true.

Lemma benchmark_step_returns (ba : DataFrame) (item : string * float) (self : Analyzer) :
  well_formed ba -> nrows ba = nrows summary ->
  benchmark_step summary ba item self =
    Returns ({| nrows := nrows ba;
                columns := benchmark_columns summary [item] (columns ba) |}, self) /\
  well_formed {| nrows := nrows ba;
                 columns := benchmark_columns summary [item] (columns ba) |}.
Proof.
  intros Hwf Hn. destruct item as [metric benchmark].
  unfold benchmark_step, benchmark_columns, has_key, numeric_column, subscript, bind.
  cbn [fold_left fst snd]. unfold getitem.
  destruct (lookup metric (columns summary)) as [c|] eqn:Hc.
  - pose proof (summary_numeric metric c Hc) as Hnum.
    destruct c as [actual|l]; [clear Hnum | discriminate].
    pose proof (well_formed_lookup summary metric _ summary_well_formed Hc) as Hlen.
    cbn [column_length] in Hlen.
    destruct (setitem_well_formed ba (metric ++ "_vs_Industry")
                (Numeric (actual -| benchmark)%series) Hwf) as [Hset Hwf'].
    { cbn [column_length]. rewrite length_scalar. congruence. }
    cbv beta iota delta [ret]. rewrite Hset. cbn [columns].
    rewrite lookup_assign_same. cbv beta iota.
    destruct (setitem_well_formed _ (metric ++ "_Performance")
                (Labels (map performance (actual -| benchmark)%series)) Hwf')
      as [Hset' Hwf''].
    { cbn [column_length nrows]. rewrite length_map, length_scalar. congruence. }
    rewrite Hset'. cbn [nrows columns]. now split.
  - cbv beta iota delta [ret]. split; [now destruct ba | now destruct ba].
Qed.

Lemma benchmark_columns_cons (item : string * float) (items : list (string * float))
    (cols : list (string * Column)) :
  benchmark_columns summary (item :: items) cols =
  benchmark_columns summary items (benchmark_columns summary [item] cols).
Proof. reflexivity. Qed.

Lemma for_each_benchmark_step (items : list (string * float)) (ba : DataFrame)
    (self : Analyzer) :
  well_formed ba -> nrows ba = nrows summary ->
  for_each (benchmark_step summary) items ba self =
    Returns ({| nrows := nrows ba;
                columns := benchmark_columns summary items (columns ba) |}, self).
Proof.
  revert ba; induction items as [|item items IH]; intros ba Hwf Hn.
  - cbn. now destruct ba.
  - cbn [for_each]. unfold bind.
    destruct (benchmark_step_returns ba item self Hwf Hn) as [-> Hwf'].
    rewrite IH by assumption. reflexivity.
Qed.

(** A column that no metric of the loop writes is left as it was. *)
Lemma benchmark_columns_other (items : list (string * float)) (name : string)
    (cols : list (string * Column)) :
  (forall metric, In metric (keys items) ->
     String.eqb (metric ++ "_vs_Industry") name = false /\
     String.eqb (metric ++ "_Performance") name = false) ->
  lookup name (benchmark_columns summary items cols) = lookup name cols.
Proof.
  revert cols; induction items as [|[metric benchmark] items IH]; intros cols H;
    [reflexivity|].
  rewrite benchmark_columns_cons, IH.
  - destruct (H metric) as [Hvs Hperf]; [now left|].
    unfold benchmark_columns; cbn [fold_left fst snd].
    destruct (getitem summary metric) as [[actual|l]|]; try reflexivity.
    now rewrite !lookup_assign_other.
  - intros m Hm. apply H. now right.
Qed.

(** The two columns that the loop writes for a metric of the mapping. *)
Lemma benchmark_columns_metric (items : list (string * float)) (metric : string)
    (benchmark : float) (actual : Series) (cols : list (string * Column)) :
  NoDup (keys items) -> In (metric, benchmark) items ->
  getitem summary metric = Some (Numeric actual) ->
  lookup (metric ++ "_vs_Industry") (benchmark_columns summary items cols)
    = Some (Numeric (actual -| benchmark)%series) /\
  lookup (metric ++ "_Performance") (benchmark_columns summary items cols)
    = Some (Labels (map performance (actual -| benchmark)%series)).
Proof.
  revert cols; induction items as [|[m b] items IH]; intros cols Hnd Hin Hget;
    [contradiction|].
  cbn [keys map fst] in Hnd. inversion Hnd as [|? ? Hm Hnd']; subst.
  rewrite benchmark_columns_cons.
  destruct Hin as [[= -> ->]|Hin]; [|now apply IH].
  assert (Hother : forall suffix, (suffix = "_vs_Industry" \/ suffix = "_Performance") ->
            forall m', In m' (keys items) ->
            String.eqb (m' ++ "_vs_Industry") (metric ++ suffix) = false /\
            String.eqb (m' ++ "_Performance") (metric ++ suffix) = false).
  { intros suffix Hs m' Hm'.
    assert (Hneq : String.eqb m' metric = false).
    { apply String.eqb_neq. intros ->. contradiction. }
    destruct Hs as [-> | ->]; split;
      auto using eqb_append_suffix, eqb_vs_Performance, eqb_Performance_vs. }
  split; rewrite benchmark_columns_other by (apply Hother; auto);
    unfold benchmark_columns; cbn [fold_left fst snd]; rewrite Hget.
  - rewrite lookup_assign_other by apply eqb_Performance_vs.
    apply lookup_assign_same.
  - apply lookup_assign_same.
Qed.

End BenchmarkLoop.

(** ** The summary and the benchmark table *)

Lemma all_numeric_getitem (df : DataFrame) (name : string) (c : Column) :
  all_numeric df = true -> getitem df name = Some c -> is_numeric c = true.
Proof.
  unfold all_numeric, getitem.
  induction (columns df) as [|[k v] d IH]; cbn; [discriminate|].
  rewrite andb_true_iff. intros [Hv Hd].
  destruct (String.eqb k name); [now intros [= <-] | now apply IH].
Qed.

Lemma DataFrame_of_single (name : string) (c : Column) :
  DataFrame_of [ (name, c) ] = {| nrows := column_length c; columns := [ (name, c) ] |}.
Proof.
  unfold DataFrame_of, max_length; cbn. rewrite Nat.max_0_r.
  now rewrite reindex_column_length.
Qed.

(** [generate_ratio_summary] leaves the instance as it was; its table is
    well formed and has the years. *)
Lemma generate_ratio_summary_inv (self self' : Analyzer) (summary : DataFrame) :
  generate_ratio_summary self = Returns (summary, self') ->
  self' = self /\ well_formed summary /\
  exists year, getitem summary "Year" = Some (Numeric year).
Proof.
  cbv beta iota delta [generate_ratio_summary bind get_self subscript ret raise].
  repeat (match goal with
          | |- context [match lookup ?k ?d with _ => _ end] =>
              destruct (lookup k d); cbv beta iota; try discriminate
          end).
  intros [= <- <-]. split; [reflexivity|].
  split; [apply well_formed_DataFrame_of|].
  rewrite getitem_DataFrame_of. cbn. eauto.
Qed.

Lemma benchmark_against_industry_returns (self : Analyzer) (summary : DataFrame)
    (industry_benchmarks : list (string * float)) :
  generate_ratio_summary self = Returns (summary, self) ->
  all_numeric summary = true ->
  industry_benchmarks <> [] ->
  exists year,
    getitem summary "Year" = Some (Numeric year) /\
    benchmark_against_industry industry_benchmarks self =
      Returns ({| nrows := nrows summary;
                  columns := benchmark_columns summary industry_benchmarks
                               [ ("Year", Numeric year) ] |}, self).
Proof.
  intros Hsum Hnum Hne.
  destruct (generate_ratio_summary_inv _ _ _ Hsum) as (_ & Hwf & year & Hyear).
  exists year. split; [exact Hyear|].
  pose proof (well_formed_lookup _ _ _ Hwf Hyear) as Hlen.
  unfold benchmark_against_industry.
  destruct industry_benchmarks as [|item items]; [congruence|].
  unfold bind at 1. rewrite Hsum.
  unfold bind, subscript. unfold getitem in Hyear. rewrite Hyear.
  cbv beta iota delta [ret]. rewrite DataFrame_of_single.
  rewrite for_each_benchmark_step.
  - cbn [nrows columns]. now rewrite Hlen.
  - exact Hwf.
  - intros name c. now apply all_numeric_getitem.
  - unfold well_formed; cbn. now constructor.
  - exact Hlen.
Qed.

(** The table that [benchmark_against_industry] returns, and the cells
    that its loop writes for a metric of the mapping. *)
Lemma benchmark_cells (self : Analyzer) (summary : DataFrame)
    (industry_benchmarks : list (string * float)) :
  generate_ratio_summary self = Returns (summary, self) ->
  all_numeric summary = true ->
  industry_benchmarks <> [] ->
  distinct (keys industry_benchmarks) = true ->
  exists year,
    let df := {| nrows := nrows summary;
                 columns := benchmark_columns summary industry_benchmarks
                              [ ("Year", Numeric year) ] |} in
    benchmark_against_industry industry_benchmarks self = Returns (df, self) /\
    forall metric benchmark i actual,
      In (metric, benchmark) industry_benchmarks ->
      cell summary metric i = Some actual ->
      cell df (metric ++ "_vs_Industry") i = Some (actual - benchmark)%float /\
      label_cell df (metric ++ "_Performance") i =
        Some (if gt (actual - benchmark) 0 then "Above" else "Below").
Proof.
  intros Hsum Hnum Hne Hd. apply distinct_NoDup in Hd.
  destruct (benchmark_against_industry_returns _ _ _ Hsum Hnum Hne)
    as (year & Hyear & Hrun).
  exists year. intros df. split; [exact Hrun|].
  intros metric benchmark i actual Hin Hcell.
  unfold cell in Hcell.
  destruct (getitem summary metric) as [[s|l]|] eqn:Hget; try discriminate.
  destruct (benchmark_columns_metric summary industry_benchmarks metric benchmark s
              [ ("Year", Numeric year) ] Hd Hin Hget) as [Hvs Hperf].
  unfold cell, label_cell, getitem, df; cbn [columns]. rewrite Hvs, Hperf. split.
  - now apply nth_error_scalar.
  - rewrite nth_error_map. erewrite nth_error_scalar by exact Hcell. reflexivity.
Qed.

(** C6.  For a mapping of benchmarks (a dict: its keys all different),
    [benchmark_against_industry] returns for each metric of the mapping
    that is a column of the summary table, and each year,
    actual - benchmark in the column [metric_vs_Industry], and in
    [metric_Performance] the label 'Above' when that difference is > 0 and
    'Below' otherwise (a difference of zero included).  The summary table
    is that of [generate_ratio_summary], which needs the four ratio tables
    stored, all numeric. *)
Theorem C6_benchmark_difference_and_label (self : Analyzer) (summary : DataFrame)
    (industry_benchmarks : list (string * float)) :
  generate_ratio_summary self = Returns (summary, self) ->
  all_numeric summary = true ->
  distinct (keys industry_benchmarks) = true ->
  exists df,
    benchmark_against_industry industry_benchmarks self = Returns (df, self) /\
    forall metric benchmark i actual,
      In (metric, benchmark) industry_benchmarks ->
      cell summary metric i = Some actual ->
      cell df (metric ++ "_vs_Industry") i = Some (actual - benchmark)%float /\
      label_cell df (metric ++ "_Performance") i =
        Some (if gt (actual - benchmark) 0 then "Above" else "Below").
Proof.
  intros Hsum Hnum Hd.
  destruct industry_benchmarks as [|item items].
  - destruct (benchmark_against_industry_returns self summary default_benchmarks Hsum Hnum)
      as (year & _ & Hrun); [discriminate|].
    eexists. split; [exact Hrun|]. intros metric benchmark i actual [].
  - destruct (benchmark_cells self summary (item :: items) Hsum Hnum) as (year & Hrun & Hcells);
      [discriminate | exact Hd |].
    eexists. split; [exact Hrun | exact Hcells].
Qed.

(** Witness of C6: the sample data against a return on equity of 12. *)
Lemma C6_benchmark_difference_and_label_witness :
  exists df,
    benchmark_against_industry [ ("ROE_%", 12.0%float) ]
        (calculated true income_data balance_data)
      = Returns (df, calculated true income_data balance_data) /\
    forall metric benchmark i actual,
      In (metric, benchmark) [ ("ROE_%", 12.0%float) ] ->
      cell (summary_of (calculated true income_data balance_data)) metric i
        = Some actual ->
      cell df (metric ++ "_vs_Industry") i = Some (actual - benchmark)%float /\
      label_cell df (metric ++ "_Performance") i =
        Some (if gt (actual - benchmark) 0 then "Above" else "Below").
Proof.
  apply (C6_benchmark_difference_and_label
           (calculated true income_data balance_data)
           (summary_of (calculated true income_data balance_data))
           [ ("ROE_%", 12.0%float) ]).
  - vm_compute. reflexivity.
  - vm_compute. reflexivity.
  - reflexivity.
Defined.

(** A tie is labelled 'Below': the current ratio of 2015 against itself. *)
Lemma benchmark_tie_below :
  exists df self',
    benchmark_against_industry [ ("Current_Ratio", (450.0 / 380.0)%float) ]
        (calculated true income_data balance_data) = Returns (df, self') /\
    cell df "Current_Ratio_vs_Industry" 0 = Some 0%float /\
    label_cell df "Current_Ratio_Performance" 0 = Some "Below".
Proof.
  do 2 eexists. split; [vm_compute; reflexivity|]. split; reflexivity.
Qed.

(** ** The four stored tables *)

(** Reduces the lookup of a literal name in a frame built by
    [DataFrame_of] and [setitem]. *)
Ltac find_column :=
  repeat first
    [ rewrite getitem_setitem_same
    | rewrite getitem_setitem_other by reflexivity
    | rewrite getitem_DataFrame_of ];
  cbn [lookup String.eqb Ascii.eqb Bool.eqb option_map reindex_column];
  eauto.

Lemma calculate_profitability_ratios_stores (self : Analyzer) :
  exists df,
    calculate_profitability_ratios self =
      Returns (df, {| income := income self; balance := balance self;
                      ratios := assign "profitability" df (ratios self) |}) /\
    (exists v, getitem df "Gross_Margin_%" = Some (Numeric v)) /\
    (exists v, getitem df "EBIT_Margin_%" = Some (Numeric v)) /\
    (exists v, getitem df "ROE_%" = Some (Numeric v)).
Proof.
  unfold calculate_profitability_ratios. run_method.
  eexists. split; [reflexivity|]. split_all; find_column.
Qed.

Lemma calculate_liquidity_ratios_stores (self : Analyzer) :
  exists df,
    calculate_liquidity_ratios self =
      Returns (df, {| income := income self; balance := balance self;
                      ratios := assign "liquidity" df (ratios self) |}) /\
    (exists v, getitem df "Current_Ratio" = Some (Numeric v)).
Proof.
  unfold calculate_liquidity_ratios. run_method.
  eexists. split; [reflexivity|]. find_column.
Qed.

Lemma calculate_leverage_ratios_stores (self : Analyzer) :
  exists df,
    calculate_leverage_ratios self =
      Returns (df, {| income := income self; balance := balance self;
                      ratios := assign "leverage" df (ratios self) |}) /\
    (exists v, getitem df "Debt_to_Equity" = Some (Numeric v)).
Proof.
  unfold calculate_leverage_ratios. run_method.
  eexists. split; [reflexivity|]. find_column.
Qed.

Lemma calculate_efficiency_ratios_stores (pad : bool) (self : Analyzer) :
  exists df,
    calculate_efficiency_ratios pad self =
      Returns (df, {| income := income self; balance := balance self;
                      ratios := assign "efficiency" df (ratios self) |}) /\
    (exists v, getitem df "Asset_Turnover" = Some (Numeric v)).
Proof.
  unfold calculate_efficiency_ratios. run_method.
  eexists. split; [reflexivity|]. find_column.
Qed.

(** The four calculations of [__main__], one after the other. *)
Lemma four_calculations (pad : bool) (income_df : IncomeStatement)
    (balance_df : BalanceSheet) :
  exists profitability liquidity leverage efficiency,
    let stored := fun tables =>
      {| income := income_df; balance := balance_df; ratios := tables |} in
    calculate_profitability_ratios (FinancialRatioAnalyzer income_df balance_df)
      = Returns (profitability, stored [ ("profitability", profitability) ]) /\
    calculate_liquidity_ratios (stored [ ("profitability", profitability) ])
      = Returns (liquidity,
                 stored [ ("profitability", profitability); ("liquidity", liquidity) ]) /\
    calculate_leverage_ratios
        (stored [ ("profitability", profitability); ("liquidity", liquidity) ])
      = Returns (leverage,
                 stored [ ("profitability", profitability); ("liquidity", liquidity);
                          ("leverage", leverage) ]) /\
    calculate_efficiency_ratios pad
        (stored [ ("profitability", profitability); ("liquidity", liquidity);
                  ("leverage", leverage) ])
      = Returns (efficiency,
                 stored [ ("profitability", profitability); ("liquidity", liquidity);
                          ("leverage", leverage); ("efficiency", efficiency) ]) /\
    calculated pad income_df balance_df =
      stored [ ("profitability", profitability); ("liquidity", liquidity);
               ("leverage", leverage); ("efficiency", efficiency) ] /\
    exists v1 v2 v3 v4 v5 v6,
      getitem profitability "Gross_Margin_%" = Some (Numeric v1) /\
      getitem profitability "EBIT_Margin_%" = Some (Numeric v2) /\
      getitem profitability "ROE_%" = Some (Numeric v3) /\
      getitem liquidity "Current_Ratio" = Some (Numeric v4) /\
      getitem leverage "Debt_to_Equity" = Some (Numeric v5) /\
      getitem efficiency "Asset_Turnover" = Some (Numeric v6).
Proof.
  destruct (calculate_profitability_ratios_stores (FinancialRatioAnalyzer income_df balance_df))
    as (p & Hp & [v1 H1] & [v2 H2] & [v3 H3]).
  cbn [income balance ratios FinancialRatioAnalyzer assign] in Hp.
  destruct (calculate_liquidity_ratios_stores
              {| income := income_df; balance := balance_df;
                 ratios := [ ("profitability", p) ] |}) as (q & Hq & [v4 H4]).
  cbn [income balance ratios assign String.eqb Ascii.eqb Bool.eqb] in Hq.
  destruct (calculate_leverage_ratios_stores
              {| income := income_df; balance := balance_df;
                 ratios := [ ("profitability", p); ("liquidity", q) ] |})
    as (l & Hl & [v5 H5]).
  cbn [income balance ratios assign String.eqb Ascii.eqb Bool.eqb] in Hl.
  destruct (calculate_efficiency_ratios_stores pad
              {| income := income_df; balance := balance_df;
                 ratios := [ ("profitability", p); ("liquidity", q);
                             ("leverage", l) ] |})
    as (e & He & [v6 H6]).
  cbn [income balance ratios assign String.eqb Ascii.eqb Bool.eqb] in He.
  exists p, q, l, e. intros stored. subst stored. cbv beta.
  split; [exact Hp|]. split; [exact Hq|]. split; [exact Hl|]. split; [exact He|].
  split.
  - unfold calculated, bind. rewrite Hp. cbv beta iota. rewrite Hq. cbv beta iota.
    rewrite Hl. cbv beta iota. rewrite He. reflexivity.
  - exists v1, v2, v3, v4, v5, v6. split_all; assumption.
Qed.

(** The instance after the four calculations, and its summary table. *)
Lemma calculated_summary (pad : bool) (income_df : IncomeStatement)
    (balance_df : BalanceSheet) :
  exists v1 v2 v3 v4 v5 v6,
    generate_ratio_summary (calculated pad income_df balance_df)
      = Returns (DataFrame_of
                   [ ("Year", Numeric (col iYear income_df));
                     ("Gross_Margin_%", Numeric v1);
                     ("EBIT_Margin_%", Numeric v2);
                     ("ROE_%", Numeric v3);
                     ("Current_Ratio", Numeric v4);
                     ("Debt_to_Equity", Numeric v5);
                     ("Asset_Turnover", Numeric v6) ],
                 calculated pad income_df balance_df).
Proof.
  destruct (four_calculations pad income_df balance_df)
    as (p & q & l & e & _ & _ & _ & _ & -> & v1 & v2 & v3 & v4 & v5 & v6
        & H1 & H2 & H3 & H4 & H5 & H6).
  exists v1, v2, v3, v4, v5, v6.
  cbv beta iota delta [generate_ratio_summary bind get_self subscript ret raise].
  cbn [ratios income lookup String.eqb Ascii.eqb Bool.eqb].
  unfold getitem in H1, H2, H3, H4, H5, H6.
  rewrite H1, H2, H3, H4, H5, H6. reflexivity.
Qed.

(** C9.  Called with the empty mapping, [benchmark_against_industry] does
    what it does with the built-in UK-retail defaults (Gross_Margin_% 35,
    EBIT_Margin_% 5, ROE_% 12, Current_Ratio 1.5, Debt_to_Equity 1,
    Asset_Turnover 1.2); and on an analyzer whose four ratio tables are
    calculated it returns, for any input tables, a comparison with the two
    columns of each of the six default metrics, the differences being
    taken against the defaults. *)
Theorem C9_default_benchmarks :
  default_benchmarks =
    [ ("Gross_Margin_%", 35.0%float); ("EBIT_Margin_%", 5.0%float);
      ("ROE_%", 12.0%float); ("Current_Ratio", 1.5%float);
      ("Debt_to_Equity", 1.0%float); ("Asset_Turnover", 1.2%float) ] /\
  (forall self : Analyzer,
     benchmark_against_industry [] self
       = benchmark_against_industry default_benchmarks self) /\
  (forall (pad : bool) (income_df : IncomeStatement) (balance_df : BalanceSheet),
     exists df,
       benchmark_against_industry [] (calculated pad income_df balance_df)
         = Returns (df, calculated pad income_df balance_df) /\
       keys (columns df) =
         [ "Year";
           "Gross_Margin_%_vs_Industry"; "Gross_Margin_%_Performance";
           "EBIT_Margin_%_vs_Industry"; "EBIT_Margin_%_Performance";
           "ROE_%_vs_Industry"; "ROE_%_Performance";
           "Current_Ratio_vs_Industry"; "Current_Ratio_Performance";
           "Debt_to_Equity_vs_Industry"; "Debt_to_Equity_Performance";
           "Asset_Turnover_vs_Industry"; "Asset_Turnover_Performance" ] /\
       forall metric benchmark i actual,
         In (metric, benchmark) default_benchmarks ->
         cell (summary_of (calculated pad income_df balance_df)) metric i
           = Some actual ->
         cell df (metric ++ "_vs_Industry") i = Some (actual - benchmark)%float /\
         label_cell df (metric ++ "_Performance") i =
           Some (if gt (actual - benchmark) 0 then "Above" else "Below")).
Proof.
  assert (Hdefault : forall self : Analyzer,
            benchmark_against_industry [] self
              = benchmark_against_industry default_benchmarks self)
    by reflexivity.
  split; [reflexivity|]. split; [exact Hdefault|].
  intros pad income_df balance_df.
  destruct (calculated_summary pad income_df balance_df)
    as (v1 & v2 & v3 & v4 & v5 & v6 & Hsum).
  set (self := calculated pad income_df balance_df) in *.
  set (summary := DataFrame_of _) in Hsum.
  assert (Hof : summary_of self = summary) by (unfold summary_of; now rewrite Hsum).
  assert (Hnum : all_numeric summary = true) by reflexivity.
  rewrite Hdefault.
  destruct (benchmark_cells self summary default_benchmarks Hsum Hnum)
    as (year & Hrun & Hcells); [discriminate | reflexivity |].
  eexists. split; [exact Hrun|]. rewrite Hof. split; [reflexivity | exact Hcells].
Qed.

(** ** The whole run *)

Lemma analyze_dupont_model_returns (self : Analyzer) :
  exists df, analyze_dupont_model self = Returns (df, self).
Proof. unfold analyze_dupont_model. run_method. eexists. reflexivity. Qed.

Lemma benchmark_default_returns (pad : bool) (income_df : IncomeStatement)
    (balance_df : BalanceSheet) :
  exists df,
    benchmark_against_industry [] (calculated pad income_df balance_df)
      = Returns (df, calculated pad income_df balance_df).
Proof.
  assert (Hdefault : forall self : Analyzer,
            benchmark_against_industry [] self
              = benchmark_against_industry default_benchmarks self)
    by reflexivity.
  destruct (calculated_summary pad income_df balance_df)
    as (v1 & v2 & v3 & v4 & v5 & v6 & Hsum).
  rewrite Hdefault.
  destruct (benchmark_against_industry_returns _ _ default_benchmarks Hsum)
    as (year & _ & Hrun); [reflexivity | discriminate |].
  eexists. exact Hrun.
Qed.

(** [__main__] returns on any two tables, with the profitability table of
    the first call in its report. *)
Lemma main_returns (pad : bool) (income_df : IncomeStatement) (balance_df : BalanceSheet) :
  exists report self',
    main pad income_df balance_df
      = Returns (report, calculated pad income_df balance_df) /\
    calculate_profitability_ratios (FinancialRatioAnalyzer income_df balance_df)
      = Returns (profitability_table report, self').
Proof.
  destruct (four_calculations pad income_df balance_df)
    as (p & q & l & e & Hp & Hq & Hl & He & Hcalc & _).
  cbv beta in Hp, Hq, Hl, He, Hcalc.
  destruct (benchmark_default_returns pad income_df balance_df) as (b & Hb).
  destruct (analyze_dupont_model_returns (calculated pad income_df balance_df))
    as (d & Hd).
  unfold main, pipeline, bind.
  rewrite Hp. cbv beta iota. rewrite Hq. cbv beta iota.
  rewrite Hl. cbv beta iota. rewrite He. cbv beta iota.
  rewrite <- Hcalc. rewrite Hd. cbv beta iota.
  rewrite identify_ratio_trends_returns. cbv beta iota.
  rewrite Hb. cbv beta iota delta [ret].
  do 2 eexists. split; [reflexivity|]. cbn [profitability_table]. reflexivity.
Qed.

(** C5, as the code has it.  Nothing validates the two tables: for every
    pair of tables, whatever their year counts and their years, the
    constructor keeps them as given and the whole run returns its report.
    The rows are paired by position: a year of the income statement keeps
    its row and its margins in the profitability table, and where the
    balance sheet has no row at that position ROA_% and ROE_% are NaN. *)
Theorem C5_no_validation (pad : bool) (income_df : IncomeStatement)
    (balance_df : BalanceSheet) :
  income (FinancialRatioAnalyzer income_df balance_df) = income_df /\
  balance (FinancialRatioAnalyzer income_df balance_df) = balance_df /\
  exists report self',
    main pad income_df balance_df = Returns (report, self') /\
    forall i ir,
      nth_error income_df i = Some ir ->
      cell (profitability_table report) "Year" i = Some (iYear ir) /\
      cell (profitability_table report) "Gross_Margin_%" i
        = Some (Gross_Profit ir / Revenue ir * 100)%float /\
      cell (profitability_table report) "EBIT_Margin_%" i
        = Some (EBIT ir / Revenue ir * 100)%float /\
      cell (profitability_table report) "Net_Margin_%" i
        = Some (Net_Income ir / Revenue ir * 100)%float /\
      (nth_error balance_df i = None ->
       cell (profitability_table report) "ROA_%" i = Some NaN /\
       cell (profitability_table report) "ROE_%" i = Some NaN).
Proof.
  split; [reflexivity|]. split; [reflexivity|].
  destruct (main_returns pad income_df balance_df) as (report & s1 & Hmain & Hp).
  exists report. eexists. split; [exact Hmain|].
  intros i ir Hir.
  destruct (profitability_income_cells (FinancialRatioAnalyzer income_df balance_df) i ir Hir)
    as (df & self' & Hrun & Hy & Hg & He & Hn).
  assert (Hdf : df = profitability_table report) by congruence. subst df.
  split_all; try (now apply holds_cell).
  intros Hmissing.
  destruct (profitability_balance_cells_missing
              (FinancialRatioAnalyzer income_df balance_df) i ir Hir Hmissing)
    as (df' & self'' & Hrun' & Hroa & Hroe).
  assert (Hdf : df' = profitability_table report) by congruence. subst df'.
  split; now apply holds_cell.
Qed.

(** C5 as stated fails: the four sample years against a balance sheet of
    three years, and an income statement with the year 2015 twice, both run
    to the end; the profitability table of the first has its four rows,
    the fourth with its margin and a NaN return on equity. *)
Lemma C5_counterexample :
  length income_data = 4 /\ length balance_three_years = 3 /\
  (exists report self',
     main true income_data balance_three_years = Returns (report, self') /\
     nrows (profitability_table report) = 4 /\
     cell (profitability_table report) "Gross_Margin_%" 3
       = Some (224.2 / 573.1 * 100)%float /\
     cell (profitability_table report) "ROE_%" 3 = Some NaN) /\
  (exists report self',
     main true income_duplicate_year balance_data = Returns (report, self') /\
     cell (profitability_table report) "Year" 0 = Some 2015%float /\
     cell (profitability_table report) "Year" 1 = Some 2015%float).
Proof.
  split; [reflexivity|]. split; [reflexivity|]. split.
  - do 2 eexists. split; [vm_compute; reflexivity|]. split_all; reflexivity.
  - do 2 eexists. split; [vm_compute; reflexivity|]. split_all; reflexivity.
Qed.

(** ** What the operations read and write *)

Section Purity.

Ltac same_tables :=
  intros [inc1 bal1 r1] [inc2 bal2 r2]; cbn [income balance];
  intros <- <-.

Lemma calculate_profitability_ratios_reads : reads_only_tables calculate_profitability_ratios.
Proof. same_tables. unfold calculate_profitability_ratios. run_method. reflexivity. Qed.

Lemma calculate_liquidity_ratios_reads : reads_only_tables calculate_liquidity_ratios.
Proof. same_tables. unfold calculate_liquidity_ratios. run_method. reflexivity. Qed.

Lemma calculate_leverage_ratios_reads : reads_only_tables calculate_leverage_ratios.
Proof. same_tables. unfold calculate_leverage_ratios. run_method. reflexivity. Qed.

Lemma calculate_efficiency_ratios_reads (pad : bool) :
  reads_only_tables (calculate_efficiency_ratios pad).
Proof. same_tables. unfold calculate_efficiency_ratios. run_method. reflexivity. Qed.

Lemma analyze_dupont_model_reads : reads_only_tables analyze_dupont_model.
Proof. same_tables. unfold analyze_dupont_model. run_method. reflexivity. Qed.

Lemma identify_ratio_trends_reads : reads_only_ratios identify_ratio_trends.
Proof.
  intros s1 s2 H. rewrite !identify_ratio_trends_returns. cbn [result]. now rewrite H.
Qed.

Lemma stores_result_preserves_tables (category : string) (m : M DataFrame) :
  stores_result category m -> preserves_tables m /\ total m.
Proof.
  intros H. split; intros self; destruct (H self) as [df ->]; cbn; eauto.
Qed.

(** A step of the benchmark loop neither reads nor writes the instance. *)
Lemma benchmark_step_pure (summary ba : DataFrame) (item : string * float) :
  exists o : DataFrame + exn,
    forall self,
      benchmark_step summary ba item self =
      match o with inl df => Returns (df, self) | inr e => Raises e end.
Proof.
  destruct item as [metric benchmark].
  unfold benchmark_step, has_key, numeric_column, subscript, bind, ret, raise.
  destruct (lookup metric (columns summary)) as [[actual|l]|].
  - match goal with |- context [lookup ?k ?d] => destruct (lookup k d) as [[v|v]|] end.
    + eexists (inl _). reflexivity.
    + exists (inr TypeError). reflexivity.
    + eexists (inr (KeyError _)). reflexivity.
  - exists (inr TypeError). reflexivity.
  - exists (inl ba). reflexivity.
Qed.

Lemma for_each_benchmark_pure (summary : DataFrame) (items : list (string * float))
    (ba : DataFrame) :
  exists o : DataFrame + exn,
    forall self,
      for_each (benchmark_step summary) items ba self =
      match o with inl df => Returns (df, self) | inr e => Raises e end.
Proof.
  revert ba; induction items as [|item items IH]; intros ba.
  - exists (inl ba). reflexivity.
  - destruct (benchmark_step_pure summary ba item) as [[ba'|e] Hstep].
    + destruct (IH ba') as [o Ho]. exists o. intros self.
      cbn [for_each]. unfold bind. now rewrite Hstep, Ho.
    + exists (inr e). intros self. cbn [for_each]. unfold bind. now rewrite Hstep.
Qed.

(** The summary reads the years of the income statement and the stored
    tables, and writes nothing. *)
Lemma generate_ratio_summary_pure (s1 : Analyzer) :
  exists o : DataFrame + exn,
    forall s2,
      col iYear (income s2) = col iYear (income s1) -> ratios s2 = ratios s1 ->
      generate_ratio_summary s2 =
      match o with inl df => Returns (df, s2) | inr e => Raises e end.
Proof.
  destruct (generate_ratio_summary s1) as [[df s]|e] eqn:H1.
  - exists (inl df). intros s2 Hy Hr. revert H1.
    cbv beta iota delta [generate_ratio_summary bind get_self subscript ret raise].
    rewrite Hy, Hr.
    repeat (match goal with
            | |- context [match lookup ?k ?d with _ => _ end] =>
                destruct (lookup k d); cbv beta iota; try discriminate
            end).
    now intros [= <- _].
  - exists (inr e). intros s2 Hy Hr. revert H1.
    cbv beta iota delta [generate_ratio_summary bind get_self subscript ret raise].
    rewrite Hr.
    repeat (match goal with
            | |- context [match lookup ?k ?d with _ => _ end] =>
                destruct (lookup k d); cbv beta iota; try discriminate
            end); now intros [= <-].
Qed.

Lemma benchmark_against_industry_pure (industry_benchmarks : list (string * float))
    (s1 : Analyzer) :
  exists o : DataFrame + exn,
    forall s2,
      col iYear (income s2) = col iYear (income s1) -> ratios s2 = ratios s1 ->
      benchmark_against_industry industry_benchmarks s2 =
      match o with inl df => Returns (df, s2) | inr e => Raises e end.
Proof.
  destruct (generate_ratio_summary_pure s1) as [[summary|e] Hsum].
  - unfold benchmark_against_industry.
    set (items := match industry_benchmarks with [] => default_benchmarks | _ => _ end).
    destruct (lookup "Year" (columns summary)) as [year|] eqn:Hyear.
    + destruct (for_each_benchmark_pure summary items (DataFrame_of [ ("Year", year) ]))
        as [o Ho].
      exists o. intros s2 Hy Hr. unfold bind at 1. rewrite (Hsum s2 Hy Hr).
      unfold bind, subscript. rewrite Hyear. cbv beta iota delta [ret]. apply Ho.
    + exists (inr (KeyError "Year")). intros s2 Hy Hr.
      unfold bind at 1. rewrite (Hsum s2 Hy Hr).
      unfold bind, subscript. rewrite Hyear. reflexivity.
  - exists (inr e). intros s2 Hy Hr. unfold benchmark_against_industry.
    unfold bind at 1. now rewrite (Hsum s2 Hy Hr).
Qed.

End Purity.

(** C8, as the code has it.  No operation changes the income statement or
    the balance sheet.  The five table computations always return, and
    their results depend only on the two tables; but each [calculate_*]
    also stores its table in [self.ratios].  [identify_ratio_trends] and
    [benchmark_against_industry] leave the instance as it was; the first
    reads only the stored tables, the second the years of the income
    statement, the stored tables and its mapping (and raises when a table
    it needs is not stored). *)
Theorem C8_frame_and_dependence :
  (stores_result "profitability" calculate_profitability_ratios /\
   stores_result "liquidity" calculate_liquidity_ratios /\
   stores_result "leverage" calculate_leverage_ratios /\
   (forall pad, stores_result "efficiency" (calculate_efficiency_ratios pad))) /\
  (preserves_tables calculate_profitability_ratios /\
   preserves_tables calculate_liquidity_ratios /\
   preserves_tables calculate_leverage_ratios /\
   (forall pad, preserves_tables (calculate_efficiency_ratios pad)) /\
   preserves_self analyze_dupont_model /\
   preserves_self identify_ratio_trends /\
   (forall industry_benchmarks,
      preserves_self (benchmark_against_industry industry_benchmarks))) /\
  (total calculate_profitability_ratios /\
   total calculate_liquidity_ratios /\
   total calculate_leverage_ratios /\
   (forall pad, total (calculate_efficiency_ratios pad)) /\
   total analyze_dupont_model /\
   total identify_ratio_trends) /\
  (reads_only_tables calculate_profitability_ratios /\
   reads_only_tables calculate_liquidity_ratios /\
   reads_only_tables calculate_leverage_ratios /\
   (forall pad, reads_only_tables (calculate_efficiency_ratios pad)) /\
   reads_only_tables analyze_dupont_model) /\
  reads_only_ratios identify_ratio_trends /\
  (forall industry_benchmarks s1 s2,
     col iYear (income s1) = col iYear (income s2) -> ratios s1 = ratios s2 ->
     result (benchmark_against_industry industry_benchmarks s1)
       = result (benchmark_against_industry industry_benchmarks s2)).
Proof.
  assert (Hp : stores_result "profitability" calculate_profitability_ratios).
  { intros self. destruct (calculate_profitability_ratios_stores self) as (df & H & _). eauto. }
  assert (Hq : stores_result "liquidity" calculate_liquidity_ratios).
  { intros self. destruct (calculate_liquidity_ratios_stores self) as (df & H & _). eauto. }
  assert (Hl : stores_result "leverage" calculate_leverage_ratios).
  { intros self. destruct (calculate_leverage_ratios_stores self) as (df & H & _). eauto. }
  assert (He : forall pad, stores_result "efficiency" (calculate_efficiency_ratios pad)).
  { intros pad self. destruct (calculate_efficiency_ratios_stores pad self) as (df & H & _). eauto. }
  assert (Hd : preserves_self analyze_dupont_model /\ total analyze_dupont_model).
  { split; intros self; destruct (analyze_dupont_model_returns self) as [df ->]; eauto. }
  assert (Ht : preserves_self identify_ratio_trends /\ total identify_ratio_trends).
  { split; intros self; rewrite identify_ratio_trends_returns; eauto. }
  split; [now split_all|].
  split.
  { split_all; try (now apply (stores_result_preserves_tables _ _ Hp));
      try (now apply (stores_result_preserves_tables _ _ Hq));
      try (now apply (stores_result_preserves_tables _ _ Hl));
      try (intros pad; now apply (stores_result_preserves_tables _ _ (He pad)));
      try (now apply Hd); try (now apply Ht).
    intros industry_benchmarks self.
    destruct (benchmark_against_industry_pure industry_benchmarks self) as [[df|e] H];
      now rewrite (H self). }
  split.
  { split_all; try (now apply (stores_result_preserves_tables _ _ Hp));
      try (now apply (stores_result_preserves_tables _ _ Hq));
      try (now apply (stores_result_preserves_tables _ _ Hl));
      try (intros pad; now apply (stores_result_preserves_tables _ _ (He pad)));
      try (now apply Hd); now apply Ht. }
  split.
  { split_all; auto using calculate_profitability_ratios_reads,
      calculate_liquidity_ratios_reads, calculate_leverage_ratios_reads,
      calculate_efficiency_ratios_reads, analyze_dupont_model_reads. }
  split; [exact identify_ratio_trends_reads|].
  intros industry_benchmarks s1 s2 Hy Hr.
  destruct (benchmark_against_industry_pure industry_benchmarks s1) as [o H].
  rewrite (H s1), (H s2) by (reflexivity || congruence).
  now destruct o.
Qed.

(** C8 as stated fails: an analyzer just built on the sample data and the
    one after the four calculations hold the same two tables, yet
    [identify_ratio_trends] returns empty lists on the first and not on
    the second, and [benchmark_against_industry] raises on the first and
    returns on the second; the results depend on [self.ratios], which the
    calculations wrote. *)
Lemma C8_counterexample :
  let fresh := FinancialRatioAnalyzer income_data balance_data in
  let ready := calculated true income_data balance_data in
  income fresh = income ready /\ balance fresh = balance ready /\
  ratios fresh = [] /\ keys (ratios ready)
    = [ "profitability"; "liquidity"; "leverage"; "efficiency" ] /\
  result (identify_ratio_trends fresh)
    = Some {| improving := []; declining := []; stable := [] |} /\
  result (identify_ratio_trends ready)
    = Some {| improving := [ "profitability.Net_Margin_%"; "profitability.ROA_%";
                             "profitability.ROE_%"; "leverage.Debt_to_Equity";
                             "leverage.Debt_to_Assets"; "leverage.Equity_Multiplier" ];
              declining := [ "profitability.Gross_Margin_%";
                             "profitability.EBIT_Margin_%";
                             "liquidity.Working_Capital"; "liquidity.WC_to_Revenue_%";
                             "leverage.Interest_Coverage";
                             "efficiency.Fixed_Asset_Turnover";
                             "efficiency.Asset_Turnover_Change_%" ];
              stable := [ "liquidity.Current_Ratio"; "efficiency.Asset_Turnover" ] |} /\
  benchmark_against_industry [] fresh = Raises (KeyError "profitability") /\
  (exists df, benchmark_against_industry [] ready = Returns (df, ready)) /\
  ~ reads_only_tables identify_ratio_trends.
Proof.
  intros fresh ready.
  assert (Hfresh : result (identify_ratio_trends fresh)
                   = Some {| improving := []; declining := []; stable := [] |})
    by reflexivity.
  assert (Hready : result (identify_ratio_trends ready)
    = Some {| improving := [ "profitability.Net_Margin_%"; "profitability.ROA_%";
                             "profitability.ROE_%"; "leverage.Debt_to_Equity";
                             "leverage.Debt_to_Assets"; "leverage.Equity_Multiplier" ];
              declining := [ "profitability.Gross_Margin_%";
                             "profitability.EBIT_Margin_%";
                             "liquidity.Working_Capital"; "liquidity.WC_to_Revenue_%";
                             "leverage.Interest_Coverage";
                             "efficiency.Fixed_Asset_Turnover";
                             "efficiency.Asset_Turnover_Change_%" ];
              stable := [ "liquidity.Current_Ratio"; "efficiency.Asset_Turnover" ] |})
    by (vm_compute; reflexivity).
  split; [reflexivity|]. split; [reflexivity|]. split; [reflexivity|].
  split; [vm_compute; reflexivity|].
  split; [exact Hfresh|]. split; [exact Hready|].
  split; [reflexivity|].
  split; [apply benchmark_default_returns|].
  intros H. specialize (H fresh ready eq_refl eq_refl).
  rewrite Hfresh, Hready in H. discriminate.
Qed.

(* ================================================================== *)
(** * Further properties of the analyzer *)

(** ** The liquidity, leverage and efficiency tables *)

Section OtherTables.

Variable self : Analyzer.
Variables (i : nat) (ir : IncomeRow) (br : BalanceRow).
Hypothesis Hir : nth_error (income self) i = Some ir.
Hypothesis Hbr : nth_error (balance self) i = Some br.

Lemma liquidity_cells :
  exists df self',
    calculate_liquidity_ratios self = Returns (df, self') /\
    holds df "Year" i (bYear br) /\
    holds df "Current_Ratio" i (Current_Assets br / Current_Liabilities br) /\
    holds df "Working_Capital" i (Current_Assets br - Current_Liabilities br) /\
    holds df "WC_to_Revenue_%" i
      ((Current_Assets br - Current_Liabilities br) / Revenue ir * 100).
Proof.
  unfold calculate_liquidity_ratios. run_method.
  do 2 eexists. split; [reflexivity|].
  set (d := [ ("Year", _); ("Current_Ratio", _); ("Working_Capital", _) ]).
  assert (Hyear : holds (DataFrame_of d) "Year" i (bYear br)).
  { eapply holds_DataFrame_of; [reflexivity | series_cell]. }
  pose proof (holds_lt _ _ _ _ Hyear) as Hn. cbn [nrows DataFrame_of] in Hn.
  split_all.
  - apply holds_setitem_other; [reflexivity | exact Hyear].
  - apply holds_setitem_other; [reflexivity|].
    eapply holds_DataFrame_of; [reflexivity | series_cell].
  - apply holds_setitem_other; [reflexivity|].
    eapply holds_DataFrame_of; [reflexivity | series_cell].
  - apply holds_setitem_same; [series_cell | exact (holds_lt _ _ _ _ Hyear)].
Qed.

Lemma leverage_cells :
  exists df self',
    calculate_leverage_ratios self = Returns (df, self') /\
    holds df "Year" i (bYear br) /\
    holds df "Debt_to_Equity" i (Long_Term_Debt br / Shareholders_Equity br) /\
    holds df "Debt_to_Assets" i (Long_Term_Debt br / Total_Assets br) /\
    holds df "Equity_Multiplier" i (Total_Assets br / Shareholders_Equity br) /\
    holds df "Interest_Coverage" i (EBIT ir / Interest_Expense ir).
Proof.
  unfold calculate_leverage_ratios. run_method.
  do 2 eexists. split; [reflexivity|].
  set (d := [ ("Year", _); ("Debt_to_Equity", _); ("Debt_to_Assets", _);
              ("Equity_Multiplier", _) ]).
  assert (Hyear : holds (DataFrame_of d) "Year" i (bYear br)).
  { eapply holds_DataFrame_of; [reflexivity | series_cell]. }
  split_all;
    try (apply holds_setitem_other; [reflexivity|];
         eapply holds_DataFrame_of; [reflexivity | series_cell]).
  apply holds_setitem_same; [series_cell | exact (holds_lt _ _ _ _ Hyear)].
Qed.

Lemma efficiency_turnover_cells (pad : bool) :
  exists df self',
    calculate_efficiency_ratios pad self = Returns (df, self') /\
    holds df "Year" i (iYear ir) /\
    holds df "Asset_Turnover" i (Revenue ir / Total_Assets br) /\
    holds df "Fixed_Asset_Turnover" i (Revenue ir / Fixed_Assets br).
Proof.
  unfold calculate_efficiency_ratios. run_method.
  do 2 eexists. split; [reflexivity|].
  split_all; apply holds_setitem_other; try reflexivity;
    (eapply holds_DataFrame_of; [reflexivity | series_cell]).
Qed.

End OtherTables.

(** X1.  For a year held in row [i] of both tables,
    [calculate_liquidity_ratios] returns a table whose row [i] has the
    year of the balance sheet, Current_Ratio = Current_Assets /
    Current_Liabilities, Working_Capital = Current_Assets -
    Current_Liabilities and WC_to_Revenue_% = Working_Capital / Revenue *
    100, in float64. *)
Theorem X1_liquidity_formulas (self : Analyzer) (i : nat)
    (ir : IncomeRow) (br : BalanceRow) :
  nth_error (income self) i = Some ir ->
  nth_error (balance self) i = Some br ->
  exists df self',
    calculate_liquidity_ratios self = Returns (df, self') /\
    cell df "Year" i = Some (bYear br) /\
    cell df "Current_Ratio" i
      = Some (Current_Assets br / Current_Liabilities br)%float /\
    cell df "Working_Capital" i
      = Some (Current_Assets br - Current_Liabilities br)%float /\
    cell df "WC_to_Revenue_%" i
      = Some ((Current_Assets br - Current_Liabilities br) / Revenue ir * 100)%float.
Proof.
  intros Hir Hbr.
  destruct (liquidity_cells self i ir br Hir Hbr) as (df & self' & Hrun & H).
  exists df, self'. split; [exact Hrun|].
  destruct H as (H1 & H2 & H3 & H4). split_all; now apply holds_cell.
Qed.

(** Witness of X1: the year 2015 of the sample data, whose current ratio is
    450 / 380. *)
Lemma X1_liquidity_formulas_witness :
  exists df self',
    calculate_liquidity_ratios (FinancialRatioAnalyzer income_data balance_data)
      = Returns (df, self') /\
    cell df "Year" 0 = Some 2015%float /\
    cell df "Current_Ratio" 0 = Some (450.0 / 380.0)%float /\
    cell df "Working_Capital" 0 = Some (450.0 - 380.0)%float /\
    cell df "WC_to_Revenue_%" 0 = Some ((450.0 - 380.0) / 784.9 * 100)%float.
Proof.
  apply (X1_liquidity_formulas
           (FinancialRatioAnalyzer income_data balance_data) 0
           (mkIncomeRow 2015 784.9 324.7 460.2 435.5 24.7 15.5 2.5)
           (mkBalanceRow 2015 1250.0 450.0 800.0 950.0 380.0 570.0 300.0));
    reflexivity.
Defined.

(** X2.  For a year held in row [i] of both tables,
    [calculate_leverage_ratios] returns a table whose row [i] has the year
    of the balance sheet, Debt_to_Equity = Long_Term_Debt /
    Shareholders_Equity, Debt_to_Assets = Long_Term_Debt / Total_Assets,
    Equity_Multiplier = Total_Assets / Shareholders_Equity and
    Interest_Coverage = EBIT / Interest_Expense, in float64. *)
Theorem X2_leverage_formulas (self : Analyzer) (i : nat)
    (ir : IncomeRow) (br : BalanceRow) :
  nth_error (income self) i = Some ir ->
  nth_error (balance self) i = Some br ->
  exists df self',
    calculate_leverage_ratios self = Returns (df, self') /\
    cell df "Year" i = Some (bYear br) /\
    cell df "Debt_to_Equity" i
      = Some (Long_Term_Debt br / Shareholders_Equity br)%float /\
    cell df "Debt_to_Assets" i = Some (Long_Term_Debt br / Total_Assets br)%float /\
    cell df "Equity_Multiplier" i
      = Some (Total_Assets br / Shareholders_Equity br)%float /\
    cell df "Interest_Coverage" i = Some (EBIT ir / Interest_Expense ir)%float.
Proof.
  intros Hir Hbr.
  destruct (leverage_cells self i ir br Hir Hbr) as (df & self' & Hrun & H).
  exists df, self'. split; [exact Hrun|].
  destruct H as (H1 & H2 & H3 & H4 & H5). split_all; now apply holds_cell.
Qed.

(** Witness of X2: the year 2018 of the sample data. *)
Lemma X2_leverage_formulas_witness :
  exists df self',
    calculate_leverage_ratios (FinancialRatioAnalyzer income_data balance_data)
      = Returns (df, self') /\
    cell df "Year" 3 = Some 2018%float /\
    cell df "Debt_to_Equity" 3 = Some (530.0 / 160.0)%float /\
    cell df "Debt_to_Assets" 3 = Some (530.0 / 980.0)%float /\
    cell df "Equity_Multiplier" 3 = Some (980.0 / 160.0)%float /\
    cell df "Interest_Coverage" 3 = Some (-0.4 / 19.8)%float.
Proof.
  apply (X2_leverage_formulas
           (FinancialRatioAnalyzer income_data balance_data) 3
           (mkIncomeRow 2018 573.1 348.9 224.2 451.3 (-0.4) 19.8 2.2)
           (mkBalanceRow 2018 980.0 320.0 660.0 820.0 290.0 530.0 160.0));
    reflexivity.
Defined.

(** X3.  For a year held in row [i] of both tables,
    [calculate_efficiency_ratios] returns a table whose row [i] has the
    year of the income statement, Asset_Turnover = Revenue / Total_Assets
    and Fixed_Asset_Turnover = Revenue / Fixed_Assets, in float64. *)
Theorem X3_efficiency_formulas (pad : bool) (self : Analyzer) (i : nat)
    (ir : IncomeRow) (br : BalanceRow) :
  nth_error (income self) i = Some ir ->
  nth_error (balance self) i = Some br ->
  exists df self',
    calculate_efficiency_ratios pad self = Returns (df, self') /\
    cell df "Year" i = Some (iYear ir) /\
    cell df "Asset_Turnover" i = Some (Revenue ir / Total_Assets br)%float /\
    cell df "Fixed_Asset_Turnover" i = Some (Revenue ir / Fixed_Assets br)%float.
Proof.
  intros Hir Hbr.
  destruct (efficiency_turnover_cells self i ir br Hir Hbr pad) as (df & self' & Hrun & H).
  exists df, self'. split; [exact Hrun|].
  destruct H as (H1 & H2 & H3). split_all; now apply holds_cell.
Qed.

(** Witness of X3: the year 2016 of the sample data. *)
Lemma X3_efficiency_formulas_witness :
  exists df self',
    calculate_efficiency_ratios true (FinancialRatioAnalyzer income_data balance_data)
      = Returns (df, self') /\
    cell df "Year" 1 = Some 2016%float /\
    cell df "Asset_Turnover" 1 = Some (826.6 / 1320.0)%float /\
    cell df "Fixed_Asset_Turnover" 1 = Some (826.6 / 840.0)%float.
Proof.
  apply (X3_efficiency_formulas true
           (FinancialRatioAnalyzer income_data balance_data) 1
           (mkIncomeRow 2016 826.6 342.4 484.2 465.2 19.0 18.5 18.4)
           (mkBalanceRow 2016 1320.0 480.0 840.0 1020.0 410.0 610.0 300.0));
    reflexivity.
Defined.

(** ** The summary table *)

(** X4.  [generate_ratio_summary] needs the four ratio tables: when one of
    the categories is not in [self.ratios] it raises a [KeyError] (of
    'profitability' when that one is missing), and then
    [benchmark_against_industry] raises the same error whatever its
    mapping. *)
Theorem X4_summary_needs_all_tables (self : Analyzer) :
  lookup "profitability" (ratios self) = None \/
  lookup "liquidity" (ratios self) = None \/
  lookup "leverage" (ratios self) = None \/
  lookup "efficiency" (ratios self) = None ->
  exists key,
    generate_ratio_summary self = Raises (KeyError key) /\
    (lookup "profitability" (ratios self) = None -> key = "profitability") /\
    forall industry_benchmarks,
      benchmark_against_industry industry_benchmarks self = Raises (KeyError key).
Proof.
  intros Hmissing.
  assert (H : exists key,
             generate_ratio_summary self = Raises (KeyError key) /\
             (lookup "profitability" (ratios self) = None -> key = "profitability")).
  { revert Hmissing.
    cbv beta iota delta [generate_ratio_summary bind get_self subscript ret raise].
    repeat (match goal with
            | |- context [match lookup ?k ?d with _ => _ end] =>
                destruct (lookup k d); cbv beta iota
            end);
      intros Hmissing;
      try (eexists; split; [reflexivity | intros; first [reflexivity | discriminate]]).
    intuition discriminate. }
  destruct H as (key & Hrun & Hkey). exists key.
  split; [exact Hrun|]. split; [exact Hkey|].
  intros industry_benchmarks. unfold benchmark_against_industry.
  unfold bind at 1. now rewrite Hrun.
Qed.

(** Witness of X4: an analyzer just built, with nothing calculated. *)
Lemma X4_summary_needs_all_tables_witness :
  exists key,
    generate_ratio_summary (FinancialRatioAnalyzer income_data balance_data)
      = Raises (KeyError key) /\
    (lookup "profitability" (ratios (FinancialRatioAnalyzer income_data balance_data))
       = None -> key = "profitability") /\
    forall industry_benchmarks,
      benchmark_against_industry industry_benchmarks
          (FinancialRatioAnalyzer income_data balance_data)
        = Raises (KeyError key).
Proof.
  apply (X4_summary_needs_all_tables (FinancialRatioAnalyzer income_data balance_data)).
  left. reflexivity.
Defined.

(** The summary table copies the cells of the six stored columns it reads,
    and the years of the income statement. *)
Lemma summary_copies (self self' : Analyzer) (summary : DataFrame) :
  generate_ratio_summary self = Returns (summary, self') ->
  (forall i ir, nth_error (income self) i = Some ir ->
                cell summary "Year" i = Some (iYear ir)) /\
  (forall category name df i x,
     In (category, name)
        [ ("profitability", "Gross_Margin_%"); ("profitability", "EBIT_Margin_%");
          ("profitability", "ROE_%"); ("liquidity", "Current_Ratio");
          ("leverage", "Debt_to_Equity"); ("efficiency", "Asset_Turnover") ] ->
     lookup category (ratios self) = Some df ->
     cell df name i = Some x ->
     cell summary name i = Some x).
Proof.
  cbv beta iota delta [generate_ratio_summary bind get_self subscript ret raise].
  destruct (lookup "profitability" (ratios self)) as [p|] eqn:Hp; [|discriminate].
  cbv beta iota.
  destruct (lookup "Gross_Margin_%" (columns p)) as [c1|] eqn:H1; [|discriminate].
  destruct (lookup "EBIT_Margin_%" (columns p)) as [c2|] eqn:H2; [|discriminate].
  destruct (lookup "ROE_%" (columns p)) as [c3|] eqn:H3; [|discriminate].
  cbv beta iota.
  destruct (lookup "liquidity" (ratios self)) as [q|] eqn:Hq; [|discriminate].
  cbv beta iota.
  destruct (lookup "Current_Ratio" (columns q)) as [c4|] eqn:H4; [|discriminate].
  cbv beta iota.
  destruct (lookup "leverage" (ratios self)) as [l|] eqn:Hl; [|discriminate].
  cbv beta iota.
  destruct (lookup "Debt_to_Equity" (columns l)) as [c5|] eqn:H5; [|discriminate].
  cbv beta iota.
  destruct (lookup "efficiency" (ratios self)) as [e|] eqn:He; [|discriminate].
  cbv beta iota.
  destruct (lookup "Asset_Turnover" (columns e)) as [c6|] eqn:H6; [|discriminate].
  cbv beta iota.
  intros [= <- _]. split.
  - intros i ir Hir. apply holds_cell.
    eapply holds_DataFrame_of; [reflexivity | series_cell].
  - intros category name df i x Hin Hdf Hcell.
    unfold cell, getitem in Hcell.
    cbn [In] in Hin.
    repeat (destruct Hin as [[= <- <-]|Hin]);
      try contradiction;
      match goal with
      | Hd : lookup ?c (ratios self) = Some df, Hs : lookup ?c (ratios self) = Some ?f |- _ =>
          rewrite Hd in Hs; injection Hs as <-
      end;
      match goal with
      | Hc : lookup ?n (columns df) = Some ?c |- _ =>
          rewrite Hc in Hcell; destruct c as [v|v]; [|discriminate]
      end;
      (apply holds_cell; eapply holds_DataFrame_of; [reflexivity | exact Hcell]).
Qed.

(** X5.  After the four calculations, on any two tables,
    [generate_ratio_summary] returns a table that has, for a year held in
    row [i] of both tables, the year and the six key ratios of that year:
    Gross_Margin_%, EBIT_Margin_%, ROE_%, Current_Ratio, Debt_to_Equity and
    Asset_Turnover, each the float64 value of its formula. *)
Theorem X5_summary_of_run (pad : bool) (income_df : IncomeStatement)
    (balance_df : BalanceSheet) (i : nat) (ir : IncomeRow) (br : BalanceRow) :
  nth_error income_df i = Some ir ->
  nth_error balance_df i = Some br ->
  exists summary,
    generate_ratio_summary (calculated pad income_df balance_df)
      = Returns (summary, calculated pad income_df balance_df) /\
    cell summary "Year" i = Some (iYear ir) /\
    cell summary "Gross_Margin_%" i = Some (Gross_Profit ir / Revenue ir * 100)%float /\
    cell summary "EBIT_Margin_%" i = Some (EBIT ir / Revenue ir * 100)%float /\
    cell summary "ROE_%" i
      = Some (Net_Income ir / Shareholders_Equity br * 100)%float /\
    cell summary "Current_Ratio" i
      = Some (Current_Assets br / Current_Liabilities br)%float /\
    cell summary "Debt_to_Equity" i
      = Some (Long_Term_Debt br / Shareholders_Equity br)%float /\
    cell summary "Asset_Turnover" i = Some (Revenue ir / Total_Assets br)%float.
Proof.
  intros Hir Hbr.
  destruct (four_calculations pad income_df balance_df)
    as (p & q & l & e & Hp & Hq & Hl & He & Hcalc & _).
  cbv beta in Hp, Hq, Hl, He, Hcalc.
  destruct (calculated_summary pad income_df balance_df)
    as (v1 & v2 & v3 & v4 & v5 & v6 & Hsum).
  eexists. split; [exact Hsum|].
  destruct (summary_copies _ _ _ Hsum) as [Hyear Hcopy].
  rewrite Hcalc in Hyear, Hcopy. cbn [income ratios] in Hyear, Hcopy.
  destruct (profitability_income_cells (FinancialRatioAnalyzer income_df balance_df)
              i ir Hir) as (p1 & s1 & Hr1 & _ & Hgm & Hem & _).
  destruct (profitability_balance_cells (FinancialRatioAnalyzer income_df balance_df)
              i ir Hir br Hbr) as (p2 & s2 & Hr2 & _ & Hroe).
  assert (p1 = p) by congruence. assert (p2 = p) by congruence. subst p1 p2.
  match type of Hq with calculate_liquidity_ratios ?s = _ =>
    destruct (liquidity_cells s i ir br Hir Hbr) as (q1 & s3 & Hr3 & _ & Hcr & _) end.
  assert (q1 = q) by congruence. subst q1.
  match type of Hl with calculate_leverage_ratios ?s = _ =>
    destruct (leverage_cells s i ir br Hir Hbr) as (l1 & s4 & Hr4 & _ & Hde & _) end.
  assert (l1 = l) by congruence. subst l1.
  match type of He with calculate_efficiency_ratios _ ?s = _ =>
    destruct (efficiency_turnover_cells s i ir br Hir Hbr pad)
      as (e1 & s5 & Hr5 & _ & Hat & _) end.
  assert (e1 = e) by congruence. subst e1.
  split; [now apply Hyear|].
  split_all.
  - apply (Hcopy "profitability" _ p); [cbn; tauto | reflexivity | now apply holds_cell].
  - apply (Hcopy "profitability" _ p); [cbn; tauto | reflexivity | now apply holds_cell].
  - apply (Hcopy "profitability" _ p); [cbn; tauto | reflexivity | now apply holds_cell].
  - apply (Hcopy "liquidity" _ q); [cbn; tauto | reflexivity | now apply holds_cell].
  - apply (Hcopy "leverage" _ l); [cbn; tauto | reflexivity | now apply holds_cell].
  - apply (Hcopy "efficiency" _ e); [cbn; tauto | reflexivity | now apply holds_cell].
Qed.

(** Witness of X5: the year 2018 of the sample data. *)
Lemma X5_summary_of_run_witness :
  exists summary,
    generate_ratio_summary (calculated true income_data balance_data)
      = Returns (summary, calculated true income_data balance_data) /\
    cell summary "Year" 3 = Some 2018%float /\
    cell summary "Gross_Margin_%" 3 = Some (224.2 / 573.1 * 100)%float /\
    cell summary "EBIT_Margin_%" 3 = Some (-0.4 / 573.1 * 100)%float /\
    cell summary "ROE_%" 3 = Some (2.2 / 160.0 * 100)%float /\
    cell summary "Current_Ratio" 3 = Some (320.0 / 290.0)%float /\
    cell summary "Debt_to_Equity" 3 = Some (530.0 / 160.0)%float /\
    cell summary "Asset_Turnover" 3 = Some (573.1 / 980.0)%float.
Proof.
  apply (X5_summary_of_run true income_data balance_data 3
           (mkIncomeRow 2018 573.1 348.9 224.2 451.3 (-0.4) 19.8 2.2)
           (mkBalanceRow 2018 980.0 320.0 660.0 820.0 290.0 530.0 160.0));
    reflexivity.
Defined.

(** ** Storing and recomputing *)

Lemma assign_assign {V : Type} (k : string) (v v' : V) (d : list (string * V)) :
  assign k v (assign k v' d) = assign k v d.
Proof.
  induction d as [|[k0 v0] d IH]; cbn.
  - now rewrite String.eqb_refl.
  - destruct (String.eqb k0 k) eqn:E; cbn.
    + apply String.eqb_eq in E; subst k0. now rewrite String.eqb_refl.
    + now rewrite E, IH.
Qed.

Lemma keys_assign {V : Type} (k : string) (v : V) (d : list (string * V)) :
  keys (assign k v d) = if has_key k d then keys d else keys d ++ [k].
Proof.
  unfold has_key, keys. induction d as [|[k0 v0] d IH]; cbn; [reflexivity|].
  destruct (String.eqb k0 k) eqn:E; cbn.
  - apply String.eqb_eq in E. now subst k0.
  - rewrite IH. now destruct (lookup k d).
Qed.

Lemma stores_result_recomputes (category : string) (m : M DataFrame) :
  stores_result category m -> reads_only_tables m -> recomputes category m.
Proof.
  intros Hstore Hreads self.
  destruct (Hstore self) as [df Hrun].
  set (self' := {| income := income self; balance := balance self;
                   ratios := assign category df (ratios self) |}) in *.
  exists df, self'. split; [exact Hrun|].
  split; [apply lookup_assign_same|].
  split; [intros other Hother; now apply lookup_assign_other|].
  split; [apply keys_assign|].
  destruct (Hstore self') as [df' Hrun'].
  assert (Hsame : df' = df).
  { pose proof (Hreads self' self eq_refl eq_refl) as H.
    rewrite Hrun, Hrun' in H. cbn in H. congruence. }
  subst df'. rewrite Hrun'. subst self'. cbn [income balance ratios].
  now rewrite assign_assign.
Qed.

(** X6.  Each [calculate_*] keeps its table under its own category of
    [self.ratios]: after a call the table returned is the one stored there
    and the other categories are untouched; a category already present
    keeps its place in the dict and a new one goes last; and calling again
    returns the same table and changes nothing. *)
Theorem X6_calculations_recompute :
  recomputes "profitability" calculate_profitability_ratios /\
  recomputes "liquidity" calculate_liquidity_ratios /\
  recomputes "leverage" calculate_leverage_ratios /\
  (forall pad, recomputes "efficiency" (calculate_efficiency_ratios pad)).
Proof.
  split_all; [| | |intros pad]; apply stores_result_recomputes;
    auto using calculate_profitability_ratios_reads,
      calculate_liquidity_ratios_reads, calculate_leverage_ratios_reads,
      calculate_efficiency_ratios_reads;
    intros self.
  - destruct (calculate_profitability_ratios_stores self) as (df & H & _). eauto.
  - destruct (calculate_liquidity_ratios_stores self) as (df & H & _). eauto.
  - destruct (calculate_leverage_ratios_stores self) as (df & H & _). eauto.
  - destruct (calculate_efficiency_ratios_stores pad self) as (df & H & _). eauto.
Qed.

(** ** One row per year *)

Lemma nrows_setitem_eq (df : DataFrame) (name : string) (value : Column) (n : nat) :
  column_length value = n -> nrows df = n -> nrows (setitem df name value) = n.
Proof.
  intros Hv Hdf. rewrite nrows_setitem_same_length; congruence.
Qed.

(** Computes the number of rows of a frame built from the two tables. *)
Ltac count_rows :=
  repeat apply nrows_setitem_eq;
  repeat (cbn [column_length nrows DataFrame_of max_length fold_right snd];
          rewrite ?length_scalar, ?length_binop, ?length_pct_change,
            ?length_reindex, ?length_col);
  lia.

(** X7.  When the two tables have the same number of years, each of the
    five table computations returns a table with exactly one row per
    year. *)
Theorem X7_one_row_per_year (pad : bool) (self : Analyzer) :
  length (income self) = length (balance self) ->
  (exists df self', calculate_profitability_ratios self = Returns (df, self') /\
                    nrows df = length (income self)) /\
  (exists df self', calculate_liquidity_ratios self = Returns (df, self') /\
                    nrows df = length (income self)) /\
  (exists df self', calculate_leverage_ratios self = Returns (df, self') /\
                    nrows df = length (income self)) /\
  (exists df self', calculate_efficiency_ratios pad self = Returns (df, self') /\
                    nrows df = length (income self)) /\
  (exists df self', analyze_dupont_model self = Returns (df, self') /\
                    nrows df = length (income self)).
Proof.
  intros Hlen. split_all.
  - unfold calculate_profitability_ratios. run_method.
    do 2 eexists. split; [reflexivity | count_rows].
  - unfold calculate_liquidity_ratios. run_method.
    do 2 eexists. split; [reflexivity | count_rows].
  - unfold calculate_leverage_ratios. run_method.
    do 2 eexists. split; [reflexivity | count_rows].
  - unfold calculate_efficiency_ratios. run_method.
    do 2 eexists. split; [reflexivity | count_rows].
  - unfold analyze_dupont_model. run_method.
    do 2 eexists. split; [reflexivity | count_rows].
Qed.

(** Witness of X7: the four years of the sample data. *)
Lemma X7_one_row_per_year_witness :
  let self := FinancialRatioAnalyzer income_data balance_data in
  (exists df self', calculate_profitability_ratios self = Returns (df, self') /\
                    nrows df = length (income self)) /\
  (exists df self', calculate_liquidity_ratios self = Returns (df, self') /\
                    nrows df = length (income self)) /\
  (exists df self', calculate_leverage_ratios self = Returns (df, self') /\
                    nrows df = length (income self)) /\
  (exists df self', calculate_efficiency_ratios true self = Returns (df, self') /\
                    nrows df = length (income self)) /\
  (exists df self', analyze_dupont_model self = Returns (df, self') /\
                    nrows df = length (income self)).
Proof.
  apply (X7_one_row_per_year true (FinancialRatioAnalyzer income_data balance_data)).
  reflexivity.
Defined.

(** ** More on the trend lists *)

Lemma length_select_all (l : list (string * Trend)) :
  length (select Improving l) + length (select Declining l)
    + length (select Stable l) = length l.
Proof.
  unfold select. rewrite !length_map.
  induction l as [|[label t] l IH]; [reflexivity|].
  destruct t; cbn; lia.
Qed.

Lemma length_table_verdicts (entry : string * DataFrame) :
  length (table_verdicts entry) =
  length (filter (fun name =>
                    match getitem (snd entry) name with
                    | Some c => eligible name c
                    | None => false
                    end)
                 (keys (columns (snd entry)))).
Proof.
  unfold table_verdicts.
  induction (keys (columns (snd entry))) as [|name names IH]; [reflexivity|].
  cbn [flat_map filter]. rewrite length_app, IH. unfold verdict.
  destruct (getitem (snd entry) name) as [c|]; [|reflexivity].
  destruct (eligible name c) eqn:He; [|reflexivity].
  destruct c; [reflexivity|].
  unfold eligible in He. rewrite andb_false_r in He. discriminate.
Qed.

Lemma length_verdicts (store : list (string * DataFrame)) :
  length (verdicts store) = count_eligible store.
Proof.
  unfold verdicts, count_eligible.
  induction store as [|entry store IH]; [reflexivity|].
  cbn [flat_map map list_sum]. now rewrite length_app, IH, length_table_verdicts.
Qed.

(** X8.  [identify_ratio_trends] lists every eligible stored column once:
    the three lists together have as many entries as there are stored
    columns other than Year that are numeric with more than one value
    present.  On an analyzer with nothing stored the three lists are
    empty. *)
Theorem X8_trends_count (self : Analyzer) :
  exists trends,
    identify_ratio_trends self = Returns (trends, self) /\
    length (improving trends) + length (declining trends) + length (stable trends)
      = count_eligible (ratios self) /\
    (ratios self = [] ->
     trends = {| improving := []; declining := []; stable := [] |}).
Proof.
  rewrite identify_ratio_trends_returns. eexists. split; [reflexivity|].
  cbn [improving declining stable]. split.
  - now rewrite length_select_all, length_verdicts.
  - now intros ->.
Qed.

(** A value against itself: the relative change is zero or NaN, and so
    neither above nor below the band. *)
Lemma no_change_in_band (x : float) :
  gt ((x - x) / PrimFloat.abs x) 0.1 = false /\
  lt ((x - x) / PrimFloat.abs x) (-0.1) = false.
Proof.
  unfold gt, lt. rewrite !FloatAxioms.ltb_spec, !div_spec, !sub_spec, !abs_spec.
  change (Prim2SF (-0.1)) with (S754_finite true 7205759403792794 (-56)).
  change (Prim2SF 0.1) with (S754_finite false 7205759403792794 (-56)).
  destruct (Prim2SF x) as [s|s| |s m e].
  - destruct s; split; reflexivity.
  - destruct s; split; reflexivity.
  - split; reflexivity.
  - unfold SF64sub, SFsub.
    match goal with
    | |- context [IntDef.Z.sub ?a ?a] =>
        replace (IntDef.Z.sub a a) with Z0 by (symmetry; apply Z.sub_diag)
    end.
    split; reflexivity.
Qed.

Lemma relative_change_level (values : Series) :
  PrimFloat.eqb (iloc_first values) 0 = true \/ iloc_last values = iloc_first values ->
  classify values = Stable.
Proof.
  intros H. apply classify_stable; unfold relative_change, ne.
  - destruct (PrimFloat.eqb (iloc_first values) 0) eqn:E; [reflexivity|].
    destruct H as [H|H]; [discriminate|]. rewrite H. apply no_change_in_band.
  - destruct (PrimFloat.eqb (iloc_first values) 0) eqn:E; [reflexivity|].
    destruct H as [H|H]; [discriminate|]. rewrite H. apply no_change_in_band.
Qed.

(** X9.  A stored series whose first value present is zero, or whose last
    value present equals the first, is listed as stable, whatever lies in
    between or after; with the labels of the stored columns all different
    it is in neither of the other two lists. *)
Theorem X9_level_series_stable (self : Analyzer) (category name : string)
    (df : DataFrame) (s : Series) :
  In (category, df) (ratios self) ->
  In name (keys (columns df)) ->
  getitem df name = Some (Numeric s) ->
  name <> "Year" ->
  1 < length (dropna s) ->
  PrimFloat.eqb (iloc_first (dropna s)) 0 = true \/
    iloc_last (dropna s) = iloc_first (dropna s) ->
  exists trends,
    identify_ratio_trends self = Returns (trends, self) /\
    In (trend_label category name) (stable trends) /\
    (distinct (stored_labels (ratios self)) = true ->
     ~ In (trend_label category name) (improving trends) /\
     ~ In (trend_label category name) (declining trends)).
Proof.
  intros Hs Hn Hget Hyear Hlen Hlevel.
  rewrite identify_ratio_trends_returns. eexists. split; [reflexivity|].
  cbn [improving declining stable].
  assert (Hv : verdict df name = Some Stable).
  { unfold verdict, eligible. rewrite Hget.
    apply String.eqb_neq in Hyear. rewrite Hyear.
    apply Nat.ltb_lt in Hlen. rewrite Hlen. cbn [negb andb].
    now rewrite relative_change_level. }
  split.
  - apply In_select. now apply verdict_listed with df.
  - intros Hd. apply distinct_NoDup in Hd.
    split; intros H; apply (listed_iff _ category name df _ Hd Hs Hn) in H;
      rewrite Hv in H; discriminate.
Qed.

(** Witness of X9: the series of the stored example that starts at zero. *)
Lemma X9_level_series_stable_witness :
  exists trends,
    identify_ratio_trends level_analyzer = Returns (trends, level_analyzer) /\
    In (trend_label "level" "from_zero") (stable trends) /\
    (distinct (stored_labels (ratios level_analyzer)) = true ->
     ~ In (trend_label "level" "from_zero") (improving trends) /\
     ~ In (trend_label "level" "from_zero") (declining trends)).
Proof.
  apply (X9_level_series_stable level_analyzer "level" "from_zero" level_frame
           [0; 40; 250]%float).
  - left; reflexivity.
  - cbn. right; left; reflexivity.
  - reflexivity.
  - discriminate.
  - cbn. lia.
  - left; reflexivity.
Defined.

(** ** The shape of the benchmark table *)

Lemma length_string_append (a b : string) :
  String.length (a ++ b) = String.length a + String.length b.
Proof. induction a as [|ch a IH]; cbn; [reflexivity | now rewrite IH]. Qed.

(** A name with one of the two suffixes is not the name of the year. *)
Lemma eqb_suffix_Year (metric suffix : string) :
  4 < String.length suffix -> String.eqb (metric ++ suffix) "Year" = false.
Proof.
  intros Hlen. apply String.eqb_neq. intros H.
  apply (f_equal String.length) in H. rewrite length_string_append in H.
  cbn [String.length] in H. lia.
Qed.

Section BenchmarkShape.

Variable summary : DataFrame.
Hypothesis summary_numeric :
  forall name c, getitem summary name = Some c -> is_numeric c = true.

Lemma keys_benchmark_columns (items : list (string * float))
    (cols : list (string * Column)) :
  NoDup (keys items) ->
  (forall metric, In metric (keys items) ->
     lookup (metric ++ "_vs_Industry") cols = None /\
     lookup (metric ++ "_Performance") cols = None) ->
  keys (benchmark_columns summary items cols) =
  keys cols ++ flat_map (written_columns summary) (keys items).
Proof.
  revert cols; induction items as [|[metric benchmark] items IH]; intros cols Hnd Hfresh.
  - cbn. now rewrite app_nil_r.
  - cbn [keys map fst] in Hnd. inversion Hnd as [|? ? Hm Hnd']; subst.
    rewrite benchmark_columns_cons.
    destruct (Hfresh metric) as [Hvs Hperf]; [now left|].
    assert (Hrest : forall m, In m (keys items) -> String.eqb metric m = false).
    { intros m Hin. apply String.eqb_neq. intros ->. contradiction. }
    cbn [keys map fst flat_map]. fold (keys items).
    unfold benchmark_columns at 2; cbn [fold_left fst snd].
    unfold written_columns at 1, has_key. unfold getitem.
    destruct (lookup metric (columns summary)) as [c|] eqn:Hc.
    + pose proof (summary_numeric metric c Hc) as Hnum.
      destruct c as [actual|l]; [clear Hnum | discriminate].
      rewrite IH; [| exact Hnd' |].
      * rewrite !keys_assign. unfold has_key.
        rewrite lookup_assign_other by apply eqb_vs_Performance.
        rewrite Hvs, Hperf. now rewrite <- !app_assoc.
      * intros m Hin. destruct (Hfresh m) as [Hvs' Hperf']; [now right|].
        pose proof (Hrest m Hin) as Hne.
        split; rewrite !lookup_assign_other;
          auto using eqb_append_suffix, eqb_vs_Performance, eqb_Performance_vs.
    + rewrite IH; [reflexivity | exact Hnd' |].
      intros m Hin. apply Hfresh. now right.
Qed.

End BenchmarkShape.

(** X10.  The table of [benchmark_against_industry] has the rows and the
    years of the summary and, after Year, exactly two columns for each
    metric of the mapping that is a column of the summary, in the order of
    the mapping: [metric_vs_Industry], then [metric_Performance].  A metric
    that the summary does not have is passed over in silence.  The mapping
    is the one given, or the defaults when it is empty. *)
Theorem X10_benchmark_table_shape (self : Analyzer) (summary : DataFrame)
    (industry_benchmarks : list (string * float)) :
  generate_ratio_summary self = Returns (summary, self) ->
  all_numeric summary = true ->
  distinct (keys industry_benchmarks) = true ->
  exists df,
    benchmark_against_industry industry_benchmarks self = Returns (df, self) /\
    nrows df = nrows summary /\
    getitem df "Year" = getitem summary "Year" /\
    keys (columns df) =
      "Year" :: flat_map (written_columns summary)
                  (keys (effective_benchmarks industry_benchmarks)) /\
    ((forall metric, In metric (keys (effective_benchmarks industry_benchmarks)) ->
        has_key metric (columns summary) = false) ->
     keys (columns df) = ["Year"]).
Proof.
  intros Hsum Hnum Hd.
  assert (Hd' : distinct (keys (effective_benchmarks industry_benchmarks)) = true).
  { destruct industry_benchmarks; [reflexivity | exact Hd]. }
  assert (Hrun : exists year,
            getitem summary "Year" = Some (Numeric year) /\
            benchmark_against_industry industry_benchmarks self =
              Returns ({| nrows := nrows summary;
                          columns := benchmark_columns summary
                                       (effective_benchmarks industry_benchmarks)
                                       [ ("Year", Numeric year) ] |}, self)).
  { destruct industry_benchmarks as [|item items].
    - apply (benchmark_against_industry_returns self summary default_benchmarks Hsum Hnum).
      discriminate.
    - apply (benchmark_against_industry_returns self summary (item :: items) Hsum Hnum).
      discriminate. }
  destruct Hrun as (year & Hyear & Hrun).
  generalize dependent (effective_benchmarks industry_benchmarks).
  intros items Hd' Hrun. apply distinct_NoDup in Hd'.
  eexists. split; [exact Hrun|]. cbn [nrows columns].
  split; [reflexivity|].
  assert (Hkeys : keys (benchmark_columns summary items [ ("Year", Numeric year) ]) =
                  "Year" :: flat_map (written_columns summary) (keys items)).
  { rewrite keys_benchmark_columns; [reflexivity | | exact Hd' |].
    - intros name c. now apply all_numeric_getitem.
    - intros metric _. cbn [lookup].
      rewrite !(String.eqb_sym "Year"), !eqb_suffix_Year by (cbn; lia). now split. }
  split; [|split; [exact Hkeys|]].
  - rewrite Hyear. unfold getitem at 1; cbn [columns].
    rewrite benchmark_columns_other; [cbn; reflexivity|].
    intros metric _. split; apply eqb_suffix_Year; cbn; lia.
  - rewrite Hkeys. generalize (keys items) as metrics.
    induction metrics as [|m ms IH]; intros Hnone; [reflexivity|].
    cbn [flat_map]. unfold written_columns at 1. rewrite (Hnone m) by now left.
    cbn [app]. apply IH. intros m' Hin. apply Hnone. now right.
Qed.

(** Witness of X10: the sample data against a return on equity of 12 and
    an inventory turnover that the summary does not have. *)
Lemma X10_benchmark_table_shape_witness :
  let self := calculated true income_data balance_data in
  let industry_benchmarks := [ ("ROE_%", 12.0%float); ("Inventory_Turnover", 6.0%float) ] in
  exists df,
    benchmark_against_industry industry_benchmarks self = Returns (df, self) /\
    nrows df = nrows (summary_of self) /\
    getitem df "Year" = getitem (summary_of self) "Year" /\
    keys (columns df) =
      "Year" :: flat_map (written_columns (summary_of self))
                  (keys (effective_benchmarks industry_benchmarks)) /\
    ((forall metric, In metric (keys (effective_benchmarks industry_benchmarks)) ->
        has_key metric (columns (summary_of self)) = false) ->
     keys (columns df) = ["Year"]).
Proof.
  apply (X10_benchmark_table_shape
           (calculated true income_data balance_data)
           (summary_of (calculated true income_data balance_data))
           [ ("ROE_%", 12.0%float); ("Inventory_Turnover", 6.0%float) ]).
  - vm_compute. reflexivity.
  - vm_compute. reflexivity.
  - reflexivity.
Defined.

(** ** The order of the calculations *)

Lemma Calculation_eqb_eq (a b : Calculation) : Calculation_eqb a b = true <-> a = b.
Proof. destruct a, b; cbn; split; congruence. Qed.

Lemma Calculation_eq_dec (a b : Calculation) : {a = b} + {a <> b}.
Proof. decide equality. Qed.

Lemma category_inj (a b : Calculation) :
  a <> b -> String.eqb (category a) (category b) = false.
Proof. destruct a, b; cbn; congruence. Qed.

Lemma calls_all_In (calls : list Calculation) :
  calls_all calls = true -> forall c, In c calls.
Proof.
  unfold calls_all. rewrite forallb_forall. intros H c.
  assert (Hc : existsb (Calculation_eqb c) calls = true).
  { apply H. destruct c; cbn; auto. }
  apply existsb_exists in Hc. destruct Hc as [c' [Hin Heq]].
  apply Calculation_eqb_eq in Heq. now subst c'.
Qed.

Lemma calculate_stores (pad : bool) (c : Calculation) :
  stores_result (category c) (calculate pad c).
Proof.
  intros self. destruct c; cbn [calculate category].
  - destruct (calculate_profitability_ratios_stores self) as (df & H & _). eauto.
  - destruct (calculate_liquidity_ratios_stores self) as (df & H & _). eauto.
  - destruct (calculate_leverage_ratios_stores self) as (df & H & _). eauto.
  - destruct (calculate_efficiency_ratios_stores pad self) as (df & H & _). eauto.
Qed.

Lemma calculate_reads (pad : bool) (c : Calculation) :
  reads_only_tables (calculate pad c).
Proof.
  destruct c; cbn [calculate];
    auto using calculate_profitability_ratios_reads, calculate_liquidity_ratios_reads,
      calculate_leverage_ratios_reads, calculate_efficiency_ratios_reads.
Qed.

(** A calculation stores the table of the two input tables, whatever the
    instance held before. *)
Lemma calculate_table (pad : bool) (c : Calculation) (self : Analyzer) :
  calculate pad c self =
  Returns (table_of pad c (income self) (balance self),
           {| income := income self; balance := balance self;
              ratios := assign (category c) (table_of pad c (income self) (balance self))
                          (ratios self) |}).
Proof.
  destruct (calculate_stores pad c self) as [df Hrun].
  destruct (calculate_stores pad c (FinancialRatioAnalyzer (income self) (balance self)))
    as [df0 Hrun0].
  pose proof (calculate_reads pad c self
                (FinancialRatioAnalyzer (income self) (balance self))
                eq_refl eq_refl) as H.
  rewrite Hrun, Hrun0 in H. cbn [result] in H. injection H as ->.
  unfold table_of. now rewrite Hrun0, Hrun.
Qed.

(** After a sequence of calls, a calculation that was called has its table
    stored, and a key that no call writes holds what it held. *)
Lemma calculate_each_lookup (pad : bool) (calls : list Calculation) (self : Analyzer) :
  exists self',
    calculate_each pad calls self = Returns (tt, self') /\
    income self' = income self /\ balance self' = balance self /\
    (forall c, In c calls ->
       lookup (category c) (ratios self')
         = Some (table_of pad c (income self) (balance self))) /\
    (forall key, (forall c, In c calls -> String.eqb (category c) key = false) ->
       lookup key (ratios self') = lookup key (ratios self)).
Proof.
  revert self; induction calls as [|c0 calls IH]; intros self.
  - exists self. cbn. split_all; try reflexivity. intros c [].
  - cbn [calculate_each]. unfold bind at 1. rewrite calculate_table.
    set (self1 := {| income := income self; balance := balance self;
                     ratios := assign (category c0) _ (ratios self) |}).
    destruct (IH self1) as (self' & Hrun & Hinc & Hbal & Hcalled & Hother).
    exists self'. split; [exact Hrun|]. split; [exact Hinc|]. split; [exact Hbal|].
    split.
    + intros c Hin. destruct (in_dec Calculation_eq_dec c calls) as [Hc|Hc].
      * exact (Hcalled c Hc).
      * destruct Hin as [->|Hin]; [|contradiction].
        rewrite Hother.
        -- apply lookup_assign_same.
        -- intros c' Hc'. apply category_inj. intros ->. contradiction.
    + intros key Hkey. rewrite Hother.
      * apply lookup_assign_other. apply Hkey. now left.
      * intros c Hc. apply Hkey. now right.
Qed.

(** The summary reads the years and the four stored tables, nothing else
    of the instance. *)
Lemma generate_ratio_summary_lookups (s1 s2 : Analyzer) (df : DataFrame) :
  col iYear (income s2) = col iYear (income s1) ->
  (forall c, lookup (category c) (ratios s2) = lookup (category c) (ratios s1)) ->
  generate_ratio_summary s1 = Returns (df, s1) ->
  generate_ratio_summary s2 = Returns (df, s2).
Proof.
  intros Hy Hr.
  pose proof (Hr Profitability) as Hp. pose proof (Hr Liquidity) as Hq.
  pose proof (Hr Leverage) as Hl. pose proof (Hr Efficiency) as He.
  cbn [category] in Hp, Hq, Hl, He.
  cbv beta iota delta [generate_ratio_summary bind get_self subscript ret raise].
  rewrite Hy, Hp, Hq, Hl, He.
  repeat (match goal with
          | |- context [match lookup ?k ?d with _ => _ end] =>
              destruct (lookup k d); cbv beta iota; try discriminate
          end).
  now intros [= <-].
Qed.

(** The benchmark table is made of the summary alone. *)
Lemma benchmark_of_summary (industry_benchmarks : list (string * float))
    (s1 s2 : Analyzer) (summary : DataFrame) :
  generate_ratio_summary s1 = Returns (summary, s1) ->
  generate_ratio_summary s2 = Returns (summary, s2) ->
  result (benchmark_against_industry industry_benchmarks s2) =
  result (benchmark_against_industry industry_benchmarks s1).
Proof.
  intros H1 H2. unfold benchmark_against_industry.
  set (items := match industry_benchmarks with [] => default_benchmarks | _ => _ end).
  unfold bind at 1 3. rewrite H1, H2. unfold bind, subscript.
  destruct (lookup "Year" (columns summary)) as [year|]; [|reflexivity].
  cbv beta iota delta [ret].
  destruct (for_each_benchmark_pure summary items (DataFrame_of [ ("Year", year) ]))
    as [[df|e] Ho]; now rewrite !Ho.
Qed.

Lemma calculated_tables (pad : bool) (income_df : IncomeStatement)
    (balance_df : BalanceSheet) :
  income (calculated pad income_df balance_df) = income_df /\
  (forall c, lookup (category c) (ratios (calculated pad income_df balance_df))
             = Some (table_of pad c income_df balance_df)) /\
  generate_ratio_summary (calculated pad income_df balance_df)
    = Returns (summary_of (calculated pad income_df balance_df),
               calculated pad income_df balance_df).
Proof.
  destruct (four_calculations pad income_df balance_df)
    as (p & q & l & e & Hp & Hq & Hl & He & Hcalc & _).
  cbv beta in Hp, Hq, Hl, He, Hcalc.
  destruct (calculate_each_lookup pad [Profitability; Liquidity; Leverage; Efficiency]
              (FinancialRatioAnalyzer income_df balance_df))
    as (self' & Hrun & _ & _ & Hcalled & _).
  assert (Hself : self' = calculated pad income_df balance_df).
  { revert Hrun. cbn [calculate_each calculate]. unfold bind.
    rewrite Hp. cbv beta iota. rewrite Hq. cbv beta iota.
    rewrite Hl. cbv beta iota. rewrite He. cbv beta iota delta [ret].
    rewrite <- Hcalc. now intros [= <-]. }
  subst self'. split; [now rewrite Hcalc|]. split.
  - intros c. apply Hcalled. destruct c; cbn; auto.
  - destruct (calculated_summary pad income_df balance_df)
      as (v1 & v2 & v3 & v4 & v5 & v6 & Hsum).
    unfold summary_of. rewrite Hsum. cbv beta iota. reflexivity.
Qed.

(** X11.  The summary and the benchmark table do not depend on the order
    of the four calculations, on calls made more than once, or on what
    [self.ratios] held before: once each calculation has been called, they
    are those of the run of [__main__] on the same two tables. *)
Theorem X11_summary_any_order (pad : bool) (calls : list Calculation) (self : Analyzer) :
  calls_all calls = true ->
  exists self',
    calculate_each pad calls self = Returns (tt, self') /\
    income self' = income self /\ balance self' = balance self /\
    let reference := calculated pad (income self) (balance self) in
    generate_ratio_summary self' = Returns (summary_of reference, self') /\
    forall industry_benchmarks,
      result (benchmark_against_industry industry_benchmarks self') =
      result (benchmark_against_industry industry_benchmarks reference).
Proof.
  intros Hall. pose proof (calls_all_In calls Hall) as Hin.
  destruct (calculate_each_lookup pad calls self)
    as (self' & Hrun & Hinc & Hbal & Hcalled & _).
  destruct (calculated_tables pad (income self) (balance self))
    as (Hinc' & Htables & Hsum).
  exists self'. split; [exact Hrun|]. split; [exact Hinc|]. split; [exact Hbal|].
  intros reference. fold reference in Hinc', Htables, Hsum.
  assert (Hsum' : generate_ratio_summary self' = Returns (summary_of reference, self')).
  { apply (generate_ratio_summary_lookups reference self'); [| |exact Hsum].
    - now rewrite Hinc, Hinc'.
    - intros c. now rewrite Htables, (Hcalled c (Hin c)). }
  split; [exact Hsum'|].
  intros industry_benchmarks.
  now apply benchmark_of_summary with (summary_of reference).
Qed.

(** Witness of X11: the sample data with a stale table stored, the
    calculations called in reverse and one of them twice. *)
Lemma X11_summary_any_order_witness :
  let self := {| income := income_data; balance := balance_data;
                 ratios := [ ("efficiency", example_frame) ] |} in
  exists self',
    calculate_each true [Efficiency; Leverage; Liquidity; Profitability; Leverage] self
      = Returns (tt, self') /\
    income self' = income self /\ balance self' = balance self /\
    let reference := calculated true (income self) (balance self) in
    generate_ratio_summary self' = Returns (summary_of reference, self') /\
    forall industry_benchmarks,
      result (benchmark_against_industry industry_benchmarks self') =
      result (benchmark_against_industry industry_benchmarks reference).
Proof.
  apply (X11_summary_any_order true
           [Efficiency; Leverage; Liquidity; Profitability; Leverage]
           {| income := income_data; balance := balance_data;
              ratios := [ ("efficiency", example_frame) ] |}).
  reflexivity.
Defined.

(** ** The DuPont table and the stored tables *)

Section DuPontComponents.

Variable self : Analyzer.
Variables (i : nat) (ir : IncomeRow) (br : BalanceRow).
Hypothesis Hir : nth_error (income self) i = Some ir.
Hypothesis Hbr : nth_error (balance self) i = Some br.

Lemma dupont_component_cells :
  exists df,
    analyze_dupont_model self = Returns (df, self) /\
    holds df "Year" i (iYear ir) /\
    holds df "Net_Margin_%" i (Net_Income ir / Revenue ir * 100) /\
    holds df "Asset_Turnover" i (Revenue ir / Total_Assets br) /\
    holds df "Equity_Multiplier" i (Total_Assets br / Shareholders_Equity br) /\
    holds df "ROE_Actual_%" i (Net_Income ir / Shareholders_Equity br * 100).
Proof.
  unfold analyze_dupont_model. run_method.
  eexists. split; [reflexivity|].
  set (d := [ ("Year", Numeric (col iYear (income self)));
              ("Net_Margin_%", _); ("Asset_Turnover", _); ("Equity_Multiplier", _) ]).
  assert (Hyear : holds (DataFrame_of d) "Year" i (iYear ir)).
  { eapply holds_DataFrame_of; [reflexivity | series_cell]. }
  split_all;
    try (do 2 (apply holds_setitem_other; [reflexivity|]);
         first [ exact Hyear
               | eapply holds_DataFrame_of; [reflexivity | series_cell] ]).
  apply holds_setitem_same; [series_cell|].
  apply (holds_lt _ "Year" _ (iYear ir)).
  apply holds_setitem_other; [reflexivity | exact Hyear].
Qed.

End DuPontComponents.

(** X12.  For a year held in the same row of both tables, the DuPont table
    has the income statement's year, Net_Margin_% = Net_Income / Revenue *
    100, Asset_Turnover = Revenue / Total_Assets and Equity_Multiplier =
    Total_Assets / Shareholders_Equity; and its cells are bit for bit those
    of the other tables: Net_Margin_% and ROE_Actual_% are the
    profitability table's Net_Margin_% and ROE_%, Asset_Turnover the
    efficiency table's, Equity_Multiplier the leverage table's. *)
Theorem X12_dupont_components (pad : bool) (self : Analyzer) (i : nat)
    (ir : IncomeRow) (br : BalanceRow) :
  nth_error (income self) i = Some ir ->
  nth_error (balance self) i = Some br ->
  exists dupont profitability leverage efficiency self1 self2 self3,
    analyze_dupont_model self = Returns (dupont, self) /\
    calculate_profitability_ratios self = Returns (profitability, self1) /\
    calculate_leverage_ratios self = Returns (leverage, self2) /\
    calculate_efficiency_ratios pad self = Returns (efficiency, self3) /\
    cell dupont "Year" i = Some (iYear ir) /\
    cell dupont "Net_Margin_%" i = Some (Net_Income ir / Revenue ir * 100)%float /\
    cell dupont "Asset_Turnover" i = Some (Revenue ir / Total_Assets br)%float /\
    cell dupont "Equity_Multiplier" i
      = Some (Total_Assets br / Shareholders_Equity br)%float /\
    cell dupont "Net_Margin_%" i = cell profitability "Net_Margin_%" i /\
    cell dupont "ROE_Actual_%" i = cell profitability "ROE_%" i /\
    cell dupont "Asset_Turnover" i = cell efficiency "Asset_Turnover" i /\
    cell dupont "Equity_Multiplier" i = cell leverage "Equity_Multiplier" i.
Proof.
  intros Hir Hbr.
  destruct (dupont_component_cells self i ir br Hir Hbr)
    as (dupont & Hd & Hy & Hnm & Hat & Hem & Hroe).
  destruct (profitability_income_cells self i ir Hir)
    as (profitability & self1 & Hp & _ & _ & _ & Hpnm).
  destruct (profitability_balance_cells self i ir Hir br Hbr)
    as (profitability' & self1' & Hp' & _ & Hproe).
  rewrite Hp in Hp'. injection Hp' as <- <-.
  destruct (leverage_cells self i ir br Hir Hbr)
    as (leverage & self2 & Hl & _ & _ & _ & Hlem & _).
  destruct (efficiency_turnover_cells self i ir br Hir Hbr pad)
    as (efficiency & self3 & He & _ & Heat & _).
  exists dupont, profitability, leverage, efficiency, self1, self2, self3.
  apply holds_cell in Hy, Hnm, Hat, Hem, Hroe, Hpnm, Hproe, Hlem, Heat.
  split_all; try assumption; congruence.
Qed.

(** Witness of X12: the year 2016 of the sample data. *)
Lemma X12_dupont_components_witness :
  let self := FinancialRatioAnalyzer income_data balance_data in
  exists dupont profitability leverage efficiency self1 self2 self3,
    analyze_dupont_model self = Returns (dupont, self) /\
    calculate_profitability_ratios self = Returns (profitability, self1) /\
    calculate_leverage_ratios self = Returns (leverage, self2) /\
    calculate_efficiency_ratios true self = Returns (efficiency, self3) /\
    cell dupont "Year" 1 = Some 2016%float /\
    cell dupont "Net_Margin_%" 1 = Some (18.4 / 826.6 * 100)%float /\
    cell dupont "Asset_Turnover" 1 = Some (826.6 / 1320.0)%float /\
    cell dupont "Equity_Multiplier" 1 = Some (1320.0 / 300.0)%float /\
    cell dupont "Net_Margin_%" 1 = cell profitability "Net_Margin_%" 1 /\
    cell dupont "ROE_Actual_%" 1 = cell profitability "ROE_%" 1 /\
    cell dupont "Asset_Turnover" 1 = cell efficiency "Asset_Turnover" 1 /\
    cell dupont "Equity_Multiplier" 1 = cell leverage "Equity_Multiplier" 1.
Proof.
  apply (X12_dupont_components true (FinancialRatioAnalyzer income_data balance_data) 1
           (mkIncomeRow 2016 826.6 342.4 484.2 465.2 19.0 18.5 18.4)
           (mkBalanceRow 2016 1320.0 480.0 840.0 1020.0 410.0 610.0 300.0));
    reflexivity.
Defined.
